(** * The schema-guarded data-access layer of [src/lib/queries.ts]

    The operations of [queries.ts] are thin clients of a hosted tabular
    store: every one of them builds a few requests with the store's query
    builder, awaits the replies and shapes them.  The development has three
    layers:

    - [Store]: rows, requests (the query builder), the reply of the store
      to a request and the failures it can answer with;
    - [Js]: the effects of the TypeScript code (remote call, clock,
      console, exceptions and [try]/[catch]) as a state-and-exception
      monad over the [World];
    - [Queries]: the exported operations, one definition per function of
      [queries.ts], in the order of the source;
    - [Ui], [ConnectionButton], [ProfilePage]: the handlers of the two
      components that call the store and the operations, as computations
      over the state of the component and the [World].

    The store itself is the client library and the database behind it, not
    code of the repository.  [Store] fixes what the operations rely on:
    filters select rows, [order] sorts them, [range] and [limit] cut a
    window, [insert], [update], [upsert] and [delete] change a table, and
    [.single()] and [.maybeSingle()] turn the rows into one object as the
    client documents it.  Numbers ([page], [limit], counts, timestamps) are
    integers. *)

From Stdlib Require Import List String ZArith Bool Lia Arith.
From Stdlib Require Import Sorting.Sorted.
Import ListNotations.

Set Implicit Arguments.

Local Open Scope string_scope.

(* ================================================================== *)
(** * Rows and values of the store *)
(* ================================================================== *)

Module Store.

(** A column value.  Timestamps ([new Date().toISOString()]) are kept as a
    number of milliseconds, [CNum]; for ISO-8601 strings in UTC the
    lexicographic and the chronological order coincide.  A column that is
    absent from a row reads as [CNull] ([undefined] and [null] are not
    told apart). *)
Inductive Cell : Type :=
  | CNull
  | CBool (b : bool)
  | CNum (n : Z)
  | CStr (s : string)
  | CList (l : list string).

Definition cell_eqb (a b : Cell) : bool :=
  match a, b with
  | CNull, CNull => true
  | CBool x, CBool y => Bool.eqb x y
  | CNum x, CNum y => Z.eqb x y
  | CStr x, CStr y => String.eqb x y
  | CList x, CList y => if list_eq_dec string_dec x y then true else false
  | _, _ => false
  end.

(** JavaScript truthiness of a column value ([x || d], [!!x]). *)
Definition truthy (c : Cell) : bool :=
  match c with
  | CNull => false
  | CBool b => b
  | CNum n => negb (Z.eqb n 0)
  | CStr s => negb (String.eqb s "")
  | CList _ => true
  end.

(** A row is a JavaScript object: column names with their values. *)
Definition Row : Type := list (string * Cell).

Fixpoint get (k : string) (r : Row) : Cell :=
  match r with
  | [] => CNull
  | (k', v) :: r' => if String.eqb k k' then v else get k r'
  end.

Fixpoint has (k : string) (r : Row) : bool :=
  match r with
  | [] => false
  | (k', _) :: r' => String.eqb k k' || has k r'
  end.

(** [{...r, k: v}]: the property is overwritten where it is, appended
    otherwise. *)
Fixpoint set (k : string) (v : Cell) (r : Row) : Row :=
  match r with
  | [] => [(k, v)]
  | (k', v') :: r' =>
      if String.eqb k k' then (k, v) :: r' else (k', v') :: set k v r'
  end.

(** [{...base, ...over}]. *)
Definition spread (base over : Row) : Row :=
  fold_left (fun acc kv => set (fst kv) (snd kv) acc) over base.

(** The columns the store fills in on insert for those the request leaves
    out. *)
Definition fill (given dflt : Row) : Row :=
  (given ++ filter (fun kv => negb (has (fst kv) given)) dflt)%list.

(** An object of a reply: the columns of a row and the rows embedded in it
    under a name ([author: {...}], a joined [requester] profile); an embedded
    resource that does not exist is [None] ([null]). *)
Record Obj : Type := mkObj {
  fields : Row;
  embedded : list (string * option Row)
}.

Definition plain (r : Row) : Obj := mkObj r [].

Fixpoint sub (k : string) (l : list (string * option Row)) : option Row :=
  match l with
  | [] => None
  | (k', v) :: l' => if String.eqb k k' then v else sub k l'
  end.

(** [{...o, k: r}] for an object-valued property. *)
Definition attach (k : string) (r : Row) (o : Obj) : Obj :=
  mkObj (fields o) ((k, Some r) :: embedded o).

(* ------------------------------------------------------------------ *)
(** ** Requests: the query builder *)
(* ------------------------------------------------------------------ *)

(** Filters.  The source writes [.or(...)] and [.not(...)] filters as
    strings with the identifiers spliced in; they are kept here in parsed
    form.  As in SQL, a comparison with a null column is not satisfied. *)
Inductive Filter : Type :=
  | Eq (col : string) (v : string)
  | Neq (col : string) (v : string)
  | In (col : string) (vs : list Cell)
  | NotIn (col : string) (vs : list Cell)
  | And (l r : Filter)
  | Or (l r : Filter).

Definition mem (c : Cell) (vs : list Cell) : bool := existsb (cell_eqb c) vs.

Definition is_null (c : Cell) : bool :=
  match c with CNull => true | _ => false end.

Fixpoint holds (f : Filter) (r : Row) : bool :=
  match f with
  | Eq col v => cell_eqb (get col r) (CStr v)
  | Neq col v => negb (is_null (get col r)) && negb (cell_eqb (get col r) (CStr v))
  | In col vs => negb (is_null (get col r)) && mem (get col r) vs
  | NotIn col vs => negb (is_null (get col r)) && negb (mem (get col r) vs)
  | And l r' => holds l r && holds r' r
  | Or l r' => holds l r || holds r' r
  end.

Definition holds_all (fs : list Filter) (r : Row) : bool :=
  forallb (fun f => holds f r) fs.

Inductive Cols : Type :=
  | AllCols
  | Only (cs : list string).

(** An embedded resource of a select: the property name, the table it is
    read from and the foreign-key column of the embedding row. *)
Record Embed : Type := mkEmbed {
  e_name : string;
  e_table : string;
  e_fkey : string
}.

Inductive Verb : Type :=
  | Select (cols : Cols) (embeds : list Embed) (head : bool)
  | Insert (r : Row)
  | Upsert (r : Row)
  | Update (r : Row)
  | Delete
  | Rpc (fn : string) (arg : string).

Record Query : Type := mkQuery {
  q_table : string;
  q_verb : Verb;
  q_where : list Filter;
  q_order : option (string * bool);      (* column, ascending *)
  q_limit : option Z;
  q_range : option (Z * Z);
  q_returning : bool                     (* [.select()] after a write *)
}.

Definition from (t : string) : string := t.
Arguments from t /.

Definition mk (t : string) (v : Verb) : Query :=
  mkQuery t v [] None None None false.

Definition select (cols : Cols) (t : string) : Query :=
  mk t (Select cols [] false).
Definition select_embed (cols : Cols) (es : list Embed) (t : string) : Query :=
  mk t (Select cols es false).
(** A select with the options [count: 'exact', head: true]. *)
Definition select_count (t : string) : Query :=
  mk t (Select AllCols [] true).
Definition insert (r : Row) (t : string) : Query := mk t (Insert r).
Definition upsert (r : Row) (t : string) : Query := mk t (Upsert r).
Definition update (r : Row) (t : string) : Query := mk t (Update r).
Definition delete (t : string) : Query := mk t Delete.
Definition rpc (fn : string) (arg : string) : Query := mk fn (Rpc fn arg).

Definition filter_by (f : Filter) (q : Query) : Query :=
  mkQuery (q_table q) (q_verb q) (q_where q ++ [f])%list (q_order q) (q_limit q)
          (q_range q) (q_returning q).
Definition eq (col v : string) : Query -> Query := filter_by (Eq col v).
Definition neq (col v : string) : Query -> Query := filter_by (Neq col v).
Definition in_ (col : string) (vs : list Cell) : Query -> Query :=
  filter_by (In col vs).
Definition not_in (col : string) (vs : list Cell) : Query -> Query :=
  filter_by (NotIn col vs).
Definition or_ (l r : Filter) : Query -> Query := filter_by (Or l r).

Definition order (col : string) (ascending : bool) (q : Query) : Query :=
  mkQuery (q_table q) (q_verb q) (q_where q) (Some (col, ascending))
          (q_limit q) (q_range q) (q_returning q).
Definition limit (n : Z) (q : Query) : Query :=
  mkQuery (q_table q) (q_verb q) (q_where q) (q_order q) (Some n)
          (q_range q) (q_returning q).
Definition range (lo hi : Z) (q : Query) : Query :=
  mkQuery (q_table q) (q_verb q) (q_where q) (q_order q) (q_limit q)
          (Some (lo, hi)) (q_returning q).
Definition returning (q : Query) : Query :=
  mkQuery (q_table q) (q_verb q) (q_where q) (q_order q) (q_limit q)
          (q_range q) true.

Definition is_write (q : Query) : bool :=
  match q_verb q with
  | Select _ _ _ => false
  | _ => true
  end.

(* ------------------------------------------------------------------ *)
(** ** Replies *)
(* ------------------------------------------------------------------ *)

Record PgError : Type := mkError { code : string }.

(** The [{ data, error, count }] a request resolves to; [data] is a list
    of objects, or one object after [.single()] or [.maybeSingle()]. *)
Record Response (A : Type) : Type := mkResponse {
  data : option A;
  error : option PgError;
  count : option Z
}.

Definition ok {A} (d : A) : Response A := mkResponse (Some d) None None.
Definition nothing {A} : Response A := mkResponse None None None.
Definition failed {A} (c : string) : Response A :=
  mkResponse None (Some (mkError c)) None.

(** The error of [.single()] and [.maybeSingle()]: "JSON object requested,
    multiple (or no) rows returned" (HTTP 406). *)
Definition PGRST116 : string := "PGRST116".

(* ------------------------------------------------------------------ *)
(** ** Ordering *)
(* ------------------------------------------------------------------ *)

Definition sort_key (col : string) (r : Row) : option Z :=
  match get col r with
  | CNum n => Some n
  | _ => None
  end.

(** [key_geb x y]: [x] may stand before [y] in descending order; nulls
    come first in descending and last in ascending order. *)
Definition key_geb (x y : option Z) : bool :=
  match x, y with
  | None, _ => true
  | Some _, None => false
  | Some a, Some b => Z.leb b a
  end.

Definition before (col : string) (ascending : bool) (a b : Row) : bool :=
  if ascending then key_geb (sort_key col b) (sort_key col a)
  else key_geb (sort_key col a) (sort_key col b).

Fixpoint insert_by (le : Row -> Row -> bool) (x : Row) (l : list Row)
  : list Row :=
  match l with
  | [] => [x]
  | y :: l' => if le x y then x :: l else y :: insert_by le x l'
  end.

Definition sort_by (le : Row -> Row -> bool) (l : list Row) : list Row :=
  fold_right (insert_by le) [] l.

Definition ordered (o : option (string * bool)) (l : list Row) : list Row :=
  match o with
  | None => l
  | Some (col, asc) => sort_by (before col asc) l
  end.

(* ------------------------------------------------------------------ *)
(** ** The store and its answer to a request *)
(* ------------------------------------------------------------------ *)

(** What the store can do instead of answering a request: reply with an
    error object, or fail so that the client call throws. *)
Inductive Fault : Type :=
  | ErrorReply (c : string)
  | NetworkThrow.

(** The world the operations run in.  [faults n] is what happens to the
    [n]-th request ever issued (requests are counted by [log]); [defaults]
    are the column defaults of each table; [strict_range] says whether the
    store rejects a range that starts after the last row. *)
Record World : Type := mkWorld {
  tables : string -> list Row;
  defaults : string -> Row;
  strict_range : bool;
  faults : nat -> option Fault;
  clock : nat -> Z;
  ticks : nat;
  log : list Query;
  console : list string
}.

Definition Tables : Type := string -> list Row.

Definition put (t : string) (rows : list Row) (tabs : Tables) : Tables :=
  fun t' => if String.eqb t' t then rows else tabs t'.

Definition matching (q : Query) (tabs : Tables) : list Row :=
  filter (holds_all (q_where q)) (tabs (q_table q)).

(** Range and limit of a select: [.range(lo, hi)] is an offset [lo] with a
    limit [hi - lo + 1]. *)
Definition window (strict : bool) (q : Query) (l : list Row)
  : string + list Row :=
  match q_range q with
  | Some (lo, hi) =>
      if (lo <? 0)%Z then inl "2201X"
      else if (hi - lo + 1 <? 0)%Z then inl "2201W"
      else if strict && (Z.of_nat (List.length l) <? lo)%Z then inl "PGRST103"
      else inr (firstn (Z.to_nat (hi - lo + 1)) (skipn (Z.to_nat lo) l))
  | None =>
      match q_limit q with
      | Some n => if (n <? 0)%Z then inl "2201W" else inr (firstn (Z.to_nat n) l)
      | None => inr l
      end
  end.

Definition project (cols : Cols) (r : Row) : Row :=
  match cols with
  | AllCols => r
  | Only cs => map (fun c => (c, get c r)) cs
  end.

Definition lookup_fk (tabs : Tables) (e : Embed) (r : Row) : option Row :=
  find (fun p => negb (is_null (get "id" p))
                 && cell_eqb (get "id" p) (get (e_fkey e) r))
       (tabs (e_table e)).

Definition to_obj (tabs : Tables) (cols : Cols) (es : list Embed) (r : Row)
  : Obj :=
  mkObj (project cols r) (map (fun e => (e_name e, lookup_fk tabs e r)) es).

(** [.single()] wants exactly one row, [.maybeSingle()] at most one: no
    row at all is the error [PGRST116] for the first and a null [data]
    without error for the second; several rows are [PGRST116] for both. *)
Definition one (exactly : bool) (r : Response (list Obj)) : Response Obj :=
  match error r, data r with
  | Some e, _ => mkResponse None (Some e) None
  | None, Some [o] => ok o
  | None, Some [] => if exactly then failed PGRST116 else nothing
  | None, Some (_ :: _ :: _) => failed PGRST116
  | None, None => nothing
  end.

Definition written (q : Query) (rows : list Row) : Response (list Obj) :=
  if q_returning q then ok (map plain rows) else nothing.

(** Modelled from the spec: the columns on which an [upsert] into a table
    conflicts are part of the schema of the store, which is not among the
    sources.  A view record is keyed by (viewer, profile); every other
    table by its [id]. *)
Definition conflict_key (t : string) : list string :=
  if String.eqb t "profile_views" then ["viewer_id"; "profile_id"]
  else ["id"].

(** The stored row [p] is the one an upsert of [r] falls on: [r] gives
    every column of the key and [p] has the same values there. *)
Definition same_key (key : list string) (r p : Row) : bool :=
  forallb (fun k => negb (is_null (get k r)) && cell_eqb (get k p) (get k r))
          key.

Definition bump (d : Z) (r : Row) : Row :=
  match get "likes_count" r with
  | CNum n => set "likes_count" (CNum (n + d)) r
  | _ => set "likes_count" (CNum d) r
  end.

(** Modelled from the spec: the two counter-adjustment remote procedures
    [increment_likes_count] and [decrement_likes_count] live in the store
    and are not part of the sources; they adjust [likes_count] of the post
    they are given. *)
Definition run_rpc (fn arg : string) (tabs : Tables) : option Tables :=
  let adjust d :=
    put "posts"
        (map (fun r => if holds (Eq "id" arg) r then bump d r else r)
             (tabs "posts")) tabs in
  if String.eqb fn "increment_likes_count" then Some (adjust 1%Z)
  else if String.eqb fn "decrement_likes_count" then Some (adjust (-1)%Z)
  else None.

(** The answer of a healthy store to a request, with the tables after it. *)
Definition answer (strict : bool) (dflt : string -> Row) (tabs : Tables)
  (q : Query) : Response (list Obj) * Tables :=
  let t := q_table q in
  match q_verb q with
  | Select cols es head =>
      let rows := matching q tabs in
      if head then
        (mkResponse None None (Some (Z.of_nat (List.length rows))), tabs)
      else
        match window strict q (ordered (q_order q) rows) with
        | inl c => (failed c, tabs)
        | inr page => (ok (map (to_obj tabs cols es) page), tabs)
        end
  | Insert r =>
      let r' := fill r (dflt t) in
      (written q [r'], put t (tabs t ++ [r'])%list tabs)
  | Upsert r =>
      let hit := same_key (conflict_key t) r in
      if existsb hit (tabs t) then
        (written q (map (fun p => spread p r) (filter hit (tabs t))),
         put t (map (fun p => if hit p then spread p r else p) (tabs t)) tabs)
      else
        let r' := fill r (dflt t) in
        (written q [r'], put t (tabs t ++ [r'])%list tabs)
  | Update r =>
      let hit := holds_all (q_where q) in
      (written q (map (fun p => spread p r) (filter hit (tabs t))),
       put t (map (fun p => if hit p then spread p r else p) (tabs t)) tabs)
  | Delete =>
      (nothing,
       put t (filter (fun p => negb (holds_all (q_where q) p)) (tabs t)) tabs)
  | Rpc fn arg =>
      match run_rpc fn arg tabs with
      | Some tabs' => (nothing, tabs')
      | None => (failed "PGRST202", tabs)
      end
  end.

End Store.

(* ================================================================== *)
(** * The effects of the TypeScript code *)
(* ================================================================== *)

Module Js.
Import Store.

Inductive Exn : Type :=
  | NetworkError
  | TypeError
  | Thrown (e : PgError).

Inductive Outcome (A : Type) : Type :=
  | Returned (a : A)
  | Raised (e : Exn).
Arguments Raised {A} e.

(** A computation runs in a world and either returns or throws. *)
Definition Js (A : Type) : Type := World -> Outcome A * World.

Definition ret {A} (a : A) : Js A := fun w => (Returned a, w).

Definition bind {A B} (m : Js A) (k : A -> Js B) : Js B :=
  fun w =>
    match m w with
    | (Returned a, w') => k a w'
    | (Raised e, w') => (Raised e, w')
    end.

Definition throw {A} (e : Exn) : Js A := fun w => (Raised e, w).

Definition try_catch {A} (body : Js A) (handler : Exn -> Js A) : Js A :=
  fun w =>
    match body w with
    | (Returned a, w') => (Returned a, w')
    | (Raised e, w') => handler e w'
    end.

Declare Scope js_scope.
Delimit Scope js_scope with js.
Notation "x <- m ;; k" := (bind m (fun x => k))
  (at level 61, m at next level, right associativity) : js_scope.
Notation "m ;; k" := (bind m (fun _ => k))
  (at level 61, right associativity) : js_scope.

Definition with_log (q : Query) (w : World) : World :=
  mkWorld (tables w) (defaults w) (strict_range w) (faults w) (clock w)
          (ticks w) (log w ++ [q])%list (console w).

Definition with_tables (tabs : Tables) (w : World) : World :=
  mkWorld tabs (defaults w) (strict_range w) (faults w) (clock w)
          (ticks w) (log w) (console w).

(** [await <request>]: the request is recorded; the store answers it unless
    a fault is due, in which case nothing is read or written. *)
Definition await (q : Query) : Js (Response (list Obj)) :=
  fun w =>
    match faults w (List.length (log w)) with
    | Some NetworkThrow => (Raised NetworkError, with_log q w)
    | Some (ErrorReply c) => (Returned (failed c), with_log q w)
    | None =>
        let (r, tabs) := answer (strict_range w) (defaults w) (tables w) q in
        (Returned r, with_tables tabs (with_log q w))
    end.

(** [await <request>.single()] and [await <request>.maybeSingle()] *)
Definition single (q : Query) : Js (Response Obj) :=
  fun w => match await q w with
           | (Returned r, w') => (Returned (one true r), w')
           | (Raised e, w') => (Raised e, w')
           end.

Definition maybeSingle (q : Query) : Js (Response Obj) :=
  fun w => match await q w with
           | (Returned r, w') => (Returned (one false r), w')
           | (Raised e, w') => (Raised e, w')
           end.

(** [new Date().toISOString()] *)
Definition now : Js Cell :=
  fun w =>
    (Returned (CNum (clock w (ticks w))),
     mkWorld (tables w) (defaults w) (strict_range w) (faults w) (clock w)
             (S (ticks w)) (log w) (console w)).

(** [debugLog]: a line on the console, the only trace a failure leaves. *)
Definition debugLog (message : string) : Js unit :=
  fun w =>
    (Returned tt,
     mkWorld (tables w) (defaults w) (strict_range w) (faults w) (clock w)
             (ticks w) (log w) (console w ++ [message])%list).

Definition result {A} (m : Js A) (w : World) : Outcome A := fst (m w).
Definition after {A} (m : Js A) (w : World) : World := snd (m w).

End Js.

(* ================================================================== *)
(** * The exported operations of [queries.ts] *)
(* ================================================================== *)

Module Queries.
Import Store Js.
Local Open Scope js_scope.

Notation "x |> f" := (f x) (at level 59, left associativity, only parsing).

(** What an operation resolves to: [void], [null], a boolean, a column
    value, one object or a list of objects. *)
Inductive Result : Type :=
  | RVoid
  | RNull
  | RBool (b : bool)
  | RCell (c : Cell)
  | RObj (o : Obj)
  | RList (l : list Obj).

(** [return data] for the [data] of a single-object reply. *)
Definition of_data (d : option Obj) : Result :=
  match d with
  | Some o => RObj o
  | None => RNull
  end.

(** [return data || []] *)
Definition or_empty (d : option (list Obj)) : Result :=
  match d with
  | Some l => RList l
  | None => RList []
  end.

(** [if (error) throw error] *)
Definition throw_if (e : option PgError) : Js unit :=
  match e with
  | Some err => throw (Thrown err)
  | None => ret tt
  end.

(** [if (error && error.code !== 'PGRST116') throw error] *)
Definition throw_unless_not_found (e : option PgError) : Js unit :=
  match e with
  | Some err => if String.eqb (code err) PGRST116 then ret tt
                else throw (Thrown err)
  | None => ret tt
  end.

Definition is_some {A} (o : option A) : bool :=
  match o with Some _ => true | None => false end.

(** Check if database schema exists *)
Definition checkSchemaExists : Js bool :=
  try_catch
    (r <- await (from "profiles" |> select (Only ["count"]) |> limit 1) ;;
     ret (negb (is_some (error r))))
    (fun _ => ret false).

(* ------------------------------------------------------------------ *)
(** ** Profile queries *)
(* ------------------------------------------------------------------ *)

Definition getProfile (userId : string) : Js Result :=
  try_catch
    (debugLog "Getting profile" ;;
     schemaExists <- checkSchemaExists ;;
     if negb schemaExists then
       debugLog "Database schema not found, creating profile in auth.users" ;;
       created_at <- now ;;
       updated_at <- now ;;
       ret (RObj (plain
         [ ("id", CStr userId);
           ("email", CStr "user@example.com");
           ("full_name", CStr "User");
           ("headline", CStr "Healthcare Professional");
           ("bio", CStr "");
           ("location", CStr "");
           ("avatar_url", CStr "");
           ("banner_url", CStr "");
           ("website", CStr "");
           ("phone", CStr "");
           ("specialization", CList ["General Medicine"]);
           ("is_premium", CBool false);
           ("profile_views", CNum 0);
           ("user_type", CStr "individual");
           ("profile_type", CStr "individual");
           ("created_at", created_at);
           ("updated_at", updated_at) ]))
     else
       r <- from "profiles" |> select AllCols |> eq "id" userId |> maybeSingle ;;
       match error r with
       | Some e =>
           debugLog "Error fetching profile" ;;
           (* If profile doesn't exist, create a basic one *)
           if String.eqb (code e) PGRST116 then
             debugLog "Profile not found, creating basic profile" ;;
             created_at <- now ;;
             updated_at <- now ;;
             ret (RObj (plain
               [ ("id", CStr userId);
                 ("email", CStr "user@example.com");
                 ("full_name", CStr "Healthcare Professional");
                 ("headline", CStr "Medical Professional");
                 ("bio", CStr "");
                 ("location", CStr "");
                 ("avatar_url", CStr "");
                 ("banner_url", CStr "");
                 ("website", CStr "");
                 ("phone", CStr "");
                 ("specialization", CList ["General Medicine"]);
                 ("is_premium", CBool false);
                 ("profile_views", CNum 0);
                 ("user_type", CStr "individual");
                 ("profile_type", CStr "individual");
                 ("created_at", created_at);
                 ("updated_at", updated_at) ]))
           else ret RNull
       | None =>
           debugLog "Profile fetched successfully" ;;
           ret (of_data (data r))
       end)
    (fun _ => debugLog "Error fetching profile" ;; ret RNull).

Definition updateProfile (userId : string) (updates : Row) : Js Result :=
  try_catch
    (debugLog "Updating profile" ;;
     schemaExists <- checkSchemaExists ;;
     if negb schemaExists then
       debugLog "Database schema not found, cannot update profile" ;;
       ret RNull
     else
       r <- from "profiles" |> update updates |> eq "id" userId
              |> returning |> single ;;
       throw_if (error r) ;;
       debugLog "Profile updated successfully" ;;
       ret (of_data (data r)))
    (fun _ => debugLog "Error updating profile" ;; ret RNull).

Definition ensureProfileExists (userId email fullName : string) : Js Result :=
  try_catch
    (debugLog "Ensuring profile exists" ;;
     schemaExists <- checkSchemaExists ;;
     if negb schemaExists then
       debugLog "Database schema not found, returning mock profile" ;;
       created_at <- now ;;
       updated_at <- now ;;
       ret (RObj (plain
         [ ("id", CStr userId);
           ("email", CStr email);
           ("full_name", CStr fullName);
           ("headline", CStr "Healthcare Professional");
           ("bio", CStr "");
           ("location", CStr "");
           ("avatar_url", CStr "");
           ("banner_url", CStr "");
           ("website", CStr "");
           ("phone", CStr "");
           ("specialization", CList ["General Medicine"]);
           ("is_premium", CBool false);
           ("profile_views", CNum 0);
           ("user_type", CStr "individual");
           ("profile_type", CStr "individual");
           ("created_at", created_at);
           ("updated_at", updated_at) ]))
     else
       (* First try to get existing profile *)
       r <- from "profiles" |> select AllCols |> eq "id" userId |> single ;;
       throw_unless_not_found (error r) ;;
       match data r with
       | None =>
           (* If profile doesn't exist, create it *)
           created_at <- now ;;
           updated_at <- now ;;
           c <- from "profiles"
                  |> insert [ ("id", CStr userId);
                              ("email", CStr email);
                              ("full_name", CStr fullName);
                              ("created_at", created_at);
                              ("updated_at", updated_at) ]
                  |> returning |> single ;;
           throw_if (error c) ;;
           debugLog "Profile created successfully" ;;
           ret (of_data (data c))
       | Some profile =>
           debugLog "Profile already exists" ;;
           ret (RObj profile)
       end)
    (fun _ => debugLog "Error ensuring profile exists" ;; ret RNull).

(* ------------------------------------------------------------------ *)
(** ** Post queries *)
(* ------------------------------------------------------------------ *)

Definition author_id (post : Obj) : Cell := get "author_id" (fields post).

(** The author summary of a post whose author is not known. *)
Definition unknownUser (post : Obj) : Row :=
  [ ("id", author_id post);
    ("full_name", CStr "Unknown User");
    ("avatar_url", CStr "");
    ("headline", CStr "");
    ("email", CStr "") ].

(** [[...new Set(xs)]]: the distinct values in order of first appearance. *)
Fixpoint distinct (seen xs : list Cell) : list Cell :=
  match xs with
  | [] => []
  | x :: xs' => if mem x seen then distinct seen xs'
                else x :: distinct (x :: seen) xs'
  end.

(** [new Map(pairs).get(k)]: of several entries with one key the last
    one stays. *)
Definition map_get (k : Cell) (pairs : list (Cell * Obj)) : option Obj :=
  fold_left (fun acc kv => if cell_eqb (fst kv) k then Some (snd kv) else acc)
            pairs None.

(** [count === 0] and [count || 0] for a count that may be null. *)
Definition is_zero (c : option Z) : bool :=
  match c with
  | Some n => Z.eqb n 0
  | None => false
  end.

Definition or_zero (c : option Z) : Z :=
  match c with
  | Some n => n
  | None => 0
  end.

(** [page] defaults to 0 and [limit] to 10 in the source. *)
Definition getPosts (page limit : Z) : Js Result :=
  try_catch
    (debugLog "Getting posts" ;;
     schemaExists <- checkSchemaExists ;;
     if negb schemaExists then
       debugLog "Database schema not found, returning empty posts" ;;
       ret (RList [])
     else
       (* First check if we have any posts at all *)
       c <- await (from "posts" |> select_count) ;;
       if is_zero (count c) then
           debugLog "No posts found, returning empty array" ;;
           ret (RList [])
       else
           (* Calculate proper offset *)
           let offset := Z.min (page * limit) (or_zero (count c)) in
           (* Get posts without join first *)
           p <- await (from "posts" |> select AllCols
                         |> order "created_at" false
                         |> range offset (offset + limit - 1)) ;;
           match error p with
           | Some _ => debugLog "Error fetching posts" ;; ret (RList [])
           | None =>
               match data p with
               | None | Some [] => debugLog "No posts returned" ;; ret (RList [])
               | Some posts =>
                   (* Get author IDs *)
                   let authorIds := distinct [] (map author_id posts) in
                   (* Fetch authors separately *)
                   a <- await (from "profiles"
                                 |> select (Only ["id"; "full_name"; "avatar_url";
                                                  "headline"; "email"])
                                 |> in_ "id" authorIds) ;;
                   match error a with
                   | Some _ =>
                       debugLog "Error fetching authors" ;;
                       (* Return posts without author info *)
                       ret (RList (map (fun post =>
                                          attach "author" (unknownUser post) post)
                                       posts))
                   | None =>
                       (* Create author lookup map *)
                       let authorMap :=
                         map (fun author => (get "id" (fields author), author))
                             (match data a with Some l => l | None => [] end) in
                       (* Combine posts with authors *)
                       let postsWithAuthors :=
                         map (fun post =>
                                attach "author"
                                  (match map_get (author_id post) authorMap with
                                   | Some author => fields author
                                   | None => unknownUser post
                                   end) post)
                             posts in
                       debugLog "Posts fetched successfully" ;;
                       ret (RList postsWithAuthors)
                   end
               end
           end)
    (fun _ => debugLog "Error fetching posts" ;; ret (RList [])).

Definition getPostsByAuthor (authorId : string) : Js Result :=
  try_catch
    (debugLog "Getting posts by author" ;;
     schemaExists <- checkSchemaExists ;;
     if negb schemaExists then
       debugLog "Database schema not found, returning empty posts" ;;
       ret (RList [])
     else
       (* Get posts without join first *)
       p <- await (from "posts" |> select AllCols |> eq "author_id" authorId
                     |> order "created_at" false) ;;
       match error p with
       | Some _ => debugLog "Error fetching posts by author" ;; ret (RList [])
       | None =>
           match data p with
           | None | Some [] => debugLog "No posts found for author" ;; ret (RList [])
           | Some posts =>
               (* Fetch author separately *)
               a <- from "profiles"
                      |> select (Only ["id"; "full_name"; "avatar_url";
                                       "headline"; "email"])
                      |> eq "id" authorId |> single ;;
               match error a with
               | Some _ =>
                   debugLog "Error fetching author" ;;
                   (* Return posts without author info *)
                   ret (RList (map (fun post =>
                                      attach "author" (unknownUser post) post)
                                   posts))
               | None =>
                   (* Combine posts with author *)
                   let postsWithAuthor :=
                     map (fun post =>
                            attach "author"
                              (match data a with
                               | Some author => fields author
                               | None => unknownUser post
                               end) post)
                         posts in
                   debugLog "Posts by author fetched successfully" ;;
                   ret (RList postsWithAuthor)
               end
           end
       end)
    (fun _ => debugLog "Error fetching posts by author" ;; ret (RList [])).

Definition createPost (post : Row) : Js Result :=
  try_catch
    (debugLog "Creating post" ;;
     schemaExists <- checkSchemaExists ;;
     if negb schemaExists then
       debugLog "Database schema not found, cannot create post" ;;
       ret RNull
     else
       created_at <- now ;;
       updated_at <- now ;;
       let postData :=
         spread post [ ("author_type", CStr "individual");
                       ("likes_count", CNum 0);
                       ("comments_count", CNum 0);
                       ("shares_count", CNum 0);
                       ("created_at", created_at);
                       ("updated_at", updated_at) ] in
       r <- from "posts" |> insert postData |> returning |> single ;;
       throw_if (error r) ;;
       debugLog "Post created successfully" ;;
       ret (of_data (data r)))
    (fun _ => debugLog "Error creating post" ;; ret RNull).

(* ------------------------------------------------------------------ *)
(** ** Connection queries *)
(* ------------------------------------------------------------------ *)

Definition requester : Embed := mkEmbed "requester" "profiles" "requester_id".
Definition recipient : Embed := mkEmbed "recipient" "profiles" "recipient_id".

Definition getConnections (userId : string) : Js Result :=
  try_catch
    (debugLog "Getting connections" ;;
     schemaExists <- checkSchemaExists ;;
     if negb schemaExists then
       debugLog "Database schema not found, returning empty connections" ;;
       ret (RList [])
     else
       r <- await (from "connections"
                     |> select_embed (Only ["requester_id"; "recipient_id"])
                                     [requester; recipient]
                     |> or_ (Eq "requester_id" userId) (Eq "recipient_id" userId)
                     |> eq "status" "accepted") ;;
       match error r with
       | Some _ => debugLog "Error fetching connections" ;; ret (RList [])
       | None =>
           match data r with
           | None => ret (RList [])
           | Some rows =>
               (* Extract connected profiles *)
               let connections :=
                 flat_map
                   (fun connection =>
                      let is_user col :=
                        cell_eqb (get col (fields connection)) (CStr userId) in
                      match (if is_user "requester_id"
                             then sub "recipient" (embedded connection)
                             else None) with
                      | Some other => [plain other]
                      | None =>
                          match (if is_user "recipient_id"
                                 then sub "requester" (embedded connection)
                                 else None) with
                          | Some other => [plain other]
                          | None => []
                          end
                      end)
                   rows in
               debugLog "Connections fetched successfully" ;;
               ret (RList connections)
           end
       end)
    (fun _ => debugLog "Error fetching connections" ;; ret (RList [])).

Definition getConnectionStatus (userId targetUserId : string) : Js Result :=
  try_catch
    (debugLog "Getting connection status" ;;
     schemaExists <- checkSchemaExists ;;
     if negb schemaExists then
       debugLog "Database schema not found, returning null connection status" ;;
       ret RNull
     else
       r <- from "connections" |> select (Only ["status"])
              |> or_ (And (Eq "requester_id" userId)
                          (Eq "recipient_id" targetUserId))
                     (And (Eq "requester_id" targetUserId)
                          (Eq "recipient_id" userId))
              |> single ;;
       throw_unless_not_found (error r) ;;
       (* data?.status || null *)
       let status :=
         match data r with
         | Some o => if truthy (get "status" (fields o))
                     then RCell (get "status" (fields o)) else RNull
         | None => RNull
         end in
       debugLog "Connection status fetched" ;;
       ret status)
    (fun _ => debugLog "Error fetching connection status" ;; ret RNull).

Definition sendConnectionRequest (requesterId recipientId : string)
  : Js Result :=
  try_catch
    (debugLog "Sending connection request" ;;
     schemaExists <- checkSchemaExists ;;
     if negb schemaExists then
       debugLog "Database schema not found, cannot send connection request" ;;
       ret RNull
     else
       created_at <- now ;;
       r <- from "connections"
              |> insert [ ("requester_id", CStr requesterId);
                          ("recipient_id", CStr recipientId);
                          ("status", CStr "pending");
                          ("created_at", created_at) ]
              |> returning |> single ;;
       throw_if (error r) ;;
       debugLog "Connection request sent successfully" ;;
       ret (of_data (data r)))
    (fun _ => debugLog "Error sending connection request" ;; ret RNull).

(** [limit] defaults to 10 in the source. *)
Definition getSuggestedConnections (userId : string) (limit : Z) : Js Result :=
  try_catch
    (debugLog "Getting suggested connections" ;;
     schemaExists <- checkSchemaExists ;;
     if negb schemaExists then
       debugLog "Database schema not found, returning empty suggested connections" ;;
       ret (RList [])
     else
       r <- await (from "profiles" |> select AllCols |> neq "id" userId
                     |> Store.limit limit) ;;
       match error r with
       | Some _ =>
           debugLog "Error fetching suggested connections" ;; ret (RList [])
       | None =>
           debugLog "Suggested connections fetched successfully" ;;
           ret (or_empty (data r))
       end)
    (fun _ => debugLog "Error fetching suggested connections" ;; ret (RList [])).

Definition getConnectionRequests (userId : string) : Js Result :=
  try_catch
    (debugLog "Getting connection requests" ;;
     schemaExists <- checkSchemaExists ;;
     if negb schemaExists then
       debugLog "Database schema not found, returning empty connection requests" ;;
       ret (RList [])
     else
       r <- await (from "connections"
                     |> select_embed AllCols [requester; recipient]
                     |> eq "recipient_id" userId
                     |> eq "status" "pending"
                     |> order "created_at" false) ;;
       throw_if (error r) ;;
       debugLog "Connection requests fetched successfully" ;;
       ret (or_empty (data r)))
    (fun _ => debugLog "Error fetching connection requests" ;; ret (RList [])).

Definition acceptConnectionRequest (connectionId : string) : Js Result :=
  try_catch
    (debugLog "Accepting connection request" ;;
     schemaExists <- checkSchemaExists ;;
     if negb schemaExists then
       debugLog "Database schema not found, cannot accept connection request" ;;
       ret (RBool false)
     else
       updated_at <- now ;;
       r <- await (from "connections"
                     |> update [ ("status", CStr "accepted");
                                 ("updated_at", updated_at) ]
                     |> eq "id" connectionId) ;;
       throw_if (error r) ;;
       debugLog "Connection request accepted successfully" ;;
       ret (RBool true))
    (fun _ => debugLog "Error accepting connection request" ;; ret (RBool false)).

Definition rejectConnectionRequest (connectionId : string) : Js Result :=
  try_catch
    (debugLog "Rejecting connection request" ;;
     schemaExists <- checkSchemaExists ;;
     if negb schemaExists then
       debugLog "Database schema not found, cannot reject connection request" ;;
       ret (RBool false)
     else
       updated_at <- now ;;
       r <- await (from "connections"
                     |> update [ ("status", CStr "rejected");
                                 ("updated_at", updated_at) ]
                     |> eq "id" connectionId) ;;
       throw_if (error r) ;;
       debugLog "Connection request rejected successfully" ;;
       ret (RBool true))
    (fun _ => debugLog "Error rejecting connection request" ;; ret (RBool false)).

(* ------------------------------------------------------------------ *)
(** ** Experience, education, notifications, profile views *)
(* ------------------------------------------------------------------ *)

Definition getExperiences (profileId : string) : Js Result :=
  try_catch
    (debugLog "Getting experiences" ;;
     schemaExists <- checkSchemaExists ;;
     if negb schemaExists then
       debugLog "Database schema not found, returning empty experiences" ;;
       ret (RList [])
     else
       r <- await (from "experiences" |> select AllCols
                     |> eq "profile_id" profileId
                     |> order "start_date" false) ;;
       throw_if (error r) ;;
       debugLog "Experiences fetched successfully" ;;
       ret (or_empty (data r)))
    (fun _ => debugLog "Error fetching experiences" ;; ret (RList [])).

Definition getEducation (profileId : string) : Js Result :=
  try_catch
    (debugLog "Getting education" ;;
     schemaExists <- checkSchemaExists ;;
     if negb schemaExists then
       debugLog "Database schema not found, returning empty education" ;;
       ret (RList [])
     else
       r <- await (from "education" |> select AllCols
                     |> eq "profile_id" profileId
                     |> order "start_date" false) ;;
       throw_if (error r) ;;
       debugLog "Education fetched successfully" ;;
       ret (or_empty (data r)))
    (fun _ => debugLog "Error fetching education" ;; ret (RList [])).

(** Notifications - returning empty array for now due to schema issues *)
Definition getNotifications (userId : string) : Js Result :=
  try_catch
    (debugLog "Getting notifications (placeholder)" ;;
     ret (RList []))
    (fun _ => debugLog "Error fetching notifications" ;; ret (RList [])).

Definition recordProfileView (viewerId profileId : string) : Js Result :=
  try_catch
    (debugLog "Recording profile view" ;;
     (* Don't record self-views *)
     if String.eqb viewerId profileId then ret RVoid
     else
       schemaExists <- checkSchemaExists ;;
       if negb schemaExists then
         debugLog "Database schema not found, cannot record profile view" ;;
         ret RVoid
       else
         viewed_at <- now ;;
         _ <- await (from "profile_views"
                       |> upsert [ ("viewer_id", CStr viewerId);
                                   ("profile_id", CStr profileId);
                                   ("viewed_at", viewed_at) ]) ;;
         debugLog "Profile view recorded successfully" ;;
         ret RVoid)
    (fun _ => debugLog "Error recording profile view" ;; ret RVoid).

(* ------------------------------------------------------------------ *)
(** ** Comments and likes *)
(* ------------------------------------------------------------------ *)

Definition createComment (comment : Row) : Js Result :=
  try_catch
    (debugLog "Creating comment" ;;
     schemaExists <- checkSchemaExists ;;
     if negb schemaExists then
       debugLog "Database schema not found, cannot create comment" ;;
       ret RNull
     else
       created_at <- now ;;
       r <- from "post_comments"
              |> insert (spread comment [ ("created_at", created_at) ])
              |> returning |> single ;;
       throw_if (error r) ;;
       debugLog "Comment created successfully" ;;
       ret (of_data (data r)))
    (fun _ => debugLog "Error creating comment" ;; ret RNull).

Definition getPostComments (postId : string) : Js Result :=
  try_catch
    (debugLog "Getting post comments" ;;
     schemaExists <- checkSchemaExists ;;
     if negb schemaExists then
       debugLog "Database schema not found, returning empty comments" ;;
       ret (RList [])
     else
       r <- await (from "post_comments"
                     |> select_embed AllCols
                          [mkEmbed "author" "profiles" "author_id"]
                     |> eq "post_id" postId
                     |> order "created_at" true) ;;
       throw_if (error r) ;;
       debugLog "Post comments fetched successfully" ;;
       ret (or_empty (data r)))
    (fun _ => debugLog "Error fetching post comments" ;; ret (RList [])).

Definition likePost (postId userId : string) : Js Result :=
  try_catch
    (debugLog "Liking post" ;;
     schemaExists <- checkSchemaExists ;;
     if negb schemaExists then
       debugLog "Database schema not found, cannot like post" ;;
       ret (RBool false)
     else
       created_at <- now ;;
       r <- await (from "post_likes"
                     |> insert [ ("post_id", CStr postId);
                                 ("user_id", CStr userId);
                                 ("created_at", created_at) ]) ;;
       throw_if (error r) ;;
       (* Increment likes count *)
       _ <- await (rpc "increment_likes_count" postId) ;;
       debugLog "Post liked successfully" ;;
       ret (RBool true))
    (fun _ => debugLog "Error liking post" ;; ret (RBool false)).

Definition unlikePost (postId userId : string) : Js Result :=
  try_catch
    (debugLog "Unliking post" ;;
     schemaExists <- checkSchemaExists ;;
     if negb schemaExists then
       debugLog "Database schema not found, cannot unlike post" ;;
       ret (RBool false)
     else
       r <- await (from "post_likes" |> delete
                     |> eq "post_id" postId |> eq "user_id" userId) ;;
       throw_if (error r) ;;
       (* Decrement likes count *)
       _ <- await (rpc "decrement_likes_count" postId) ;;
       debugLog "Post unliked successfully" ;;
       ret (RBool true))
    (fun _ => debugLog "Error unliking post" ;; ret (RBool false)).

Definition isPostLiked (postId userId : string) : Js Result :=
  try_catch
    (debugLog "Checking if post is liked" ;;
     schemaExists <- checkSchemaExists ;;
     if negb schemaExists then
       debugLog "Database schema not found, returning false for like status" ;;
       ret (RBool false)
     else
       r <- from "post_likes" |> select (Only ["id"])
              |> eq "post_id" postId |> eq "user_id" userId |> single ;;
       throw_unless_not_found (error r) ;;
       let isLiked := is_some (data r) in
       debugLog "Post like status checked" ;;
       ret (RBool isLiked))
    (fun _ => debugLog "Error checking post like status" ;; ret (RBool false)).

(* ------------------------------------------------------------------ *)
(** ** Institutions, jobs, events *)
(* ------------------------------------------------------------------ *)

Definition createInstitution (institution : Row) : Js Result :=
  try_catch
    (debugLog "Creating institution" ;;
     schemaExists <- checkSchemaExists ;;
     if negb schemaExists then
       debugLog "Database schema not found, cannot create institution" ;;
       ret RNull
     else
       created_at <- now ;;
       updated_at <- now ;;
       r <- from "institutions"
              |> insert (spread institution [ ("created_at", created_at);
                                              ("updated_at", updated_at) ])
              |> returning |> single ;;
       throw_if (error r) ;;
       debugLog "Institution created successfully" ;;
       ret (of_data (data r)))
    (fun _ => debugLog "Error creating institution" ;; ret RNull).

Definition getInstitutions : Js Result :=
  try_catch
    (debugLog "Getting institutions" ;;
     schemaExists <- checkSchemaExists ;;
     if negb schemaExists then
       debugLog "Database schema not found, returning empty institutions" ;;
       ret (RList [])
     else
       r <- await (from "institutions" |> select AllCols
                     |> order "created_at" false) ;;
       throw_if (error r) ;;
       debugLog "Institutions fetched successfully" ;;
       ret (or_empty (data r)))
    (fun _ => debugLog "Error fetching institutions" ;; ret (RList [])).

Definition createJob (job : Row) : Js Result :=
  try_catch
    (debugLog "Creating job" ;;
     schemaExists <- checkSchemaExists ;;
     if negb schemaExists then
       debugLog "Database schema not found, cannot create job" ;;
       ret RNull
     else
       created_at <- now ;;
       updated_at <- now ;;
       r <- from "jobs"
              |> insert (spread job [ ("created_at", created_at);
                                      ("updated_at", updated_at) ])
              |> returning |> single ;;
       throw_if (error r) ;;
       debugLog "Job created successfully" ;;
       ret (of_data (data r)))
    (fun _ => debugLog "Error creating job" ;; ret RNull).

Definition getJobs : Js Result :=
  try_catch
    (debugLog "Getting jobs" ;;
     schemaExists <- checkSchemaExists ;;
     if negb schemaExists then
       debugLog "Database schema not found, returning empty jobs" ;;
       ret (RList [])
     else
       r <- await (from "jobs"
                     |> select_embed AllCols
                          [ mkEmbed "company" "institutions" "company_id";
                            mkEmbed "posted_by_user" "profiles" "posted_by" ]
                     |> order "created_at" false) ;;
       throw_if (error r) ;;
       debugLog "Jobs fetched successfully" ;;
       ret (or_empty (data r)))
    (fun _ => debugLog "Error fetching jobs" ;; ret (RList [])).

Definition applyToJob (application : Row) : Js Result :=
  try_catch
    (debugLog "Applying to job" ;;
     schemaExists <- checkSchemaExists ;;
     if negb schemaExists then
       debugLog "Database schema not found, cannot apply to job" ;;
       ret RNull
     else
       created_at <- now ;;
       updated_at <- now ;;
       r <- from "job_applications"
              |> insert (spread application [ ("created_at", created_at);
                                              ("updated_at", updated_at) ])
              |> returning |> single ;;
       throw_if (error r) ;;
       debugLog "Job application submitted successfully" ;;
       ret (of_data (data r)))
    (fun _ => debugLog "Error applying to job" ;; ret RNull).

Definition createEvent (event : Row) : Js Result :=
  try_catch
    (debugLog "Creating event" ;;
     schemaExists <- checkSchemaExists ;;
     if negb schemaExists then
       debugLog "Database schema not found, cannot create event" ;;
       ret RNull
     else
       created_at <- now ;;
       updated_at <- now ;;
       r <- from "events"
              |> insert (spread event [ ("created_at", created_at);
                                        ("updated_at", updated_at) ])
              |> returning |> single ;;
       throw_if (error r) ;;
       debugLog "Event created successfully" ;;
       ret (of_data (data r)))
    (fun _ => debugLog "Error creating event" ;; ret RNull).

Definition getEvents : Js Result :=
  try_catch
    (debugLog "Getting events" ;;
     schemaExists <- checkSchemaExists ;;
     if negb schemaExists then
       debugLog "Database schema not found, returning empty events" ;;
       ret (RList [])
     else
       r <- await (from "events"
                     |> select_embed AllCols
                          [ mkEmbed "organizer" "profiles" "organizer_id" ]
                     |> order "start_date" true) ;;
       throw_if (error r) ;;
       debugLog "Events fetched successfully" ;;
       ret (or_empty (data r)))
    (fun _ => debugLog "Error fetching events" ;; ret (RList [])).

Definition registerForEvent (registration : Row) : Js Result :=
  try_catch
    (debugLog "Registering for event" ;;
     schemaExists <- checkSchemaExists ;;
     if negb schemaExists then
       debugLog "Database schema not found, cannot register for event" ;;
       ret RNull
     else
       created_at <- now ;;
       r <- from "event_attendees"
              |> insert (spread registration [ ("created_at", created_at) ])
              |> returning |> single ;;
       throw_if (error r) ;;
       debugLog "Event registration successful" ;;
       ret (of_data (data r)))
    (fun _ => debugLog "Error registering for event" ;; ret RNull).

(* ------------------------------------------------------------------ *)
(** ** Follow system *)
(* ------------------------------------------------------------------ *)

Inductive ProfileType : Type :=
  | individual
  | student
  | institution.

Definition type_name (t : ProfileType) : string :=
  match t with
  | individual => "individual"
  | student => "student"
  | institution => "institution"
  end.

Definition followUser (followerId followingId : string)
  (followerType followingType : ProfileType) : Js Result :=
  try_catch
    (debugLog "Following user" ;;
     schemaExists <- checkSchemaExists ;;
     if negb schemaExists then
       debugLog "Database schema not found, cannot follow user" ;;
       ret RNull
     else
       created_at <- now ;;
       r <- from "follows"
              |> insert [ ("follower_id", CStr followerId);
                          ("following_id", CStr followingId);
                          ("follower_type", CStr (type_name followerType));
                          ("following_type", CStr (type_name followingType));
                          ("created_at", created_at) ]
              |> returning |> single ;;
       throw_if (error r) ;;
       debugLog "User followed successfully" ;;
       ret (of_data (data r)))
    (fun _ => debugLog "Error following user" ;; ret RNull).

Definition unfollowUser (followerId followingId : string) : Js Result :=
  try_catch
    (debugLog "Unfollowing user" ;;
     schemaExists <- checkSchemaExists ;;
     if negb schemaExists then
       debugLog "Database schema not found, cannot unfollow user" ;;
       ret (RBool false)
     else
       r <- await (from "follows" |> delete
                     |> eq "follower_id" followerId
                     |> eq "following_id" followingId) ;;
       throw_if (error r) ;;
       debugLog "User unfollowed successfully" ;;
       ret (RBool true))
    (fun _ => debugLog "Error unfollowing user" ;; ret (RBool false)).

Definition isFollowing (followerId followingId : string) : Js Result :=
  try_catch
    (debugLog "Checking if following" ;;
     schemaExists <- checkSchemaExists ;;
     if negb schemaExists then
       debugLog "Database schema not found, returning false for follow status" ;;
       ret (RBool false)
     else
       r <- from "follows" |> select (Only ["id"])
              |> eq "follower_id" followerId
              |> eq "following_id" followingId |> single ;;
       throw_unless_not_found (error r) ;;
       let following := is_some (data r) in
       debugLog "Follow status checked" ;;
       ret (RBool following))
    (fun _ => debugLog "Error checking follow status" ;; ret (RBool false)).

Definition getFollowers (userId : string) : Js Result :=
  try_catch
    (debugLog "Getting followers" ;;
     schemaExists <- checkSchemaExists ;;
     if negb schemaExists then
       debugLog "Database schema not found, returning empty followers" ;;
       ret (RList [])
     else
       r <- await (from "follows"
                     |> select_embed AllCols
                          [ mkEmbed "follower" "profiles" "follower_id" ]
                     |> eq "following_id" userId
                     |> order "created_at" false) ;;
       throw_if (error r) ;;
       debugLog "Followers fetched successfully" ;;
       ret (or_empty (data r)))
    (fun _ => debugLog "Error fetching followers" ;; ret (RList [])).

Definition getFollowing (userId : string) : Js Result :=
  try_catch
    (debugLog "Getting following" ;;
     schemaExists <- checkSchemaExists ;;
     if negb schemaExists then
       debugLog "Database schema not found, returning empty following" ;;
       ret (RList [])
     else
       r <- await (from "follows"
                     |> select_embed AllCols
                          [ mkEmbed "following" "profiles" "following_id" ]
                     |> eq "follower_id" userId
                     |> order "created_at" false) ;;
       throw_if (error r) ;;
       debugLog "Following fetched successfully" ;;
       ret (or_empty (data r)))
    (fun _ => debugLog "Error fetching following" ;; ret (RList [])).

(** [limit] defaults to 10 in the source. *)
Definition getSuggestedInstitutions (userId : string) (limit : Z) : Js Result :=
  try_catch
    (debugLog "Getting suggested institutions" ;;
     schemaExists <- checkSchemaExists ;;
     if negb schemaExists then
       debugLog "Database schema not found, returning empty suggestions" ;;
       ret (RList [])
     else
       (* Get institutions that the user is not already following *)
       f <- await (from "follows" |> select (Only ["following_id"])
                     |> eq "follower_id" userId) ;;
       let followingIds :=
         match data f with
         | Some following => map (fun x => get "following_id" (fields x)) following
         | None => []
         end in
       let query := from "profiles" |> select AllCols
                      |> eq "profile_type" "institution"
                      |> Store.limit limit in
       let query := match followingIds with
                    | [] => query
                    | _ :: _ => query |> not_in "id" followingIds
                    end in
       r <- await query ;;
       throw_if (error r) ;;
       debugLog "Suggested institutions fetched successfully" ;;
       ret (or_empty (data r)))
    (fun _ => debugLog "Error fetching suggested institutions" ;; ret (RList [])).

(* ------------------------------------------------------------------ *)
(** ** The exported interface as a whole *)
(* ------------------------------------------------------------------ *)

Inductive Op : Type :=
  | GetProfile (userId : string)
  | UpdateProfile (userId : string) (updates : Row)
  | EnsureProfileExists (userId email fullName : string)
  | GetPosts (page limit : Z)
  | GetPostsByAuthor (authorId : string)
  | CreatePost (post : Row)
  | GetConnections (userId : string)
  | GetConnectionStatus (userId targetUserId : string)
  | SendConnectionRequest (requesterId recipientId : string)
  | GetSuggestedConnections (userId : string) (limit : Z)
  | GetConnectionRequests (userId : string)
  | AcceptConnectionRequest (connectionId : string)
  | RejectConnectionRequest (connectionId : string)
  | GetExperiences (profileId : string)
  | GetEducation (profileId : string)
  | GetNotifications (userId : string)
  | RecordProfileView (viewerId profileId : string)
  | CreateComment (comment : Row)
  | GetPostComments (postId : string)
  | LikePost (postId userId : string)
  | UnlikePost (postId userId : string)
  | IsPostLiked (postId userId : string)
  | CreateInstitution (institution : Row)
  | GetInstitutions
  | CreateJob (job : Row)
  | GetJobs
  | ApplyToJob (application : Row)
  | CreateEvent (event : Row)
  | GetEvents
  | RegisterForEvent (registration : Row)
  | FollowUser (followerId followingId : string)
               (followerType followingType : ProfileType)
  | UnfollowUser (followerId followingId : string)
  | IsFollowing (followerId followingId : string)
  | GetFollowers (userId : string)
  | GetFollowing (userId : string)
  | GetSuggestedInstitutions (userId : string) (limit : Z).

Definition call (op : Op) : Js Result :=
  match op with
  | GetProfile u => getProfile u
  | UpdateProfile u r => updateProfile u r
  | EnsureProfileExists u e n => ensureProfileExists u e n
  | GetPosts p l => getPosts p l
  | GetPostsByAuthor a => getPostsByAuthor a
  | CreatePost p => createPost p
  | GetConnections u => getConnections u
  | GetConnectionStatus u t => getConnectionStatus u t
  | SendConnectionRequest a b => sendConnectionRequest a b
  | GetSuggestedConnections u l => getSuggestedConnections u l
  | GetConnectionRequests u => getConnectionRequests u
  | AcceptConnectionRequest c => acceptConnectionRequest c
  | RejectConnectionRequest c => rejectConnectionRequest c
  | GetExperiences p => getExperiences p
  | GetEducation p => getEducation p
  | GetNotifications u => getNotifications u
  | RecordProfileView v p => recordProfileView v p
  | CreateComment c => createComment c
  | GetPostComments p => getPostComments p
  | LikePost p u => likePost p u
  | UnlikePost p u => unlikePost p u
  | IsPostLiked p u => isPostLiked p u
  | CreateInstitution i => createInstitution i
  | GetInstitutions => getInstitutions
  | CreateJob j => createJob j
  | GetJobs => getJobs
  | ApplyToJob a => applyToJob a
  | CreateEvent e => createEvent e
  | GetEvents => getEvents
  | RegisterForEvent r => registerForEvent r
  | FollowUser a b s t => followUser a b s t
  | UnfollowUser a b => unfollowUser a b
  | IsFollowing a b => isFollowing a b
  | GetFollowers u => getFollowers u
  | GetFollowing u => getFollowing u
  | GetSuggestedInstitutions u l => getSuggestedInstitutions u l
  end.

End Queries.

(* ================================================================== *)
(** * The components that call the store and the operations *)
(* ================================================================== *)

(** A React component keeps state between its handlers; a handler is a
    computation over that state and the world.  What a handler has set
    before it throws stays set. *)
Module Ui.
Import Store Js.

Section Ui.
Variable S : Type.

Definition Ui (A : Type) : Type := S -> World -> Outcome A * S * World.

Definition ret {A} (a : A) : Ui A := fun s w => (Returned a, s, w).

Definition bind {A B} (m : Ui A) (k : A -> Ui B) : Ui B :=
  fun s w =>
    match m s w with
    | (Returned a, s', w') => k a s' w'
    | (Raised e, s', w') => (Raised e, s', w')
    end.

Definition throw {A} (e : Exn) : Ui A := fun s w => (Raised e, s, w).

Definition try_catch {A} (body : Ui A) (handler : Exn -> Ui A) : Ui A :=
  fun s w =>
    match body s w with
    | (Returned a, s', w') => (Returned a, s', w')
    | (Raised e, s', w') => handler e s' w'
    end.

(** [try { body } finally { cleanup }] *)
Definition finally {A} (body : Ui A) (cleanup : Ui unit) : Ui A :=
  fun s w =>
    match body s w with
    | (o, s', w') =>
        match cleanup s' w' with
        | (Returned _, s'', w'') => (o, s'', w'')
        | (Raised e, s'', w'') => (Raised e, s'', w'')
        end
    end.

(** [await <operation>] *)
Definition lift {A} (m : Js A) : Ui A :=
  fun s w => match m w with (o, w') => (o, s, w') end.

(** A state setter. *)
Definition modify (f : S -> S) : Ui unit := fun s w => (Returned tt, f s, w).

Definition state_after {A} (m : Ui A) (s : S) (w : World) : S :=
  snd (fst (m s w)).
Definition world_after {A} (m : Ui A) (s : S) (w : World) : World :=
  snd (m s w).

End Ui.

Arguments ret {S A} a.
Arguments throw {S A} e.
Arguments lift {S A} m.

Declare Scope ui_scope.
Delimit Scope ui_scope with ui.
Notation "x <- m ;; k" := (bind m (fun x => k))
  (at level 61, m at next level, right associativity) : ui_scope.
Notation "m ;; k" := (bind m (fun _ => k))
  (at level 61, right associativity) : ui_scope.

(** [console.error], [console.log] *)
Definition console_log (message : string) : Js unit := debugLog message.

(** [!user?.id]: there is a user and its id is not empty. *)
Definition user_id (user : option string) : option string :=
  match user with
  | Some id => if String.eqb id "" then None else Some id
  | None => None
  end.

End Ui.

(** ** The connection button ([ConnectionButton], [part_001]) *)
Module ConnectionButton.
Import Store Js Ui Queries.
Local Open Scope ui_scope.

Inductive Status : Type :=
  | none
  | pending
  | connected.

Record Button : Type := mkButton {
  status : Status;
  loading : bool
}.

Definition setStatus (v : Status) : Ui Button unit :=
  modify (fun b => mkButton v (loading b)).
Definition setLoading (v : bool) : Ui Button unit :=
  modify (fun b => mkButton (status b) v).

(** The two [.or(...)] filters of the button: each is one [or] parameter
    of the request, and the store wants both satisfied. *)
Definition involving (id : string) : Filter :=
  Or (Eq "requester_id" id) (Eq "recipient_id" id).

Definition fetchConnectionStatus (user : option string) (profileId : string)
  : Ui Button unit :=
  match user_id user with
  | None => ret tt
  | Some id =>
      try_catch
        (r <- lift (from "connections" |> select (Only ["status"])
                      |> filter_by (involving id)
                      |> filter_by (involving profileId)
                      |> single) ;;
         match error r with
         | Some e =>
             if String.eqb (code e) PGRST116 then setStatus none
             else throw (Thrown e)
         | None =>
             match data r with
             | Some d =>
                 setStatus (if cell_eqb (get "status" (fields d))
                                        (CStr "accepted")
                            then connected else pending)
             | None => ret tt
             end
         end)
        (fun _ => lift (console_log "Error fetching connection status:"))
  end.

(** [onStatusChange?.()] *)
Definition notify (onStatusChange : option (Js unit)) : Ui Button unit :=
  match onStatusChange with
  | Some callback => lift callback
  | None => ret tt
  end.

Definition handleConnect (user : option string) (profileId : string)
  (onStatusChange : option (Js unit)) : Ui Button unit :=
  fun b =>
    match user_id user, loading b with
    | Some id, false =>
        (setLoading true ;;
         finally
           (try_catch
              (r <- lift (await (from "connections"
                                   |> insert [ ("requester_id", CStr id);
                                               ("recipient_id", CStr profileId);
                                               ("status", CStr "pending") ])) ;;
               match error r with
               | Some e => throw (Thrown e)
               | None => setStatus pending ;; notify onStatusChange
               end)
              (fun _ => lift (console_log "Error sending connection request:")))
           (setLoading false)) b
    | _, _ => ret tt b
    end.

Definition handleRemoveConnection (user : option string) (profileId : string)
  (onStatusChange : option (Js unit)) : Ui Button unit :=
  fun b =>
    match user_id user, loading b with
    | Some id, false =>
        (setLoading true ;;
         finally
           (try_catch
              (r <- lift (await (from "connections" |> delete
                                   |> filter_by (involving id)
                                   |> filter_by (involving profileId))) ;;
               match error r with
               | Some e => throw (Thrown e)
               | None => setStatus none ;; notify onStatusChange
               end)
              (fun _ => lift (console_log "Error removing connection:")))
           (setLoading false)) b
    | _, _ => ret tt b
    end.

End ConnectionButton.

(** ** The profile page ([ProfilePage], [part_000]) *)
Module ProfilePage.
Import Store Js Ui Queries.
Local Open Scope ui_scope.

(** The state of the page, with what it has shown as toasts and where it
    has sent the router.  [connectionStatus] holds what was put in it, a
    column value. *)
Record Page : Type := mkPage {
  profile : option Obj;
  experiences : list Obj;
  education : list Obj;
  posts : list Obj;
  loading : bool;
  connectionStatus : Cell;
  toasts : list string;
  route : option string
}.

Definition initial : Page :=
  mkPage None [] [] [] true (CStr "none") [] None.

Definition setProfile (v : option Obj) : Ui Page unit :=
  modify (fun p => mkPage v (experiences p) (education p) (posts p)
                          (loading p) (connectionStatus p) (toasts p) (route p)).
Definition setExperiences (v : list Obj) : Ui Page unit :=
  modify (fun p => mkPage (profile p) v (education p) (posts p)
                          (loading p) (connectionStatus p) (toasts p) (route p)).
Definition setEducation (v : list Obj) : Ui Page unit :=
  modify (fun p => mkPage (profile p) (experiences p) v (posts p)
                          (loading p) (connectionStatus p) (toasts p) (route p)).
Definition setPosts (v : list Obj) : Ui Page unit :=
  modify (fun p => mkPage (profile p) (experiences p) (education p) v
                          (loading p) (connectionStatus p) (toasts p) (route p)).
Definition setLoading (v : bool) : Ui Page unit :=
  modify (fun p => mkPage (profile p) (experiences p) (education p) (posts p)
                          v (connectionStatus p) (toasts p) (route p)).
Definition setConnectionStatus (v : Cell) : Ui Page unit :=
  modify (fun p => mkPage (profile p) (experiences p) (education p) (posts p)
                          (loading p) v (toasts p) (route p)).
(** [toast.error], [toast.success] *)
Definition toast (message : string) : Ui Page unit :=
  modify (fun p => mkPage (profile p) (experiences p) (education p) (posts p)
                          (loading p) (connectionStatus p)
                          (toasts p ++ [message])%list (route p)).
(** [router.push] *)
Definition push (path : string) : Ui Page unit :=
  modify (fun p => mkPage (profile p) (experiences p) (education p) (posts p)
                          (loading p) (connectionStatus p) (toasts p)
                          (Some path)).

(** A list result as the array it is. *)
Definition rows (r : Result) : list Obj :=
  match r with
  | RList l => l
  | _ => []
  end.

(** [user?.id === profileId] *)
Definition isOwnProfile (user : option string) (profileId : string) : bool :=
  match user with
  | Some id => String.eqb id profileId
  | None => false
  end.

(** The four lookups of [Promise.all] are run one after the other; they
    only read, so on a store that answers every request their results do
    not depend on how their requests interleave. *)
Definition fetchProfileData (user : option string) (profileId : string)
  : Ui Page unit :=
  if String.eqb profileId "" then ret tt
  else
    setLoading true ;;
    lift (console_log "Fetching profile data") ;;
    finally
      (try_catch
         (profileData <- lift (getProfile profileId) ;;
          experiencesData <- lift (getExperiences profileId) ;;
          educationData <- lift (getEducation profileId) ;;
          postsData <- lift (getPostsByAuthor profileId) ;;
          match profileData with
          | RObj found =>
              setProfile (Some found) ;;
              setExperiences (rows experiencesData) ;;
              setEducation (rows educationData) ;;
              setPosts (rows postsData) ;;
              (* Record profile view if not own profile *)
              match (if isOwnProfile user profileId then None
                     else user_id user) with
              | Some id => _ <- lift (recordProfileView profileId id) ;; ret tt
              | None => ret tt
              end ;;
              (* Get connection status if not own profile *)
              match (if isOwnProfile user profileId then None
                     else user_id user) with
              | Some id =>
                  status <- lift (getConnectionStatus id profileId) ;;
                  setConnectionStatus
                    match status with
                    | RCell c => if truthy c then c else CStr "none"
                    | _ => CStr "none"
                    end
              | None => ret tt
              end ;;
              lift (console_log "Profile data loaded successfully")
          | _ =>
              lift (console_log "Profile not found") ;;
              toast "Profile not found" ;;
              push "/feed"
          end)
         (fun _ =>
            lift (console_log "Error fetching profile data") ;;
            toast "Failed to load profile"))
      (setLoading false).

Definition handleConnect (user : option string) (profileId : string)
  : Ui Page unit :=
  match user_id user, String.eqb profileId "" with
  | Some id, false =>
      lift (console_log "Sending connection request") ;;
      try_catch
        (success <- lift (sendConnectionRequest id profileId) ;;
         match success with
         | RObj _ =>
             setConnectionStatus (CStr "pending") ;;
             toast "Connection request sent!" ;;
             lift (console_log "Connection request sent successfully")
         | _ =>
             toast "Failed to send connection request" ;;
             lift (console_log "Failed to send connection request")
         end)
        (fun _ =>
           lift (console_log "Error sending connection request") ;;
           toast "Failed to send connection request")
  | _, _ => toast "Please log in to connect with others"
  end.

(** The connect button of the header: its label and whether it is
    disabled. *)
Definition connect_label (connectionStatus : Cell) : string :=
  if cell_eqb connectionStatus (CStr "connected") then "Connected"
  else if cell_eqb connectionStatus (CStr "pending") then "Pending"
  else "Connect".

Definition connect_disabled (connectionStatus : Cell) : bool :=
  cell_eqb connectionStatus (CStr "pending")
  || cell_eqb connectionStatus (CStr "connected").

End ProfilePage.


(* ================================================================== *)
(** * Vocabulary of the properties *)
(* ================================================================== *)

Import Store Js Queries.

(** The reachability probe is the next request the operation issues; the
    store is reachable when no fault is due for it. *)
Definition probe : Query := from "profiles" |> select (Only ["count"]) |> limit 1.

Definition reachable (w : World) : bool :=
  match faults w (List.length (log w)) with
  | None => true
  | Some _ => false
  end.

(** The fault due for the [n]-th request after the ones already issued. *)
Definition fault_at (n : nat) (w : World) : option Fault :=
  faults w (List.length (log w) + n).

(** A store that answers every request. *)
Definition healthy (w : World) : Prop := forall n, faults w n = None.

(** Worlds to evaluate the operations in. *)
Definition no_tables : Tables := fun _ => [].

Definition world (tabs : Tables) (f : nat -> option Fault) : World :=
  mkWorld tabs (fun _ => []) true f (fun n => Z.of_nat n) 0 [] [].

Definition no_faults : nat -> option Fault := fun _ => None.

Definition fault_on (k : nat) (f : Fault) : nat -> option Fault :=
  fun n => if Nat.eqb n k then Some f else None.

Definition pair_filter (a b : string) : Filter :=
  Or (And (Eq "requester_id" a) (Eq "recipient_id" b))
     (And (Eq "requester_id" b) (Eq "recipient_id" a)).

(** A store with one connection, requested by ["ann"] and accepted. *)
Definition one_connection : Tables :=
  put "connections"
      [ [ ("id", CStr "c1");
          ("requester_id", CStr "ann");
          ("recipient_id", CStr "bob");
          ("status", CStr "accepted") ] ]
      no_tables.

(** The rows of [profiles] with a given [id]. *)
Definition profiles_of (userId : string) (tabs : Tables) : list Row :=
  filter (holds (Eq "id" userId)) (tabs "profiles").

(** The record [ensureProfileExists] inserts, before the store fills in its
    column defaults. *)
Definition minimal_profile (userId email fullName : string) (w : World) : Row :=
  [ ("id", CStr userId);
    ("email", CStr email);
    ("full_name", CStr fullName);
    ("created_at", CNum (clock w (ticks w)));
    ("updated_at", CNum (clock w (S (ticks w)))) ].

Definition total_posts (w : World) : Z :=
  Z.of_nat (List.length (tables w "posts")).

(** Three posts of two authors, and the profile of one of them. *)
Definition sample : Tables :=
  put "posts"
      [ [("id", CStr "p1"); ("author_id", CStr "ann"); ("created_at", CNum 5)];
        [("id", CStr "p2"); ("author_id", CStr "ann"); ("created_at", CNum 7)];
        [("id", CStr "p3"); ("author_id", CStr "bob"); ("created_at", CNum 6)] ]
      (put "profiles"
           [ [("id", CStr "ann"); ("full_name", CStr "Ann")] ]
           no_tables).

(** The posts of an author as the store returns them, newest first. *)
Definition posts_by (authorId : string) (w : World) : list Obj :=
  map plain (sort_by (before "created_at" false)
               (filter (holds (Eq "author_id" authorId)) (tables w "posts"))).

Definition author_columns : Cols :=
  Only ["id"; "full_name"; "avatar_url"; "headline"; "email"].

Definition created_at (o : Obj) : option Z := sort_key "created_at" (fields o).

(** [a] is strictly later than [b]. *)
Definition strictly_later (a b : Obj) : Prop :=
  match created_at a, created_at b with
  | Some x, Some y => (y < x)%Z
  | _, _ => False
  end.

(** [a] may stand before [b] in descending order of [created_at]: it is
    not earlier than [b] (rows without a timestamp come first). *)
Definition not_earlier (a b : Obj) : Prop :=
  key_geb (created_at a) (created_at b) = true.

(** Two posts of one author written in the same millisecond. *)
Definition tied_posts : Tables :=
  put "posts"
      [ [("id", CStr "p1"); ("author_id", CStr "ann"); ("created_at", CNum 5)];
        [("id", CStr "p2"); ("author_id", CStr "ann"); ("created_at", CNum 5)] ]
      no_tables.

(** The post carries an author whose [id] is the [author_id] of the post. *)
Definition author_matches (post : Obj) : Prop :=
  exists author,
    sub "author" (embedded post) = Some author
    /\ get "id" author = author_id post.

(** A store whose only profile is an institution that follows nobody. *)
Definition lone_institution : Tables :=
  put "profiles"
      [ [ ("id", CStr "clinic");
          ("full_name", CStr "City Clinic");
          ("profile_type", CStr "institution") ] ]
      no_tables.

(** The identifiers the requester follows. *)
Definition followed_by (userId : string) (w : World) : list Cell :=
  map (fun f => get "following_id" f)
      (filter (holds (Eq "follower_id" userId)) (tables w "follows")).

(** What the [catch] block of an operation returns. *)
Definition caught_default (op : Op) : Result :=
  match op with
  | GetProfile _ | UpdateProfile _ _ | EnsureProfileExists _ _ _
  | CreatePost _ | GetConnectionStatus _ _ | SendConnectionRequest _ _
  | CreateComment _ | CreateInstitution _ | CreateJob _ | ApplyToJob _
  | CreateEvent _ | RegisterForEvent _ | FollowUser _ _ _ _ => RNull
  | GetPosts _ _ | GetPostsByAuthor _ | GetConnections _
  | GetSuggestedConnections _ _ | GetConnectionRequests _
  | GetExperiences _ | GetEducation _ | GetNotifications _
  | GetPostComments _ | GetInstitutions | GetJobs | GetEvents
  | GetFollowers _ | GetFollowing _ | GetSuggestedInstitutions _ _ => RList []
  | AcceptConnectionRequest _ | RejectConnectionRequest _
  | LikePost _ _ | UnlikePost _ _ | IsPostLiked _ _
  | UnfollowUser _ _ | IsFollowing _ _ => RBool false
  | RecordProfileView _ _ => RVoid
  end.

(** The profile made up when the probe fails. *)
Definition placeholder_profile (userId email fullName : string) (w : World)
  : Result :=
  RObj (plain
    [ ("id", CStr userId);
      ("email", CStr email);
      ("full_name", CStr fullName);
      ("headline", CStr "Healthcare Professional");
      ("bio", CStr "");
      ("location", CStr "");
      ("avatar_url", CStr "");
      ("banner_url", CStr "");
      ("website", CStr "");
      ("phone", CStr "");
      ("specialization", CList ["General Medicine"]);
      ("is_premium", CBool false);
      ("profile_views", CNum 0);
      ("user_type", CStr "individual");
      ("profile_type", CStr "individual");
      ("created_at", CNum (clock w (ticks w)));
      ("updated_at", CNum (clock w (S (ticks w)))) ]).

(** What an operation returns when the probe fails. *)
Definition unreachable_default (op : Op) (w : World) : Result :=
  match op with
  | GetProfile userId => placeholder_profile userId "user@example.com" "User" w
  | EnsureProfileExists userId email fullName =>
      placeholder_profile userId email fullName w
  | _ => caught_default op
  end.

(** The calls that return before the probe. *)
Definition never_probes (op : Op) : bool :=
  match op with
  | GetNotifications _ => true
  | RecordProfileView viewerId profileId => String.eqb viewerId profileId
  | _ => false
  end.

(** A store on which the third request fails with an error reply. *)
Definition failing_counter : World :=
  world no_tables (fault_on 2 (ErrorReply "500")).

(** The operations that only look things up. *)
Definition reads_only (op : Op) : bool :=
  match op with
  | GetProfile _ | GetPosts _ _ | GetPostsByAuthor _ | GetConnections _
  | GetConnectionStatus _ _ | GetSuggestedConnections _ _
  | GetConnectionRequests _ | GetExperiences _ | GetEducation _
  | GetNotifications _ | GetPostComments _ | IsPostLiked _ _
  | GetInstitutions | GetJobs | GetEvents | IsFollowing _ _
  | GetFollowers _ | GetFollowing _ | GetSuggestedInstitutions _ _ => true
  | _ => false
  end.

(** The row [recordProfileView] sends to the store. *)
Definition view_record (viewerId profileId : string) (w : World) : Row :=
  [ ("viewer_id", CStr viewerId);
    ("profile_id", CStr profileId);
    ("viewed_at", CNum (clock w (ticks w))) ].

(** What [updateProfile] does to one row of [profiles]. *)
Definition updated (userId : string) (updates : Row) (r : Row) : Row :=
  if holds (Eq "id" userId) r then spread r updates else r.

(** The rows of [follows] from one follower to one followed profile. *)
Definition follows_of (followerId followingId : string) (tabs : Tables)
  : list Row :=
  filter (fun r => holds (Eq "follower_id" followerId) r
                   && holds (Eq "following_id" followingId) r)
         (tabs "follows").

(** The rows of [connections] between two users, in either direction. *)
Definition connections_of (a b : string) (tabs : Tables) : list Row :=
  filter (holds (pair_filter a b)) (tabs "connections").

(** The requests of [unlikePost] and [likePost] after the probe. *)
Definition unlike_requests (postId userId : string) : list Query :=
  [ from "post_likes" |> delete |> eq "post_id" postId |> eq "user_id" userId;
    rpc "decrement_likes_count" postId ].

Definition like_requests (postId userId : string) (w : World) : list Query :=
  [ from "post_likes" |> insert [ ("post_id", CStr postId);
                                  ("user_id", CStr userId);
                                  ("created_at", CNum (clock w (ticks w))) ];
    rpc "increment_likes_count" postId ].

(** What accepting or rejecting does to one row of [connections]. *)
Definition decided (connectionId status : string) (w : World) (r : Row) : Row :=
  if holds (Eq "id" connectionId) r
  then spread r [ ("status", CStr status);
                  ("updated_at", CNum (clock w (ticks w))) ]
  else r.

(** A store with one connection, requested by ["ann"] and rejected. *)
Definition rejected_connection : Tables :=
  put "connections"
      [ [ ("id", CStr "c1");
          ("requester_id", CStr "ann");
          ("recipient_id", CStr "bob");
          ("status", CStr "rejected") ] ]
      no_tables.

(** [other] is the profile of the other party of connection [c] of
    [userId]. *)
Definition other_party (userId : string) (c other : Row) : Prop :=
  (get "requester_id" c = CStr userId
   /\ get "id" other = get "recipient_id" c)
  \/ (get "recipient_id" c = CStr userId
      /\ get "id" other = get "requester_id" c).

(** [a] may stand before [b] in descending order of the column. *)
Definition not_before (col : string) (a b : Obj) : Prop :=
  key_geb (sort_key col (fields a)) (sort_key col (fields b)) = true.

(** A list answer: rows of the table only, all passing the filters, in
    descending order of the column. *)
Definition listing (rows : list Row) (fs : list Filter) (col : string)
  (l : list Obj) : Prop :=
  (forall o, List.In o l ->
             List.In (fields o) rows /\ holds_all fs (fields o) = true)
  /\ StronglySorted (not_before col) l.

(** Every row of the table that passes the filters is in the answer. *)
Definition complete (rows : list Row) (fs : list Filter) (l : list Obj) : Prop :=
  forall r, List.In r rows -> holds_all fs r = true ->
            exists o, List.In o l /\ fields o = r.

(** Two posts in the time line of a career. *)
Definition career : Tables :=
  put "experiences"
      [ [("profile_id", CStr "ann"); ("title", CStr "Intern"); ("start_date", CNum 1)];
        [("profile_id", CStr "bob"); ("title", CStr "Nurse"); ("start_date", CNum 2)];
        [("profile_id", CStr "ann"); ("title", CStr "Surgeon"); ("start_date", CNum 3)] ]
      no_tables.

(** The rows of page [page] of [posts], [limit] to a page, newest first. *)
Definition page_of (page limit : Z) (w : World) : list Row :=
  firstn (Z.to_nat limit)
         (skipn (Z.to_nat (page * limit))
                (sort_by (before "created_at" false) (tables w "posts"))).

(** What [createPost] sends to the store for a post. *)
Definition post_data (post : Row) (w : World) : Row :=
  spread post [ ("author_type", CStr "individual");
                ("likes_count", CNum 0);
                ("comments_count", CNum 0);
                ("shares_count", CNum 0);
                ("created_at", CNum (clock w (ticks w)));
                ("updated_at", CNum (clock w (S (ticks w)))) ].

(** The profiles [getSuggestedConnections] asks for: the first [limit]
    rows of [profiles] whose [id] is not the requester's. *)
Definition other_profiles (userId : string) (limit : Z) (tabs : Tables)
  : list Obj :=
  map plain (firstn (Z.to_nat limit)
               (filter (holds (Neq "id" userId)) (tabs "profiles"))).

(** The profiles [getSuggestedInstitutions] asks for: the first [limit]
    institutions among [profiles] that the requester does not follow.  The
    filter on the followed identifiers is only sent when there are some. *)
Definition unfollowed (followed : list Cell) (r : Row) : bool :=
  match followed with
  | [] => true
  | _ :: _ => holds (NotIn "id" followed) r
  end.

Definition unfollowed_institutions (userId : string) (limit : Z) (w : World)
  : list Obj :=
  map plain
    (firstn (Z.to_nat limit)
       (filter (fun r => holds (Eq "profile_type" "institution") r
                         && unfollowed (followed_by userId w) r)
               (tables w "profiles"))).

(** A store with two profiles and the follow of the second by the first. *)
Definition following_clinic : Tables :=
  put "follows"
      [ [ ("follower_id", CStr "ann"); ("following_id", CStr "clinic") ] ]
      (put "profiles"
           [ [ ("id", CStr "ann"); ("profile_type", CStr "individual") ];
             [ ("id", CStr "clinic"); ("profile_type", CStr "institution") ];
             [ ("id", CStr "school"); ("profile_type", CStr "institution") ] ]
           no_tables).

(** What [createComment] sends to the store for a comment. *)
Definition comment_data (comment : Row) (w : World) : Row :=
  spread comment [ ("created_at", CNum (clock w (ticks w))) ].

(** Two follows of ["clinic"] and one of ["school"]. *)
Definition followers : Tables :=
  put "follows"
      [ [ ("follower_id", CStr "ann"); ("following_id", CStr "clinic");
          ("created_at", CNum 1) ];
        [ ("follower_id", CStr "ann"); ("following_id", CStr "school");
          ("created_at", CNum 2) ];
        [ ("follower_id", CStr "bob"); ("following_id", CStr "clinic");
          ("created_at", CNum 3) ] ]
      no_tables.


(** The status the profile page keeps for the connections stored between
    the visitor and the profile: the stored status as it is. *)
Definition kept (rows : list Row) : Cell :=
  match rows with
  | [r] => if truthy (get "status" r) then get "status" r else CStr "none"
  | _ => CStr "none"
  end.

(** A store with the profile of ["ann"] and her accepted connection with
    ["bob"]. *)
Definition connected_profile : Tables :=
  put "profiles" [ [("id", CStr "ann"); ("full_name", CStr "Ann")] ]
      one_connection.

(** A view of one profile by one viewer. *)
Definition is_view (viewerId profileId : string) (r : Row) : bool :=
  holds (Eq "viewer_id" viewerId) r && holds (Eq "profile_id" profileId) r.

(** The stored views of one profile by one viewer. *)
Definition views_of (viewerId profileId : string) (tabs : Tables) : list Row :=
  filter (is_view viewerId profileId) (tabs "profile_views").

(** [profile_views] after a view was recorded: the stored view of the pair
    takes the columns of the new one; when there is none the new view is
    added. *)
Definition recorded (viewerId profileId : string) (w : World) : list Row :=
  let view := view_record viewerId profileId w in
  match views_of viewerId profileId (tables w) with
  | [] => (tables w "profile_views"
           ++ [fill view (defaults w "profile_views")])%list
  | _ :: _ => map (fun p => if is_view viewerId profileId p
                            then spread p view else p)
                  (tables w "profile_views")
  end.

(** A store in which ["bob"] has seen the profile of ["ann"] before. *)
Definition seen_before : Tables :=
  put "profile_views"
      [ [ ("viewer_id", CStr "bob"); ("profile_id", CStr "ann");
          ("viewed_at", CNum 0) ] ]
      sample.



(** The replies whose error does not end an operation with the value of
    its [catch] block, by operation, position of the request after the
    probe and error code: the not-found code of the two profile lookups
    (a placeholder, an insertion), the count and the authors of
    [getPosts], the author of [getPostsByAuthor], the counter procedures
    of [likePost] and [unlikePost] and the follows of
    [getSuggestedInstitutions]. *)
Definition passed_over (op : Op) (position : nat) (c : string) : bool :=
  match op, position with
  | GetProfile _, 1%nat | EnsureProfileExists _ _ _, 1%nat =>
      String.eqb c PGRST116
  | GetPosts _ _, 1%nat | GetPosts _ _, 3%nat => true
  | GetPostsByAuthor _, 2%nat => true
  | LikePost _ _, 2%nat | UnlikePost _ _, 2%nat => true
  | GetSuggestedInstitutions _ _, 1%nat => true
  | _, _ => false
  end.

(** A store that answers the update of [acceptConnectionRequest] with an
    error. *)
Definition failing_update : World :=
  world one_connection (fault_on 1 (ErrorReply "42501")).

(* ================================================================== *)
(** * Properties *)
(* ================================================================== *)

Local Arguments Z.add : simpl never.
Local Arguments Z.sub : simpl never.
Local Arguments Z.mul : simpl never.
Local Arguments Z.min : simpl never.
Local Arguments Z.of_nat : simpl never.
Local Arguments Z.to_nat : simpl never.
Local Arguments Z.ltb : simpl never.
Local Arguments Z.eqb : simpl never.
Local Arguments answer : simpl never.

Lemma checkSchemaExists_spec w :
  checkSchemaExists w = (Returned (reachable w), with_log probe w).
Proof.
  unfold checkSchemaExists, try_catch, bind, await, reachable.
  fold probe.
  destruct (faults w (List.length (log w))) as [[c|]|]; reflexivity.
Qed.

(* ------------------------------------------------------------------ *)
(** ** getProfile *)
(* ------------------------------------------------------------------ *)

Ltac run_probe :=
  unfold try_catch, bind; simpl;
  rewrite ?checkSchemaExists_spec; unfold reachable; simpl.

(** C2.  When the reachability probe fails, whatever the identifier,
    [getProfile] resolves to the placeholder profile that carries the given
    [id] and the generic defaults (the two timestamps are the readings of
    the clock); the probe, a read of [profiles], is the only request issued
    and no table is changed. *)
Theorem getProfile_unreachable_placeholder (userId : string) (w : World) :
  reachable w = false ->
  result (getProfile userId) w
  = Returned (RObj (plain
      [ ("id", CStr userId);
        ("email", CStr "user@example.com");
        ("full_name", CStr "User");
        ("headline", CStr "Healthcare Professional");
        ("bio", CStr "");
        ("location", CStr "");
        ("avatar_url", CStr "");
        ("banner_url", CStr "");
        ("website", CStr "");
        ("phone", CStr "");
        ("specialization", CList ["General Medicine"]);
        ("is_premium", CBool false);
        ("profile_views", CNum 0);
        ("user_type", CStr "individual");
        ("profile_type", CStr "individual");
        ("created_at", CNum (clock w (ticks w)));
        ("updated_at", CNum (clock w (S (ticks w)))) ]))
  /\ log (after (getProfile userId) w) = (log w ++ [probe])%list
  /\ is_write probe = false
  /\ tables (after (getProfile userId) w) = tables w.
Proof.
  intros H. unfold reachable in H.
  unfold result, after, getProfile. run_probe.
  destruct (faults w (List.length (log w))); [|discriminate].
  simpl. repeat split.
Qed.

Lemma getProfile_unreachable_placeholder_witness :
  reachable (world no_tables (fault_on 0 NetworkThrow)) = false
  /\ exists o,
       result (getProfile "u1") (world no_tables (fault_on 0 NetworkThrow))
       = Returned (RObj o)
       /\ get "id" (fields o) = CStr "u1".
Proof.
  split; [reflexivity|].
  destruct (getProfile_unreachable_placeholder "u1"
              (world no_tables (fault_on 0 NetworkThrow)) eq_refl)
    as [H _].
  eexists. split; [exact H | reflexivity].
Defined.

(** The branch of [getProfile] that answers the not-found code: when the
    lookup is answered with the error [PGRST116], the placeholder is
    returned and nothing is written. *)
Lemma getProfile_on_PGRST116 (userId : string) (w : World) :
  reachable w = true ->
  fault_at 1 w = Some (ErrorReply PGRST116) ->
  exists o, result (getProfile userId) w = Returned (RObj o)
            /\ get "id" (fields o) = CStr userId
            /\ get "full_name" (fields o) = CStr "Healthcare Professional"
            /\ tables (after (getProfile userId) w) = tables w.
Proof.
  intros H F. unfold reachable in H. unfold fault_at in F.
  unfold result, after, getProfile. run_probe.
  destruct (faults w (List.length (log w))); [discriminate|].
  simpl. unfold maybeSingle, await. simpl.
  rewrite length_app. simpl. rewrite F. simpl.
  eexists. repeat split.
Qed.

(** With [.maybeSingle()] a lookup that matches no row is not an error:
    [data] is null and [getProfile] returns it. *)
Lemma getProfile_no_row (userId : string) (w : World) :
  reachable w = true ->
  fault_at 1 w = None ->
  filter (holds (Eq "id" userId)) (tables w "profiles") = [] ->
  result (getProfile userId) w = Returned RNull.
Proof.
  intros H F E. unfold reachable in H. unfold fault_at in F.
  unfold result, getProfile. run_probe.
  destruct (faults w (List.length (log w))); [discriminate|].
  simpl. unfold maybeSingle, await. simpl.
  rewrite length_app. simpl. rewrite F.
  unfold answer, matching, holds_all. simpl.
  replace (filter _ (tables w "profiles")) with (@nil Row); [reflexivity|].
  rewrite <- E. apply filter_ext. intros r. simpl. now rewrite andb_true_r.
Qed.

(** C1.  A reachable store that holds the profile of ["ann"] and none for
    ["bob"]: the profile of ["ann"] is found, and for ["bob"], whose record
    is merely missing, [getProfile] resolves to [null], not to a
    placeholder profile. *)
Theorem getProfile_missing_row_is_null :
  reachable (world sample no_faults) = true
  /\ profiles_of "bob" (tables (world sample no_faults)) = []
  /\ result (getProfile "bob") (world sample no_faults) = Returned RNull
  /\ result (getProfile "ann") (world sample no_faults)
     = Returned (RObj (plain [("id", CStr "ann"); ("full_name", CStr "Ann")])).
Proof. repeat split. Qed.

(* ------------------------------------------------------------------ *)
(** ** ensureProfileExists *)
(* ------------------------------------------------------------------ *)

Lemma put_same (t : string) (rows : list Row) (tabs : Tables) :
  put t rows tabs t = rows.
Proof. unfold put. now rewrite String.eqb_refl. Qed.

Lemma holds_all_one (f : Filter) (rows : list Row) :
  filter (holds_all [f]) rows = filter (holds f) rows.
Proof.
  apply filter_ext. intros r. unfold holds_all. simpl. apply andb_true_r.
Qed.

Lemma ensureProfileExists_existing (userId email fullName : string)
  (w : World) (p : Row) :
  healthy w ->
  profiles_of userId (tables w) = [p] ->
  result (ensureProfileExists userId email fullName) w = Returned (RObj (plain p))
  /\ tables (after (ensureProfileExists userId email fullName) w) = tables w
  /\ faults (after (ensureProfileExists userId email fullName) w) = faults w.
Proof.
  intros H E. unfold profiles_of in E.
  unfold result, after, ensureProfileExists. run_probe.
  rewrite !H. simpl. unfold single, await. simpl. rewrite !H.
  unfold answer, matching. simpl. rewrite holds_all_one, E. simpl.
  repeat split.
Qed.

Lemma ensureProfileExists_missing (userId email fullName : string)
  (w : World) :
  healthy w ->
  profiles_of userId (tables w) = [] ->
  let created :=
    fill (minimal_profile userId email fullName w) (defaults w "profiles") in
  result (ensureProfileExists userId email fullName) w
  = Returned (RObj (plain created))
  /\ tables (after (ensureProfileExists userId email fullName) w)
     = put "profiles" (tables w "profiles" ++ [created])%list (tables w)
  /\ faults (after (ensureProfileExists userId email fullName) w) = faults w.
Proof.
  intros H E. unfold profiles_of in E.
  unfold result, after, ensureProfileExists. run_probe.
  rewrite !H. simpl. unfold single, await. simpl. rewrite !H.
  unfold answer, matching. simpl. rewrite holds_all_one, E. simpl.
  rewrite !H. simpl. repeat split.
Qed.

(** C4.  On a store that answers every request and holds at most one
    profile row per [id], two calls of [ensureProfileExists] in sequence
    resolve to the same record, which is the one row stored for the [id]
    after the first call.  The first call appends the minimal record (with
    the store's column defaults) exactly when no row existed and otherwise
    leaves the tables alone; the second call changes no table. *)
Theorem ensureProfileExists_idempotent (userId email fullName : string)
  (w : World) :
  healthy w ->
  (List.length (profiles_of userId (tables w)) <= 1)%nat ->
  let w1 := after (ensureProfileExists userId email fullName) w in
  let w2 := after (ensureProfileExists userId email fullName) w1 in
  exists p,
    result (ensureProfileExists userId email fullName) w
    = Returned (RObj (plain p))
    /\ result (ensureProfileExists userId email fullName) w1
       = Returned (RObj (plain p))
    /\ profiles_of userId (tables w1) = [p]
    /\ tables w2 = tables w1
    /\ match profiles_of userId (tables w) with
       | [] => p = fill (minimal_profile userId email fullName w)
                        (defaults w "profiles")
               /\ tables w1
                  = put "profiles" (tables w "profiles" ++ [p])%list (tables w)
       | _ :: _ => tables w1 = tables w
       end.
Proof.
  intros H U w1 w2.
  destruct (profiles_of userId (tables w)) as [|p [|p' rows]] eqn:E.
  - destruct (ensureProfileExists_missing userId email fullName H E)
      as (R & T & F).
    fold w1 in T, F.
    assert (H1 : healthy w1) by (intros n; rewrite F; apply H).
    assert (E1 : profiles_of userId (tables w1)
                 = [fill (minimal_profile userId email fullName w)
                         (defaults w "profiles")]).
    { unfold profiles_of in *. rewrite T, put_same, filter_app, E. simpl.
      now rewrite String.eqb_refl. }
    destruct (ensureProfileExists_existing userId email fullName H1 E1)
      as (R1 & T1 & _).
    eexists. repeat split; eauto.
  - destruct (ensureProfileExists_existing userId email fullName H E)
      as (R & T & F).
    fold w1 in T, F.
    assert (H1 : healthy w1) by (intros n; rewrite F; apply H).
    assert (E1 : profiles_of userId (tables w1) = [p])
      by (rewrite T; exact E).
    destruct (ensureProfileExists_existing userId email fullName H1 E1)
      as (R1 & T1 & _).
    exists p. repeat split; auto.
  - simpl in U. lia.
Qed.

Lemma ensureProfileExists_idempotent_witness :
  exists p,
    result (ensureProfileExists "u1" "ann@example.com" "Ann")
           (world no_tables no_faults) = Returned (RObj (plain p))
    /\ result (ensureProfileExists "u1" "ann@example.com" "Ann")
              (after (ensureProfileExists "u1" "ann@example.com" "Ann")
                     (world no_tables no_faults))
       = Returned (RObj (plain p)).
Proof.
  assert (H : healthy (world no_tables no_faults)) by (intros n; reflexivity).
  assert (U : (List.length (profiles_of "u1" (tables (world no_tables no_faults)))
               <= 1)%nat) by (simpl; lia).
  destruct (ensureProfileExists_idempotent "u1" "ann@example.com" "Ann" H U)
    as (p & R & R1 & _).
  exists p. split; assumption.
Defined.

(* ------------------------------------------------------------------ *)
(** ** Ordering of a select *)
(* ------------------------------------------------------------------ *)

Section Ordering.

Variable le : Row -> Row -> bool.

Lemma insert_by_length (x : Row) (l : list Row) :
  List.length (insert_by le x l) = S (List.length l).
Proof.
  induction l as [|y l IH]; simpl; [reflexivity|].
  destruct (le x y); simpl; now rewrite ?IH.
Qed.

Lemma sort_by_length (l : list Row) :
  List.length (sort_by le l) = List.length l.
Proof.
  induction l as [|x l IH]; simpl; [reflexivity|].
  now rewrite insert_by_length, IH.
Qed.

Lemma insert_by_In (x y : Row) (l : list Row) :
  List.In y (insert_by le x l) <-> y = x \/ List.In y l.
Proof.
  induction l as [|z l IH]; simpl.
  - intuition.
  - destruct (le x z); simpl; rewrite ?IH; intuition.
Qed.

Lemma sort_by_In (y : Row) (l : list Row) :
  List.In y (sort_by le l) <-> List.In y l.
Proof.
  induction l as [|x l IH]; simpl; [reflexivity|].
  rewrite insert_by_In, IH. intuition.
Qed.

Hypothesis le_total : forall a b, le a b = false -> le b a = true.
Hypothesis le_trans : forall a b c, le a b = true -> le b c = true -> le a c = true.

Let R (a b : Row) : Prop := le a b = true.

Lemma insert_by_sorted (x : Row) (l : list Row) :
  StronglySorted R l -> StronglySorted R (insert_by le x l).
Proof.
  induction 1 as [|y l S IH F]; simpl.
  - repeat constructor.
  - destruct (le x y) eqn:E.
    + constructor; [constructor; assumption|].
      constructor; [exact E|].
      rewrite Forall_forall in *. intros z Hz. eapply le_trans; eauto.
      apply F; exact Hz.
    + constructor; [exact IH|].
      rewrite Forall_forall in *. intros z Hz.
      apply insert_by_In in Hz. destruct Hz as [->|Hz].
      * now apply le_total.
      * now apply F.
Qed.

Lemma sort_by_sorted (l : list Row) : StronglySorted R (sort_by le l).
Proof.
  induction l as [|x l IH]; simpl; [constructor|].
  now apply insert_by_sorted.
Qed.

End Ordering.

Lemma key_geb_total (x y : option Z) : key_geb x y = false -> key_geb y x = true.
Proof.
  destruct x as [a|], y as [b|]; simpl; try congruence.
  intros H. apply Z.leb_gt in H. apply Z.leb_le. lia.
Qed.

Lemma key_geb_trans (x y z : option Z) :
  key_geb x y = true -> key_geb y z = true -> key_geb x z = true.
Proof.
  destruct x as [a|], y as [b|], z as [c|]; simpl; try congruence.
  rewrite !Z.leb_le. lia.
Qed.

Lemma before_total col asc a b :
  before col asc a b = false -> before col asc b a = true.
Proof. unfold before. destruct asc; apply key_geb_total. Qed.

Lemma before_trans col asc a b c :
  before col asc a b = true -> before col asc b c = true ->
  before col asc a c = true.
Proof.
  unfold before. destruct asc; intros H1 H2; eapply key_geb_trans; eauto.
Qed.

Lemma matching_all (t : string) (v : Verb) (tabs : Tables) :
  matching (mk t v) tabs = tabs t.
Proof.
  unfold matching. simpl. induction (tabs t) as [|r l IH]; simpl; congruence.
Qed.

(* ------------------------------------------------------------------ *)
(** ** Running an operation request by request *)
(* ------------------------------------------------------------------ *)

(** The next [await]: the fault due for it is split on. *)
Ltac issue :=
  unfold single, maybeSingle, await;
  simpl; rewrite ?length_app; simpl;
  match goal with
  | |- context [match faults ?w ?n with _ => _ end] =>
      destruct (faults w n) as [[?|]|] eqn:?
  end; simpl.

(** The innermost [match] the run is stuck on is split on. *)
Ltac crack :=
  match goal with
  | |- context [match ?x with _ => _ end] =>
      lazymatch x with
      | context [match _ with _ => _ end] => fail
      | _ => destruct x eqn:?
      end
  end; simpl.

(** The requests issued by a run are the end of its log. *)
Ltac new_log :=
  rewrite <- ?app_assoc; simpl; eexists; split; [reflexivity|].

(* ------------------------------------------------------------------ *)
(** ** getPosts: pagination *)
(* ------------------------------------------------------------------ *)

Lemma matching_unfiltered (q : Query) (tabs : Tables) :
  q_where q = [] -> matching q tabs = tabs (q_table q).
Proof.
  intros E. unfold matching. rewrite E.
  induction (tabs (q_table q)) as [|r l IH]; simpl; congruence.
Qed.

Lemma window_past_end (strict : bool) (q : Query) (l : list Row) (lo hi : Z) :
  q_range q = Some (lo, hi) ->
  lo = Z.of_nat (List.length l) ->
  (exists c, window strict q l = inl c) \/ window strict q l = inr [].
Proof.
  intros E ->. unfold window. rewrite E.
  destruct (Z.of_nat (List.length l) <? 0)%Z; [left; eauto|].
  destruct (hi - Z.of_nat (List.length l) + 1 <? 0)%Z; [left; eauto|].
  rewrite Z.ltb_irrefl, andb_false_r. right.
  now rewrite Nat2Z.id, skipn_all, firstn_nil.
Qed.

Ltac ranges :=
  let q := fresh "q" in let lo := fresh "lo" in let hi := fresh "hi" in
  let HIn := fresh "HIn" in let Hr := fresh "Hr" in
  intros q lo hi HIn Hr; simpl in HIn;
  repeat (destruct HIn as [<-|HIn]; [simpl in Hr; try discriminate|]);
  try contradiction;
  try (inversion Hr; subst; unfold total_posts, or_zero; lia).

Lemma getPosts_offset_within_total (page limit : Z) (w : World) :
  exists issued,
    log (after (getPosts page limit) w) = (log w ++ issued)%list
    /\ forall q lo hi, List.In q issued -> q_range q = Some (lo, hi) ->
                       (lo <= total_posts w)%Z.
Proof.
  unfold after, getPosts. run_probe.
  destruct (faults w (List.length (log w))); simpl.
  { new_log. ranges. }
  issue; unfold select_count; rewrite ?matching_all;
  repeat first [issue | crack]; new_log; ranges.
Qed.

Lemma getPosts_past_the_end (page limit : Z) (w : World) :
  reachable w = true ->
  fault_at 1 w = None ->
  (total_posts w <= page * limit)%Z ->
  result (getPosts page limit) w = Returned (RList []).
Proof.
  intros H F P. unfold reachable in H. unfold fault_at in F.
  unfold total_posts in P.
  unfold result, getPosts. run_probe.
  destruct (faults w (List.length (log w))); [discriminate|]. simpl.
  unfold await at 1. simpl. rewrite length_app. simpl. rewrite F.
  unfold answer. simpl. unfold select_count. rewrite matching_all. simpl.
  destruct (Z.eqb_spec (Z.of_nat (List.length (tables w "posts"))) 0) as [E|E];
    [reflexivity|].
  simpl. rewrite Z.min_r by lia.
  issue; try reflexivity.
  unfold answer. simpl.
  match goal with
  | |- context [window ?s ?q ?l] =>
      destruct (@window_past_end s q l _ _ eq_refl) as [[c' Hc]| Hc]
  end.
  - now rewrite sort_by_length, matching_unfiltered.
  - rewrite Hc. reflexivity.
  - rewrite Hc. reflexivity.
Qed.

(** C5.  Whatever the page, the limit and the behaviour of the store, no
    request of [getPosts] carries a range that starts after the total
    number of rows of [posts]; and when the store is reachable and answers
    the count, a page past the end ([page * limit] at or after the total)
    resolves to the empty list. *)
Theorem getPosts_pagination (page limit : Z) (w : World) :
  (exists issued,
     log (after (getPosts page limit) w) = (log w ++ issued)%list
     /\ forall q lo hi, List.In q issued -> q_range q = Some (lo, hi) ->
                        (lo <= total_posts w)%Z)
  /\ (reachable w = true ->
      fault_at 1 w = None ->
      (total_posts w <= page * limit)%Z ->
      result (getPosts page limit) w = Returned (RList [])).
Proof.
  split.
  - apply getPosts_offset_within_total.
  - apply getPosts_past_the_end.
Qed.

Lemma getPosts_pagination_witness :
  result (getPosts 5 2) (world sample no_faults) = Returned (RList []).
Proof.
  apply (proj2 (getPosts_pagination 5 2 (world sample no_faults)));
    [reflexivity | reflexivity | unfold total_posts; simpl; lia].
Defined.

(* ------------------------------------------------------------------ *)
(** ** getPostsByAuthor *)
(* ------------------------------------------------------------------ *)

(** The three ways [getPostsByAuthor] ends: with the empty list; with the
    posts and the placeholder author, when the author request is answered
    with an error or does not find exactly one profile; with the posts and
    the summary of the one profile found. *)
Lemma getPostsByAuthor_cases (authorId : string) (w : World) :
  result (getPostsByAuthor authorId) w = Returned (RList [])
  \/ (result (getPostsByAuthor authorId) w
      = Returned (RList (map (fun post => attach "author" (unknownUser post) post)
                             (posts_by authorId w)))
      /\ (fault_at 2 w <> None
          \/ forall p, profiles_of authorId (tables w) <> [p]))
  \/ (exists p,
        fault_at 2 w = None
        /\ profiles_of authorId (tables w) = [p]
        /\ result (getPostsByAuthor authorId) w
           = Returned (RList (map (fun post =>
                                     attach "author" (project author_columns p) post)
                                  (posts_by authorId w)))).
Proof.
  unfold result, getPostsByAuthor, posts_by, profiles_of. run_probe.
  destruct (faults w (List.length (log w))); simpl; [now left|].
  issue; try (now left).
  unfold answer, matching. simpl. rewrite holds_all_one.
  change (map (to_obj (tables w) AllCols [])) with (map plain).
  destruct (sort_by _ _) as [|r rows] eqn:S; simpl; [now left|].
  issue.
  - right. left. split; [reflexivity|]. left.
    unfold fault_at. rewrite <- Nat.add_assoc in *. simpl in *. congruence.
  - now left.
  - unfold answer, matching. simpl. rewrite holds_all_one.
    rewrite <- Nat.add_assoc in *. simpl in *. unfold fault_at.
    destruct (filter _ (tables w "profiles")) as [|p [|p' ps]] eqn:P; simpl.
    + right. left. split; [reflexivity|]. right. congruence.
    + right. right. exists p. repeat split. assumption.
    + right. left. split; [reflexivity|]. right. congruence.
Qed.

Lemma StronglySorted_map {A B : Type} (f : A -> B)
  (R : A -> A -> Prop) (S : B -> B -> Prop) (l : list A) :
  (forall a b, R a b -> S (f a) (f b)) ->
  StronglySorted R l -> StronglySorted S (map f l).
Proof.
  intros HRS. induction 1 as [|a l Hs IH Hf]; simpl; constructor; auto.
  rewrite Forall_forall in *. intros b Hb.
  apply in_map_iff in Hb. destruct Hb as (x & <- & Hx). auto.
Qed.

Lemma posts_by_sorted (authorId : string) (w : World) (g : Obj -> Obj) :
  (forall o, fields (g o) = fields o) ->
  StronglySorted not_earlier (map g (posts_by authorId w)).
Proof.
  intros Hg. unfold posts_by. rewrite map_map.
  eapply StronglySorted_map;
    [|apply sort_by_sorted; [apply before_total | apply before_trans]].
  intros a b H. unfold not_earlier, created_at. rewrite !Hg. exact H.
Qed.

Lemma cell_eqb_eq (a b : Cell) : cell_eqb a b = true -> a = b.
Proof.
  destruct a, b; simpl; try discriminate; intros H; try reflexivity.
  - apply Bool.eqb_prop in H. now subst.
  - apply Z.eqb_eq in H. now subst.
  - apply String.eqb_eq in H. now subst.
  - destruct (list_eq_dec string_dec l l0); [now subst|discriminate].
Qed.

Lemma posts_by_author (authorId : string) (w : World) (post : Obj) :
  List.In post (posts_by authorId w) -> author_id post = CStr authorId.
Proof.
  unfold posts_by. intros H. apply in_map_iff in H.
  destruct H as (r & <- & H). apply sort_by_In, filter_In in H.
  destruct H as [_ H]. now apply cell_eqb_eq in H.
Qed.

(** Newest first, with the name of the author from the profile. *)
Lemma getPostsByAuthor_newest_first :
  result (getPostsByAuthor "ann") (world sample no_faults)
  = Returned (RList
      [ mkObj [("id", CStr "p2"); ("author_id", CStr "ann"); ("created_at", CNum 7)]
              [("author", Some [ ("id", CStr "ann"); ("full_name", CStr "Ann");
                                 ("avatar_url", CNull); ("headline", CNull);
                                 ("email", CNull) ])];
        mkObj [("id", CStr "p1"); ("author_id", CStr "ann"); ("created_at", CNum 5)]
              [("author", Some [ ("id", CStr "ann"); ("full_name", CStr "Ann");
                                 ("avatar_url", CNull); ("headline", CNull);
                                 ("email", CNull) ])] ]).
Proof. reflexivity. Qed.

(** C6, the order as the claim has it.  Two posts of one author that carry
    the same [created_at] are both returned, one after the other: the list
    is not strictly descending. *)
Lemma getPostsByAuthor_ties_not_strict :
  exists l,
    result (getPostsByAuthor "ann") (world tied_posts no_faults)
    = Returned (RList l)
    /\ ~ StronglySorted strictly_later l.
Proof.
  eexists. split; [reflexivity|].
  intros H. inversion H as [|a l Hs Hf]; subst.
  inversion Hf as [|b l' Hb _]; subst.
  unfold strictly_later in Hb. simpl in Hb. lia.
Qed.

(** C6, amended.  [getPostsByAuthor] always resolves to a list; the list is
    in descending order of [created_at] with ties allowed (no post is
    earlier than one that follows it); every post of the list carries an
    author; and the author is the "Unknown User" placeholder with blank
    avatar, headline and email whenever the author's profile is missing or
    the request for it fails. *)
Theorem getPostsByAuthor_descending_with_author (authorId : string) (w : World) :
  exists l,
    result (getPostsByAuthor authorId) w = Returned (RList l)
    /\ StronglySorted not_earlier l
    /\ (forall post, List.In post l ->
          exists author, sub "author" (embedded post) = Some author)
    /\ (profiles_of authorId (tables w) = [] \/ fault_at 2 w <> None ->
        forall post, List.In post l ->
          sub "author" (embedded post)
          = Some [ ("id", author_id post);
                   ("full_name", CStr "Unknown User");
                   ("avatar_url", CStr "");
                   ("headline", CStr "");
                   ("email", CStr "") ]).
Proof.
  destruct (getPostsByAuthor_cases authorId w)
    as [R | [[R C] | (p & F & P & R)]]; rewrite R; eexists;
    (split; [reflexivity|]).
  - split; [constructor|]. split; intros; contradiction.
  - split; [now apply posts_by_sorted|].
    split; [|intros _]; intros post H; apply in_map_iff in H;
      destruct H as (o & <- & _); simpl; eauto.
  - split; [now apply posts_by_sorted|].
    split.
    + intros post H. apply in_map_iff in H.
      destruct H as (o & <- & _). simpl. eauto.
    + intros [E|E]; [rewrite E in P; discriminate | contradiction].
Qed.

Lemma getPostsByAuthor_descending_with_author_witness :
  profiles_of "ann" (tables (world tied_posts no_faults)) = []
  /\ exists l,
       result (getPostsByAuthor "ann") (world tied_posts no_faults)
       = Returned (RList l)
       /\ forall post, List.In post l ->
            exists author, sub "author" (embedded post) = Some author
                           /\ get "full_name" author = CStr "Unknown User".
Proof.
  split; [reflexivity|].
  destruct (getPostsByAuthor_descending_with_author
              "ann" (world tied_posts no_faults)) as (l & R & _ & _ & U).
  exists l. split; [exact R|].
  intros post H. rewrite (U (or_introl eq_refl) post H).
  eexists. split; reflexivity.
Defined.

(* ------------------------------------------------------------------ *)
(** ** The author attached to a post *)
(* ------------------------------------------------------------------ *)

Lemma map_get_key (k : Cell) (authors : list Obj) (a : Obj) :
  map_get k (map (fun author => (get "id" (fields author), author)) authors)
  = Some a ->
  get "id" (fields a) = k.
Proof.
  unfold map_get.
  assert (G : forall (l : list Obj) (acc : option Obj),
             (forall x, acc = Some x -> get "id" (fields x) = k) ->
             forall x,
               fold_left (fun acc kv =>
                            if cell_eqb (fst kv) k then Some (snd kv) else acc)
                         (map (fun author => (get "id" (fields author), author)) l)
                         acc = Some x ->
               get "id" (fields x) = k).
  { induction l as [|y l IH]; simpl; intros acc Hacc x Hx; [auto|].
    apply (IH _) in Hx; [exact Hx|].
    intros z. destruct (cell_eqb (get "id" (fields y)) k) eqn:E; [|auto].
    intros [= <-]. now apply cell_eqb_eq. }
  apply G. discriminate.
Qed.

Lemma unknown_matches (post : Obj) :
  author_matches (attach "author" (unknownUser post) post).
Proof. eexists. split; reflexivity. Qed.

Lemma looked_up_matches (authors : list Obj) (post : Obj) :
  author_matches
    (attach "author"
       match map_get (author_id post)
                     (map (fun author => (get "id" (fields author), author))
                          authors) with
       | Some author => fields author
       | None => unknownUser post
       end post).
Proof.
  destruct (map_get _ _) as [a|] eqn:E.
  - eexists. split; [reflexivity|]. simpl.
    now apply map_get_key in E.
  - apply unknown_matches.
Qed.

Lemma getPosts_author_matches (page limit : Z) (w : World) :
  exists l,
    result (getPosts page limit) w = Returned (RList l)
    /\ Forall author_matches l.
Proof.
  unfold result, getPosts. run_probe.
  destruct (faults w (List.length (log w))); simpl; [eauto|].
  repeat first [issue | crack];
    (eexists; split; [reflexivity|]);
    first
      [ apply Forall_nil
      | apply Forall_cons;
        [ first [ apply unknown_matches
                | apply looked_up_matches
                | eexists; split; [reflexivity|]; simpl;
                  eapply map_get_key; eassumption ]
        | apply Forall_forall; intros post H; apply in_map_iff in H;
          destruct H as (o' & <- & _);
          first [apply unknown_matches | apply looked_up_matches] ] ].
Qed.

Lemma getPostsByAuthor_author_matches (authorId : string) (w : World) :
  exists l,
    result (getPostsByAuthor authorId) w = Returned (RList l)
    /\ Forall author_matches l.
Proof.
  destruct (getPostsByAuthor_cases authorId w)
    as [R | [[R C] | (p & F & P & R)]]; rewrite R; eexists;
    (split; [reflexivity|]).
  - constructor.
  - apply Forall_forall. intros post H. apply in_map_iff in H.
    destruct H as (o & <- & _). apply unknown_matches.
  - apply Forall_forall. intros post H. apply in_map_iff in H.
    destruct H as (o & <- & H). eexists. split; [reflexivity|].
    change (get "id" p = author_id o).
    rewrite (posts_by_author _ _ _ H).
    assert (I : List.In p (profiles_of authorId (tables w)))
      by (rewrite P; now left).
    apply filter_In in I. destruct I as [_ I]. now apply cell_eqb_eq in I.
Qed.

(** C10.  In every world, [getPosts] and [getPostsByAuthor] resolve to a
    list each element of which carries an author whose [id] equals the
    [author_id] of the post, whether the author comes from the batch of
    profiles, from the single profile or is the "Unknown User"
    placeholder. *)
Theorem post_author_id_matches (w : World) :
  (forall page limit,
     exists l, result (getPosts page limit) w = Returned (RList l)
               /\ Forall author_matches l)
  /\ (forall authorId,
        exists l, result (getPostsByAuthor authorId) w = Returned (RList l)
                  /\ Forall author_matches l).
Proof.
  split; intros.
  - apply getPosts_author_matches.
  - apply getPostsByAuthor_author_matches.
Qed.

(* ------------------------------------------------------------------ *)
(** ** Suggestions *)
(* ------------------------------------------------------------------ *)

Lemma cell_eqb_refl (a : Cell) : cell_eqb a a = true.
Proof.
  destruct a; simpl; auto.
  - apply Bool.eqb_reflx.
  - apply Z.eqb_refl.
  - apply String.eqb_refl.
  - destruct (list_eq_dec string_dec l l); congruence.
Qed.

Lemma firstn_Z_length {A : Type} (n : Z) (l : list A) :
  (0 <= n)%Z -> (Z.of_nat (List.length (firstn (Z.to_nat n) l)) <= n)%Z.
Proof.
  intros H. pose proof (firstn_le_length (Z.to_nat n) l). lia.
Qed.

Lemma In_firstn {A : Type} (n : nat) (l : list A) (x : A) :
  List.In x (firstn n l) -> List.In x l.
Proof.
  revert l. induction n as [|n IH]; intros [|y l]; simpl; try tauto.
  intros [->|H]; auto.
Qed.

(** [getSuggestedConnections] keeps its two promises: at most [limit]
    profiles, none of them the requester's. *)
Lemma getSuggestedConnections_spec (userId : string) (limit : Z) (w : World) :
  exists l,
    result (getSuggestedConnections userId limit) w = Returned (RList l)
    /\ ((0 <= limit)%Z -> (Z.of_nat (List.length l) <= limit)%Z)
    /\ forall o, List.In o l -> get "id" (fields o) <> CStr userId.
Proof.
  unfold result, getSuggestedConnections. run_probe.
  destruct (faults w (List.length (log w))); simpl.
  { exists []. repeat split; simpl; intros; try lia; contradiction. }
  issue;
    try (exists []; repeat split; simpl; intros; try lia; contradiction).
  unfold answer, matching, window. simpl.
  destruct (limit <? 0)%Z; simpl.
  { exists []. repeat split; simpl; intros; try lia; contradiction. }
  eexists. split; [reflexivity|]. split.
  - intros H. rewrite length_map. now apply firstn_Z_length.
  - intros o H. apply in_map_iff in H. destruct H as (r & <- & H).
    apply In_firstn, filter_In in H. destruct H as [_ H].
    unfold holds_all in H. simpl in H. rewrite andb_true_r in H.
    apply andb_true_iff in H. destruct H as [_ H].
    simpl. intros E. rewrite E, cell_eqb_refl in H. discriminate.
Qed.

(** C7.  [getSuggestedInstitutions] has no filter on the requester: an
    institution that asks for suggestions is suggested its own profile,
    where [getSuggestedConnections] on the same store leaves it out. *)
Theorem getSuggestedInstitutions_suggests_requester :
  result (getSuggestedInstitutions "clinic" 10) (world lone_institution no_faults)
  = Returned (RList [ plain [ ("id", CStr "clinic");
                              ("full_name", CStr "City Clinic");
                              ("profile_type", CStr "institution") ] ])
  /\ result (getSuggestedConnections "clinic" 10) (world lone_institution no_faults)
     = Returned (RList []).
Proof. split; reflexivity. Qed.

Lemma mem_false (c : Cell) (vs : list Cell) :
  mem c vs = false -> ~ List.In c vs.
Proof.
  unfold mem. intros H I.
  assert (E : existsb (cell_eqb c) vs = true)
    by (apply existsb_exists; exists c; split; [exact I | apply cell_eqb_refl]).
  congruence.
Qed.

(** A select of all columns with a limit returns at most that many rows,
    each a row of the table that passes the filters. *)
Lemma answer_limited (strict : bool) (dflt : string -> Row) (tabs : Tables)
  (q : Query) (n : Z) :
  q_verb q = Select AllCols [] false ->
  q_range q = None ->
  q_limit q = Some n ->
  exists l,
    (fst (answer strict dflt tabs q) = ok (map plain l)
     \/ (l = [] /\ data (fst (answer strict dflt tabs q)) = None
         /\ error (fst (answer strict dflt tabs q)) <> None))
    /\ ((0 <= n)%Z -> (Z.of_nat (List.length l) <= n)%Z)
    /\ forall r, List.In r l -> holds_all (q_where q) r = true.
Proof.
  intros V R L. unfold answer, window. rewrite V, R, L.
  destruct (n <? 0)%Z; simpl.
  - exists []. split; [right; repeat split; discriminate|].
    split; simpl; intros; [lia|contradiction].
  - eexists. split; [left; reflexivity|]. split.
    + apply firstn_Z_length.
    + intros r H. apply In_firstn in H.
      destruct (q_order q) as [[col asc]|]; simpl in H;
        [apply sort_by_In in H|]; apply filter_In in H; tauto.
Qed.

Lemma followed_ids (userId : string) (w : World) :
  map (fun x : Obj => get "following_id" (fields x))
      (map (to_obj (tables w) (Only ["following_id"]) [])
           (matching (eq "follower_id" userId
                        (select (Only ["following_id"]) "follows"))
                     (tables w)))
  = followed_by userId w.
Proof.
  unfold followed_by, matching. simpl. rewrite holds_all_one, map_map.
  apply map_ext. reflexivity.
Qed.

Ltac nothing_suggested :=
  exists []; repeat split; simpl; intros; try lia; auto.

Ltac limited_request limit :=
  unfold await; simpl; rewrite ?length_app; simpl;
  match goal with
  | |- context [match faults ?w ?n with _ => _ end] =>
      destruct (faults w n) as [[?|]|]
  end; simpl; [nothing_suggested | nothing_suggested |];
  match goal with
  | |- context [answer ?s ?d ?t ?q] =>
      let l := fresh "l" in
      let C := fresh "C" in let E := fresh "E" in
      let E1 := fresh "E1" in let E2 := fresh "E2" in
      let Hlen := fresh "Hlen" in let Hall := fresh "Hall" in
      let r := fresh "r" in let t' := fresh "t'" in
      destruct (@answer_limited s d t q limit eq_refl eq_refl eq_refl)
        as (l & C & Hlen & Hall);
      destruct (answer s d t q) as [r t'];
      simpl in C |- *;
      destruct C as [E | (-> & E1 & E2)];
      [ subst r; simpl; eexists; split; [reflexivity|];
        split; [now rewrite length_map|]
      | destruct (error r); [|congruence]; simpl; nothing_suggested ]
  end.

(** [getSuggestedInstitutions] returns at most [limit] profiles and, when
    the request for the follows is answered, none that the requester
    follows. *)
Lemma getSuggestedInstitutions_spec (userId : string) (limit : Z) (w : World) :
  exists l,
    result (getSuggestedInstitutions userId limit) w = Returned (RList l)
    /\ ((0 <= limit)%Z -> (Z.of_nat (List.length l) <= limit)%Z)
    /\ (fault_at 1 w = None ->
        forall o, List.In o l ->
                  ~ List.In (get "id" (fields o)) (followed_by userId w)).
Proof.
  unfold result, getSuggestedInstitutions, fault_at. run_probe.
  destruct (faults w (List.length (log w))); simpl; [nothing_suggested|].
  unfold await at 1. simpl. rewrite length_app. simpl.
  destruct (faults w (List.length (log w) + 1)) as [[c|]|] eqn:F1; simpl.
  - limited_request limit. discriminate.
  - nothing_suggested.
  - unfold answer. simpl. rewrite followed_ids.
    destruct (followed_by userId w) as [|x xs] eqn:F.
    + limited_request limit. auto.
    + limited_request limit. intros _ o H.
      apply in_map_iff in H. destruct H as (r & <- & H).
      apply Hall in H. unfold holds_all in H. simpl in H.
      rewrite andb_true_r in H.
      repeat (apply andb_true_iff in H; destruct H as [? H]).
      apply negb_true_iff in H.
      change (mem (get "id" r) (x :: xs) = false) in H.
      now apply mem_false in H.
Qed.

(* ------------------------------------------------------------------ *)
(** ** getConnectionStatus *)
(* ------------------------------------------------------------------ *)

Lemma pair_filter_sym (a b : string) (r : Row) :
  holds (pair_filter a b) r = holds (pair_filter b a) r.
Proof. simpl. apply orb_comm. Qed.






(** A connection is found from either side. *)
Lemma getConnectionStatus_either_direction :
  result (getConnectionStatus "ann" "bob") (world one_connection no_faults)
  = Returned (RCell (CStr "accepted"))
  /\ result (getConnectionStatus "bob" "ann") (world one_connection no_faults)
     = Returned (RCell (CStr "accepted")).
Proof. split; reflexivity. Qed.



(* ------------------------------------------------------------------ *)
(** ** Every operation, every behaviour of the store *)
(* ------------------------------------------------------------------ *)

(** A leaf of a run: the result and the final world are read off, the
    requests that were issued are known one by one. *)
Ltac no_throw k Hk Hf :=
  exfalso;
  repeat match goal with
         | H : faults ?w ?n = _ |- _ =>
             destruct (Nat.eq_dec k n) as [->|]; [congruence|]; clear H
         end;
  lia.

Ltac leaf :=
  eexists; eexists; split; [reflexivity|]; simpl;
  split; [ intros; first [reflexivity | discriminate] |];
  split;
  [ let k := fresh "k" in let Hk := fresh "Hk" in let Hf := fresh "Hf" in
    intros k Hk Hf; rewrite ?length_app in Hk; simpl in Hk;
    first [reflexivity | no_throw k Hk Hf]
  | rewrite <- ?app_assoc; simpl; first [reflexivity | eauto] ].

(** Every call returns; it returns the default of the operation when the
    probe fails and when a later request throws; and it starts with the
    probe unless it returns before it. *)
Lemma call_cases (op : Op) (w : World) :
  exists v w',
    call op w = (Returned v, w')
    /\ (reachable w = false -> v = unreachable_default op w)
    /\ (forall k, (List.length (log w) < k < List.length (log w'))%nat ->
                  faults w k = Some NetworkThrow -> v = caught_default op)
    /\ (if never_probes op then log w' = log w
        else exists rest, log w' = (log w ++ probe :: rest)%list).
Proof.
  unfold reachable.
  destruct op; simpl call; simpl never_probes.
  all: try (unfold getNotifications, try_catch, bind; simpl; leaf).
  all: try (unfold recordProfileView, try_catch, bind; simpl;
            destruct (String.eqb viewerId profileId); simpl; [leaf|]).
  all: (unfold getProfile, updateProfile, ensureProfileExists, getPosts,
      getPostsByAuthor, createPost, getConnections, getConnectionStatus,
      sendConnectionRequest, getSuggestedConnections, getConnectionRequests,
      acceptConnectionRequest, rejectConnectionRequest, getExperiences,
      getEducation, createComment, getPostComments, likePost,
      unlikePost, isPostLiked, createInstitution, getInstitutions, createJob,
      getJobs, applyToJob, createEvent, getEvents, registerForEvent,
      followUser, unfollowUser, isFollowing, getFollowers, getFollowing,
      getSuggestedInstitutions;
    run_probe;
    destruct (faults w (List.length (log w))); simpl;
    [ leaf
    | repeat first [ issue
                   | progress (unfold one, written, throw_if,
                                 throw_unless_not_found; simpl)
                   | crack ];
      leaf ]).
Qed.

(** A leaf of a run in which a request was answered with an error: either
    the result is the value of the [catch] block, or the reply is one the
    operation passes over. *)
Ltac same_request Hf :=
  match type of Hf with
  | faults _ ?m = _ =>
      match goal with
      | H : faults _ ?n = _ |- _ =>
          let E := fresh "E" in
          assert (E : m = n) by lia;
          try rewrite E in Hf; rewrite Hf in H;
          first [ discriminate H
                | injection H as ?; subst; simpl in *; congruence ]
      end
  end.

Ltac error_leaf :=
  eexists; eexists; split; [reflexivity|]; simpl;
  let i := fresh "i" in let c := fresh "c" in
  let Hi := fresh "Hi" in let Hk := fresh "Hk" in
  let Hf := fresh "Hf" in let U := fresh "U" in
  intros i c Hi Hk Hf U; rewrite ?length_app in Hk; simpl in Hk;
  first [ reflexivity
        | exfalso;
          destruct i as [|[|[|[|i]]]]; try lia;
          simpl in U; first [discriminate U | same_request Hf] ].

(** When a request after the probe is answered with an error that the
    operation does not pass over, the call returns the value of the
    [catch] block of the operation. *)
Lemma call_on_error (op : Op) (w : World) :
  exists v w',
    call op w = (Returned v, w')
    /\ forall position c,
         (0 < position)%nat ->
         (List.length (log w) + position < List.length (log w'))%nat ->
         faults w (List.length (log w) + position) = Some (ErrorReply c) ->
         passed_over op position c = false ->
         v = caught_default op.
Proof.
  destruct op; simpl call.
  all: try (unfold getNotifications, try_catch, bind; simpl; error_leaf).
  all: try (unfold recordProfileView, try_catch, bind; simpl;
            destruct (String.eqb viewerId profileId); simpl; [error_leaf|]).
  all: (unfold getProfile, updateProfile, ensureProfileExists, getPosts,
      getPostsByAuthor, createPost, getConnections, getConnectionStatus,
      sendConnectionRequest, getSuggestedConnections, getConnectionRequests,
      acceptConnectionRequest, rejectConnectionRequest, getExperiences,
      getEducation, createComment, getPostComments, likePost,
      unlikePost, isPostLiked, createInstitution, getInstitutions, createJob,
      getJobs, applyToJob, createEvent, getEvents, registerForEvent,
      followUser, unfollowUser, isFollowing, getFollowers, getFollowing,
      getSuggestedInstitutions;
    run_probe;
    destruct (faults w (List.length (log w))); simpl;
    [ error_leaf
    | repeat first [ issue
                   | progress (unfold one, written, throw_if,
                                 throw_unless_not_found; simpl)
                   | crack ];
      error_leaf ]).
Qed.

(** C8, as the claim has it.  The third request of [likePost], the call of
    the counter procedure, is answered with an error; [likePost] ignores
    the reply and resolves to [true], which is not its safe default. *)
Lemma likePost_ignores_counter_error :
  log (after (likePost "p1" "u1") failing_counter)
  = [ probe;
      from "post_likes" |> insert [ ("post_id", CStr "p1");
                                    ("user_id", CStr "u1");
                                    ("created_at", CNum 0) ];
      rpc "increment_likes_count" "p1" ]
  /\ faults failing_counter 2 = Some (ErrorReply "500")
  /\ result (likePost "p1" "u1") failing_counter = Returned (RBool true)
  /\ RBool true <> caught_default (LikePost "p1" "u1")
  /\ RBool true <> unreachable_default (LikePost "p1" "u1") failing_counter.
Proof. repeat split; discriminate. Qed.

(** C8, amended.  Every exported operation returns for every input and
    every behaviour of the store: no exception leaves it.  When the
    reachability probe fails the result is the operation's default for an
    unreachable store; when any later request throws it is the value of
    the operation's [catch] block (empty list, null, false or void); and
    when a later request is answered with an error it is that value too,
    unless the reply is one the operation passes over. *)
Theorem operations_never_throw (op : Op) (w : World) :
  exists v,
    result (call op) w = Returned v
    /\ (reachable w = false -> v = unreachable_default op w)
    /\ (forall k,
          (List.length (log w) < k < List.length (log (after (call op) w)))%nat ->
          faults w k = Some NetworkThrow ->
          v = caught_default op)
    /\ (forall position c,
          (0 < position)%nat ->
          (List.length (log w) + position
           < List.length (log (after (call op) w)))%nat ->
          faults w (List.length (log w) + position) = Some (ErrorReply c) ->
          passed_over op position c = false ->
          v = caught_default op).
Proof.
  destruct (call_cases op w) as (v & w' & E & U & T & _).
  destruct (call_on_error op w) as (v' & w'' & E' & R).
  rewrite E in E'. injection E' as <- <-.
  exists v. unfold result, after. rewrite E. simpl. auto.
Qed.

Lemma operations_never_throw_witness :
  reachable (world no_tables (fault_on 0 (ErrorReply "42P01"))) = false
  /\ result (call (LikePost "p1" "u1"))
            (world no_tables (fault_on 0 (ErrorReply "42P01")))
     = Returned (RBool false)
  /\ result (call (AcceptConnectionRequest "c1")) failing_update
     = Returned (RBool false).
Proof.
  split; [reflexivity|]. split.
  - destruct (operations_never_throw
                (LikePost "p1" "u1")
                (world no_tables (fault_on 0 (ErrorReply "42P01"))))
      as (v & R & U & _).
    rewrite R, (U eq_refl). reflexivity.
  - destruct (operations_never_throw (AcceptConnectionRequest "c1")
                                     failing_update)
      as (v & R & _ & _ & E).
    rewrite R, (E 1%nat "42501"); [reflexivity | lia | simpl; lia | | ];
      reflexivity.
Defined.

(** Every call starts with the reachability probe, except
    [getNotifications] and the self-view of [recordProfileView], which
    returns before it. *)
Lemma probe_comes_first (op : Op) (w : World) :
  (exists rest, log (after (call op) w) = (log w ++ probe :: rest)%list)
  \/ (exists userId, op = GetNotifications userId)
  \/ (exists userId, op = RecordProfileView userId userId).
Proof.
  destruct (call_cases op w) as (v & w' & E & _ & _ & P).
  unfold after. rewrite E. simpl.
  destruct op; simpl in P; eauto.
  destruct (String.eqb viewerId profileId) eqn:V; eauto.
  apply String.eqb_eq in V. subst. eauto.
Qed.

(** C9.  In every world, reachable or not, [getNotifications] resolves to
    the empty list without issuing any request: the log of requests and the
    tables are as before, so neither the probe nor any table is touched.
    It is the one operation without the probe: a call of any other starts
    with it, the self-view of [recordProfileView] apart, which returns
    before any access to the store. *)
Theorem getNotifications_empty_no_request (userId : string) (w : World) :
  result (getNotifications userId) w = Returned (RList [])
  /\ log (after (getNotifications userId) w) = log w
  /\ tables (after (getNotifications userId) w) = tables w
  /\ forall op,
       (exists rest, log (after (call op) w) = (log w ++ probe :: rest)%list)
       \/ (exists u, op = GetNotifications u)
       \/ (exists v, op = RecordProfileView v v).
Proof.
  repeat split. intros op. apply probe_comes_first.
Qed.

(* ------------------------------------------------------------------ *)
(** ** What a call leaves alone *)
(* ------------------------------------------------------------------ *)

Lemma answer_select_tables (strict : bool) (dflt : string -> Row)
  (tabs : Tables) (q : Query) :
  is_write q = false -> snd (answer strict dflt tabs q) = tabs.
Proof.
  unfold is_write, answer. destruct (q_verb q); try discriminate. intros _.
  destruct head; [reflexivity|].
  destruct (window _ _ _); reflexivity.
Qed.

Ltac same_tables :=
  repeat match goal with
         | H : answer ?s ?d ?t ?q = (_, ?t') |- _ =>
             let E := fresh "E" in
             assert (E : t' = t)
               by (rewrite <- (@answer_select_tables s d t q eq_refl);
                   now rewrite H);
             clear H; subst t'
         end.

Ltac reads :=
  let q := fresh "q" in let HIn := fresh "HIn" in
  intros q HIn; simpl in HIn;
  repeat (destruct HIn as [<-|HIn]; [reflexivity|]); contradiction.

Ltac frame_leaf :=
  same_tables; simpl;
  split; [reflexivity|];
  split; [ intros; first [discriminate | split; reflexivity] |];
  split; [ intros; first [reflexivity | discriminate] |];
  first [ rewrite <- ?app_assoc; simpl; eexists; split; [reflexivity|]
        | exists []; split; [now rewrite app_nil_r|] ];
  first [intros; discriminate | intros _; reads].

(** A call never changes the faults that are due.  On an unreachable store
    it issues the probe at most and changes no table.  A lookup changes no
    table in any world and issues selects only. *)
Lemma call_frame (op : Op) (w : World) :
  faults (after (call op) w) = faults w
  /\ (reachable w = false ->
      tables (after (call op) w) = tables w
      /\ log (after (call op) w)
         = if never_probes op then log w else (log w ++ [probe])%list)
  /\ (reads_only op = true -> tables (after (call op) w) = tables w)
  /\ (exists issued,
        log (after (call op) w) = (log w ++ issued)%list
        /\ (reads_only op = true ->
            forall q, List.In q issued -> is_write q = false)).
Proof.
  unfold after, reachable.
  destruct op; simpl call; simpl reads_only; simpl never_probes.
  all: try (unfold getNotifications, try_catch, bind; simpl; frame_leaf).
  all: try (unfold recordProfileView, try_catch, bind; simpl;
            destruct (String.eqb viewerId profileId); simpl; [frame_leaf|]).
  all: (unfold getProfile, updateProfile, ensureProfileExists, getPosts,
      getPostsByAuthor, createPost, getConnections, getConnectionStatus,
      sendConnectionRequest, getSuggestedConnections, getConnectionRequests,
      acceptConnectionRequest, rejectConnectionRequest, getExperiences,
      getEducation, createComment, getPostComments, likePost,
      unlikePost, isPostLiked, createInstitution, getInstitutions, createJob,
      getJobs, applyToJob, createEvent, getEvents, registerForEvent,
      followUser, unfollowUser, isFollowing, getFollowers, getFollowing,
      getSuggestedInstitutions;
    run_probe;
    destruct (faults w (List.length (log w))); simpl;
    [ frame_leaf
    | repeat first [ issue
                   | progress (unfold one, written, throw_if,
                                 throw_unless_not_found; simpl)
                   | crack ];
      frame_leaf ]).
Qed.

Lemma call_keeps_healthy (op : Op) (w : World) :
  healthy w -> healthy (after (call op) w).
Proof.
  intros H n. destruct (call_frame op w) as (F & _). rewrite F. apply H.
Qed.

(** X1.  When the reachability probe fails, no operation goes further: the
    probe is the only request it has issued (none at all for the calls that
    return before it) and every table is as it was. *)
Theorem unreachable_store_is_left_alone (op : Op) (w : World) :
  reachable w = false ->
  tables (after (call op) w) = tables w
  /\ log (after (call op) w)
     = if never_probes op then log w else (log w ++ [probe])%list.
Proof.
  intros H. now apply (call_frame op w).
Qed.

Lemma unreachable_store_is_left_alone_witness :
  log (after (likePost "p1" "ann")
             (world sample (fault_on 0 (ErrorReply "42P01"))))
  = [probe]
  /\ tables (after (likePost "p1" "ann")
                   (world sample (fault_on 0 (ErrorReply "42P01"))))
     = sample.
Proof.
  destruct (unreachable_store_is_left_alone
              (LikePost "p1" "ann")
              (world sample (fault_on 0 (ErrorReply "42P01"))) eq_refl)
    as [T L].
  split; [exact L | exact T].
Defined.

(** X2.  The nineteen lookups ([get...], [is...]) never write: in every
    world, whatever fails, the tables after the call are the tables before
    it and every request the call has issued is a select. *)
Theorem lookups_never_write (op : Op) (w : World) :
  reads_only op = true ->
  tables (after (call op) w) = tables w
  /\ exists issued,
       log (after (call op) w) = (log w ++ issued)%list
       /\ forall q, List.In q issued -> is_write q = false.
Proof.
  intros H. destruct (call_frame op w) as (_ & _ & T & issued & L & R).
  split; [auto|]. exists issued. auto.
Qed.

Lemma lookups_never_write_witness :
  tables (after (getPosts 0 10) (world sample no_faults)) = sample.
Proof.
  exact (proj1 (lookups_never_write (GetPosts 0 10)
                                    (world sample no_faults) eq_refl)).
Defined.

(* ------------------------------------------------------------------ *)
(** ** recordProfileView *)
(* ------------------------------------------------------------------ *)

(** The next request of a store without faults is answered. *)
Ltac answered H :=
  unfold single, maybeSingle, await; simpl; rewrite ?H; simpl.

Lemma get_set (k k' : string) (v : Cell) (r : Row) :
  get k (set k' v r) = if String.eqb k k' then v else get k r.
Proof.
  induction r as [|[k0 v0] r IH]; simpl.
  - destruct (String.eqb k k'); reflexivity.
  - destruct (String.eqb k' k0) eqn:E; simpl.
    + apply String.eqb_eq in E. subst k0.
      destruct (String.eqb k k'); reflexivity.
    + destruct (String.eqb k k0) eqn:E0.
      * apply String.eqb_eq in E0. subst k0.
        rewrite String.eqb_sym, E. reflexivity.
      * exact IH.
Qed.

(** The key of a view record is the pair of viewer and profile. *)
Lemma view_key (viewerId profileId : string) (w : World) (r : Row) :
  same_key (conflict_key "profile_views") (view_record viewerId profileId w) r
  = is_view viewerId profileId r.
Proof. unfold is_view. simpl. now rewrite andb_true_r. Qed.

Lemma existsb_filter {A : Type} (hit : A -> bool) (l : list A) :
  existsb hit l = match filter hit l with [] => false | _ :: _ => true end.
Proof.
  induction l as [|x l IH]; simpl; [reflexivity|].
  destruct (hit x); simpl; [reflexivity | exact IH].
Qed.

(** The columns of a view that was laid over a stored row. *)
Lemma merged_view (viewerId profileId : string) (w : World) (p : Row) :
  get "viewer_id" (spread p (view_record viewerId profileId w)) = CStr viewerId
  /\ get "profile_id" (spread p (view_record viewerId profileId w))
     = CStr profileId
  /\ get "viewed_at" (spread p (view_record viewerId profileId w))
     = CNum (clock w (ticks w)).
Proof. unfold spread. simpl. rewrite !get_set. simpl. repeat split. Qed.

Lemma is_view_merged (a b viewerId profileId : string) (w : World) (p : Row) :
  is_view a b (spread p (view_record viewerId profileId w))
  = String.eqb viewerId a && String.eqb profileId b.
Proof.
  unfold is_view. cbn [holds].
  destruct (merged_view viewerId profileId w p) as (-> & -> & _).
  reflexivity.
Qed.

Lemma is_view_added (a b viewerId profileId : string) (w : World) (d : Row) :
  is_view a b (fill (view_record viewerId profileId w) d)
  = String.eqb viewerId a && String.eqb profileId b.
Proof. reflexivity. Qed.

Lemma recordProfileView_healthy (viewerId profileId : string) (w : World) :
  viewerId <> profileId -> healthy w ->
  result (recordProfileView viewerId profileId) w = Returned RVoid
  /\ tables (after (recordProfileView viewerId profileId) w)
     = put "profile_views" (recorded viewerId profileId w) (tables w).
Proof.
  intros N H. apply String.eqb_neq in N.
  unfold result, after, recordProfileView, try_catch, bind. simpl.
  rewrite N. rewrite checkSchemaExists_spec. unfold reachable. simpl.
  rewrite H. simpl. answered H.
  unfold answer. cbn [q_verb q_table upsert from mk].
  change [("viewer_id", CStr viewerId); ("profile_id", CStr profileId);
          ("viewed_at", CNum (clock w (ticks w)))]
    with (view_record viewerId profileId w).
  rewrite existsb_filter.
  rewrite (filter_ext _ _ (view_key viewerId profileId w)).
  rewrite (map_ext
             (fun p => if same_key (conflict_key "profile_views")
                                   (view_record viewerId profileId w) p
                       then spread p (view_record viewerId profileId w)
                       else p)
             (fun p => if is_view viewerId profileId p
                       then spread p (view_record viewerId profileId w)
                       else p))
    by (intros p; now rewrite view_key).
  unfold recorded, views_of.
  destruct (filter _ (tables w "profile_views")); split; reflexivity.
Qed.

Lemma recorded_views (viewerId profileId : string) (w : World) :
  let after := recorded viewerId profileId w in
  (views_of viewerId profileId (tables w) = [] ->
   after = (tables w "profile_views"
            ++ [fill (view_record viewerId profileId w)
                     (defaults w "profile_views")])%list)
  /\ (views_of viewerId profileId (tables w) <> [] ->
      List.length after = List.length (tables w "profile_views"))
  /\ filter (is_view viewerId profileId) after <> []
  /\ forall r, List.In r (filter (is_view viewerId profileId) after) ->
               get "viewed_at" r = CNum (clock w (ticks w)).
Proof.
  intros after. subst after. unfold recorded.
  destruct (views_of viewerId profileId (tables w)) as [|x xs] eqn:V.
  - split; [reflexivity|]. split; [congruence|].
    unfold views_of in V. rewrite filter_app, V. cbn [filter app].
    rewrite is_view_added, !String.eqb_refl. cbn [andb].
    split; [discriminate|]. intros r [<-|[]]. reflexivity.
  - split; [discriminate|]. split; [intros _; apply length_map|].
    split.
    + assert (I : List.In x (views_of viewerId profileId (tables w)))
        by (rewrite V; now left).
      apply filter_In in I. destruct I as [I Y].
      intros E.
      assert (I' : List.In (spread x (view_record viewerId profileId w))
                     (filter (is_view viewerId profileId)
                        (map (fun p => if is_view viewerId profileId p
                                       then spread p (view_record viewerId profileId w)
                                       else p)
                             (tables w "profile_views")))).
      { apply filter_In. split.
        - apply in_map_iff. exists x. now rewrite Y.
        - now rewrite is_view_merged, !String.eqb_refl. }
      rewrite E in I'. contradiction.
    + intros r I. apply filter_In in I. destruct I as [I Y].
      apply in_map_iff in I. destruct I as (p & <- & _).
      destruct (is_view viewerId profileId p) eqn:P.
      * apply merged_view.
      * congruence.
Qed.

(** Recording a view of one pair leaves the views of every other pair. *)
Lemma recorded_other_views (a b viewerId profileId : string) (w : World) :
  String.eqb viewerId a && String.eqb profileId b = false ->
  filter (is_view a b) (recorded viewerId profileId w)
  = filter (is_view a b) (tables w "profile_views").
Proof.
  intros N. unfold recorded.
  destruct (views_of viewerId profileId (tables w)) as [|x xs] eqn:V.
  - rewrite filter_app. cbn [filter]. rewrite is_view_added, N.
    apply app_nil_r.
  - clear V. induction (tables w "profile_views") as [|p l IH];
      [reflexivity|].
    cbn [map filter]. rewrite IH.
    destruct (is_view viewerId profileId p) eqn:P; [|reflexivity].
    rewrite is_view_merged, N.
    destruct (is_view a b p) eqn:Q; [|reflexivity].
    exfalso. unfold is_view in P, Q. cbn [holds] in P, Q.
    apply andb_true_iff in P. destruct P as [P1 P2].
    apply andb_true_iff in Q. destruct Q as [Q1 Q2].
    apply cell_eqb_eq in P1, P2, Q1, Q2.
    assert (viewerId = a) by congruence.
    assert (profileId = b) by congruence.
    subst. rewrite !String.eqb_refl in N. discriminate.
Qed.

(** X3.  A self-view is not recorded: when viewer and profile are the same,
    [recordProfileView] returns without any request, in every world.  For
    two different identifiers, on a store that answers and keys its view
    records by viewer and profile, only [profile_views] changes (the
    [profile_views] counter of [profiles] is not touched): a first view
    of the profile by the viewer adds one row with the viewer, the profile
    and the time; a repeated view adds none and lays the new time over the
    stored view; either way the views of the pair that are stored
    afterwards, at least one, carry the time of this view. *)
Theorem recordProfileView_records_other_views (viewerId profileId : string)
  (w : World) :
  (viewerId = profileId ->
   result (recordProfileView viewerId profileId) w = Returned RVoid
   /\ log (after (recordProfileView viewerId profileId) w) = log w
   /\ tables (after (recordProfileView viewerId profileId) w) = tables w)
  /\ (viewerId <> profileId -> healthy w ->
      let w' := after (recordProfileView viewerId profileId) w in
      result (recordProfileView viewerId profileId) w = Returned RVoid
      /\ (forall t, t <> "profile_views" -> tables w' t = tables w t)
      /\ (views_of viewerId profileId (tables w) = [] ->
          tables w' "profile_views"
          = (tables w "profile_views"
             ++ [fill (view_record viewerId profileId w)
                      (defaults w "profile_views")])%list)
      /\ (views_of viewerId profileId (tables w) <> [] ->
          tables w' "profile_views"
          = map (fun p => if is_view viewerId profileId p
                          then spread p (view_record viewerId profileId w)
                          else p)
                (tables w "profile_views"))
      /\ views_of viewerId profileId (tables w') <> []
      /\ forall r, List.In r (views_of viewerId profileId (tables w')) ->
                   get "viewed_at" r = CNum (clock w (ticks w))).
Proof.
  split.
  - intros ->. unfold result, after, recordProfileView, try_catch, bind.
    simpl. rewrite String.eqb_refl. repeat split.
  - intros N H w'. subst w'.
    destruct (recordProfileView_healthy N H) as [R T].
    destruct (recorded_views viewerId profileId w) as (_ & _ & S & V).
    split; [exact R|]. rewrite T. unfold views_of. rewrite put_same.
    split; [|split; [|split; [|split; [exact S | exact V]]]].
    + intros t Nt. unfold put. apply String.eqb_neq in Nt. now rewrite Nt.
    + intros E. unfold recorded, views_of. now rewrite E.
    + intros E. unfold recorded, views_of.
      destruct (filter _ (tables w "profile_views")); [congruence|].
      reflexivity.
Qed.

Lemma recordProfileView_records_other_views_witness :
  tables (after (recordProfileView "bob" "ann") (world sample no_faults))
         "profile_views"
  = [ [ ("viewer_id", CStr "bob"); ("profile_id", CStr "ann");
        ("viewed_at", CNum 0) ] ]
  /\ List.length
       (tables (after (recordProfileView "bob" "ann")
                      (world seen_before no_faults)) "profile_views")
     = 1%nat
  /\ tables (after (recordProfileView "ann" "ann") (world sample no_faults))
     = sample.
Proof.
  assert (N : "bob" <> "ann") by discriminate.
  assert (H : healthy (world sample no_faults)) by (intros n; reflexivity).
  assert (H' : healthy (world seen_before no_faults))
    by (intros n; reflexivity).
  destruct (recordProfileView_records_other_views
              "bob" "ann" (world sample no_faults)) as [_ R].
  destruct (R N H) as (_ & _ & T & _).
  destruct (recordProfileView_records_other_views
              "bob" "ann" (world seen_before no_faults)) as [_ R'].
  destruct (R' N H') as (_ & _ & _ & M & _).
  destruct (recordProfileView_records_other_views
              "ann" "ann" (world sample no_faults)) as [S _].
  destruct (S eq_refl) as (_ & _ & T').
  split; [rewrite (T eq_refl); reflexivity|].
  split; [rewrite M; [reflexivity | discriminate] | exact T'].
Defined.

(* ------------------------------------------------------------------ *)
(** ** Profiles: lookup after a write *)
(* ------------------------------------------------------------------ *)

Lemma get_spread_other (k : string) (over r : Row) :
  has k over = false -> get k (spread r over) = get k r.
Proof.
  unfold spread. revert r.
  induction over as [|[k' v] over IH]; simpl; intros r H; [reflexivity|].
  apply orb_false_iff in H. destruct H as [E H].
  rewrite IH by exact H. rewrite get_set, E. reflexivity.
Qed.

Lemma filter_map_stable {A : Type} (hit : A -> bool) (f : A -> A) (l : list A) :
  (forall x, hit (f x) = hit x) ->
  filter hit (map f l) = map f (filter hit l).
Proof.
  intros H. induction l as [|x l IH]; simpl; [reflexivity|].
  rewrite H. destruct (hit x); simpl; now rewrite IH.
Qed.

Lemma map_untouched {A : Type} (hit : A -> bool) (f : A -> A) (l : list A) :
  filter hit l = [] ->
  map (fun x => if hit x then f x else x) l = l.
Proof.
  induction l as [|x l IH]; simpl; [reflexivity|].
  destruct (hit x); [discriminate|]. intros H. now rewrite IH.
Qed.

Lemma getProfile_found (userId : string) (w : World) (p : Row) :
  healthy w ->
  profiles_of userId (tables w) = [p] ->
  result (getProfile userId) w = Returned (RObj (plain p)).
Proof.
  intros H E. unfold profiles_of in E.
  unfold result, getProfile. run_probe. rewrite !H. simpl. answered H.
  unfold answer, matching. simpl. rewrite holds_all_one, E. reflexivity.
Qed.

Lemma updateProfile_healthy (userId : string) (updates : Row) (w : World) :
  healthy w ->
  result (updateProfile userId updates) w
  = match profiles_of userId (tables w) with
    | [p] => Returned (RObj (plain (spread p updates)))
    | _ => Returned RNull
    end
  /\ tables (after (updateProfile userId updates) w) "profiles"
     = map (updated userId updates) (tables w "profiles").
Proof.
  intros H. unfold profiles_of.
  unfold result, after, updateProfile. run_probe. rewrite !H. simpl.
  answered H. unfold answer. simpl. rewrite holds_all_one.
  assert (T : put "profiles"
                  (map (fun p : Row =>
                          if holds_all [Eq "id" userId] p
                          then spread p updates else p)
                       (tables w "profiles"))
                  (tables w) "profiles"
              = map (updated userId updates) (tables w "profiles")).
  { rewrite put_same. apply map_ext. intros r. unfold updated, holds_all.
    simpl. now rewrite andb_true_r. }
  destruct (filter _ (tables w "profiles")) as [|p [|p' ps]];
    simpl; split; try reflexivity; exact T.
Qed.

(** X4.  A profile that was updated is read back as updated: on a store
    that answers and holds one row for the identifier, [updateProfile]
    returns the row with the updates laid over it, and a [getProfile] that
    follows returns the same record (the updates must not carry another
    [id]).  Rows of other identifiers are not changed. *)
Theorem updateProfile_then_getProfile (userId : string) (updates : Row)
  (w : World) (p : Row) :
  healthy w ->
  profiles_of userId (tables w) = [p] ->
  has "id" updates = false ->
  result (updateProfile userId updates) w
  = Returned (RObj (plain (spread p updates)))
  /\ result (getProfile userId) (after (updateProfile userId updates) w)
     = Returned (RObj (plain (spread p updates)))
  /\ forall r, List.In r (tables w "profiles") ->
               get "id" r <> CStr userId ->
               List.In r (tables (after (updateProfile userId updates) w)
                                 "profiles").
Proof.
  intros H E I.
  destruct (updateProfile_healthy userId updates H) as [R T].
  rewrite E in R. split; [exact R|].
  assert (S : forall r, holds (Eq "id" userId) (updated userId updates r)
                        = holds (Eq "id" userId) r).
  { intros r. unfold updated. destruct (holds (Eq "id" userId) r) eqn:Hr; auto.
    simpl in *. now rewrite get_spread_other. }
  split.
  - apply getProfile_found.
    + apply (call_keeps_healthy (UpdateProfile userId updates)), H.
    + unfold profiles_of in *. rewrite T.
      rewrite filter_map_stable by exact S. rewrite E. simpl.
      unfold updated.
      assert (Hp : List.In p (filter (holds (Eq "id" userId))
                                     (tables w "profiles")))
        by (rewrite E; now left).
      apply filter_In in Hp. destruct Hp as [_ Hp]. now rewrite Hp.
  - intros r Hr N. rewrite T. apply in_map_iff. exists r.
    split; [|exact Hr]. unfold updated.
    destruct (holds (Eq "id" userId) r) eqn:Hh; [|reflexivity].
    simpl in Hh. apply cell_eqb_eq in Hh. contradiction.
Qed.

Lemma updateProfile_then_getProfile_witness :
  result (getProfile "ann")
         (after (updateProfile "ann" [("headline", CStr "Surgeon")])
                (world sample no_faults))
  = Returned (RObj (plain [ ("id", CStr "ann"); ("full_name", CStr "Ann");
                            ("headline", CStr "Surgeon") ])).
Proof.
  assert (H : healthy (world sample no_faults)) by (intros n; reflexivity).
  exact (proj1 (proj2 (@updateProfile_then_getProfile
                         "ann" [("headline", CStr "Surgeon")]
                         (world sample no_faults)
                         [("id", CStr "ann"); ("full_name", CStr "Ann")]
                         H eq_refl eq_refl))).
Defined.

(** X5.  [updateProfile] does not create what is missing: on a store that
    answers and holds no row for the identifier it returns [null] and the
    rows of [profiles] are as before. *)
Theorem updateProfile_missing_profile (userId : string) (updates : Row)
  (w : World) :
  healthy w ->
  profiles_of userId (tables w) = [] ->
  result (updateProfile userId updates) w = Returned RNull
  /\ tables (after (updateProfile userId updates) w) "profiles"
     = tables w "profiles".
Proof.
  intros H E.
  destruct (updateProfile_healthy userId updates H) as [R T].
  rewrite E in R. split; [exact R|]. rewrite T.
  unfold updated. now apply map_untouched.
Qed.

Lemma updateProfile_missing_profile_witness :
  result (updateProfile "bob" [("headline", CStr "Surgeon")])
         (world sample no_faults) = Returned RNull.
Proof.
  assert (H : healthy (world sample no_faults)) by (intros n; reflexivity).
  exact (proj1 (@updateProfile_missing_profile
                  "bob" [("headline", CStr "Surgeon")]
                  (world sample no_faults) H eq_refl)).
Defined.

(** X6.  What [ensureProfileExists] returns is what [getProfile] finds
    afterwards: on a store that answers and holds at most one row for the
    identifier, the record returned by [ensureProfileExists] (found or
    just created) is the one a following [getProfile] returns. *)
Theorem ensureProfileExists_then_getProfile (userId email fullName : string)
  (w : World) :
  healthy w ->
  (List.length (profiles_of userId (tables w)) <= 1)%nat ->
  exists p,
    result (ensureProfileExists userId email fullName) w
    = Returned (RObj (plain p))
    /\ result (getProfile userId)
              (after (ensureProfileExists userId email fullName) w)
       = Returned (RObj (plain p)).
Proof.
  intros H U.
  pose proof (call_keeps_healthy (EnsureProfileExists userId email fullName) H)
    as H1. simpl in H1.
  destruct (profiles_of userId (tables w)) as [|p [|p' rows]] eqn:E.
  - destruct (ensureProfileExists_missing userId email fullName H E)
      as (R & T & _).
    eexists. split; [exact R|]. apply getProfile_found; [exact H1|].
    unfold profiles_of in *. rewrite T, put_same, filter_app, E. simpl.
    now rewrite String.eqb_refl.
  - destruct (ensureProfileExists_existing userId email fullName H E)
      as (R & T & _).
    exists p. split; [exact R|]. apply getProfile_found; [exact H1|].
    now rewrite T.
  - simpl in U. lia.
Qed.

Lemma ensureProfileExists_then_getProfile_witness :
  exists p,
    result (getProfile "bob")
           (after (ensureProfileExists "bob" "bob@example.com" "Bob")
                  (world sample no_faults))
    = Returned (RObj (plain p))
    /\ get "email" p = CStr "bob@example.com".
Proof.
  assert (H : healthy (world sample no_faults)) by (intros n; reflexivity).
  assert (U : (List.length (profiles_of "bob" (tables (world sample no_faults)))
               <= 1)%nat) by (simpl; lia).
  destruct (ensureProfileExists_then_getProfile "bob" "bob@example.com" "Bob" H U)
    as (p & R & G).
  exists p. split; [exact G|].
  assert (E : Returned (RObj (plain p))
              = result (ensureProfileExists "bob" "bob@example.com" "Bob")
                       (world sample no_faults)) by (symmetry; exact R).
  vm_compute in E. injection E as ->. reflexivity.
Defined.

(* ------------------------------------------------------------------ *)
(** ** Follows *)
(* ------------------------------------------------------------------ *)

Lemma holds_all_two (f g : Filter) (rows : list Row) :
  filter (holds_all [f; g]) rows
  = filter (fun r => holds f r && holds g r) rows.
Proof.
  apply filter_ext. intros r. unfold holds_all. simpl.
  now rewrite andb_true_r.
Qed.

Lemma filter_negb_filter {A : Type} (hit : A -> bool) (l : list A) :
  filter hit (filter (fun x => negb (hit x)) l) = [].
Proof.
  induction l as [|x l IH]; simpl; [reflexivity|].
  destruct (hit x) eqn:E; simpl; rewrite ?E; exact IH.
Qed.

Lemma isFollowing_healthy (followerId followingId : string) (w : World) :
  healthy w ->
  result (isFollowing followerId followingId) w
  = Returned (RBool match follows_of followerId followingId (tables w) with
                    | [_] => true
                    | _ => false
                    end).
Proof.
  intros H. unfold follows_of.
  unfold result, isFollowing. run_probe. rewrite !H. simpl. answered H.
  unfold answer, matching. simpl. rewrite holds_all_two.
  destruct (filter _ (tables w "follows")) as [|r [|r' rs]]; reflexivity.
Qed.

Lemma followUser_healthy (followerId followingId : string)
  (followerType followingType : ProfileType) (w : World) :
  healthy w ->
  exists r,
    result (followUser followerId followingId followerType followingType) w
    = Returned (RObj (plain r))
    /\ holds (Eq "follower_id" followerId) r = true
    /\ holds (Eq "following_id" followingId) r = true
    /\ tables (after (followUser followerId followingId
                                 followerType followingType) w)
       = put "follows" (tables w "follows" ++ [r])%list (tables w).
Proof.
  intros H.
  unfold result, after, followUser. run_probe. rewrite !H. simpl.
  answered H. unfold answer. simpl.
  eexists. split; [reflexivity|]. simpl. rewrite !String.eqb_refl.
  repeat split.
Qed.

Lemma unfollowUser_healthy (followerId followingId : string) (w : World) :
  healthy w ->
  result (unfollowUser followerId followingId) w = Returned (RBool true)
  /\ tables (after (unfollowUser followerId followingId) w)
     = put "follows"
           (filter (fun r => negb (holds_all [Eq "follower_id" followerId;
                                              Eq "following_id" followingId] r))
                   (tables w "follows"))
           (tables w).
Proof.
  intros H.
  unfold result, after, unfollowUser. run_probe. rewrite !H. simpl.
  answered H. unfold answer. simpl. split; reflexivity.
Qed.

(** X7.  Follow, ask, unfollow, ask.  On a store that answers:
    after [unfollowUser] the answer of [isFollowing] is [false], whatever
    was stored; after [followUser] it is [true], provided the pair was not
    followed before; and following then unfollowing ends with [false]. *)
Theorem follow_then_unfollow (followerId followingId : string)
  (followerType followingType : ProfileType) (w : World) :
  healthy w ->
  result (isFollowing followerId followingId)
         (after (unfollowUser followerId followingId) w)
  = Returned (RBool false)
  /\ (follows_of followerId followingId (tables w) = [] ->
      result (isFollowing followerId followingId)
             (after (followUser followerId followingId
                                followerType followingType) w)
      = Returned (RBool true)
      /\ result (isFollowing followerId followingId)
                (after (unfollowUser followerId followingId)
                       (after (followUser followerId followingId
                                          followerType followingType) w))
         = Returned (RBool false)).
Proof.
  intros H.
  assert (U : forall w', healthy w' ->
                result (isFollowing followerId followingId)
                       (after (unfollowUser followerId followingId) w')
                = Returned (RBool false)).
  { intros w' H'.
    rewrite isFollowing_healthy
      by apply (call_keeps_healthy (UnfollowUser followerId followingId)), H'.
    destruct (unfollowUser_healthy followerId followingId H') as [_ T].
    unfold follows_of. rewrite T, put_same.
    rewrite <- holds_all_two. now rewrite filter_negb_filter. }
  split; [now apply U|]. intros E.
  pose proof (call_keeps_healthy
                (FollowUser followerId followingId followerType followingType) H)
    as H1. simpl in H1.
  split; [|now apply U].
  rewrite isFollowing_healthy by exact H1.
  destruct (followUser_healthy followerId followingId
                               followerType followingType H)
    as (r & _ & Ha & Hb & T).
  unfold follows_of in *. rewrite T, put_same, filter_app, E.
  cbn [filter app]. now rewrite Ha, Hb.
Qed.

Lemma follow_then_unfollow_witness :
  result (isFollowing "ann" "clinic")
         (after (followUser "ann" "clinic" individual institution)
                (world sample no_faults))
  = Returned (RBool true)
  /\ result (isFollowing "ann" "clinic")
            (after (unfollowUser "ann" "clinic")
                   (after (followUser "ann" "clinic" individual institution)
                          (world sample no_faults)))
     = Returned (RBool false).
Proof.
  assert (H : healthy (world sample no_faults)) by (intros n; reflexivity).
  exact (proj2 (@follow_then_unfollow "ann" "clinic" individual institution
                                      (world sample no_faults) H) eq_refl).
Defined.

(** X8.  [isFollowing] asks for a single row: when the store holds the
    same follow twice or more, the answer is [false], as if nobody
    followed. *)
Theorem isFollowing_duplicate_rows (followerId followingId : string)
  (w : World) :
  healthy w ->
  (2 <= List.length (follows_of followerId followingId (tables w)))%nat ->
  result (isFollowing followerId followingId) w = Returned (RBool false).
Proof.
  intros H D. rewrite isFollowing_healthy by exact H.
  destruct (follows_of followerId followingId (tables w)) as [|r [|r' rs]];
    simpl in D; try lia; reflexivity.
Qed.

Lemma isFollowing_duplicate_rows_witness :
  result (isFollowing "ann" "clinic")
         (after (followUser "ann" "clinic" individual institution)
                (after (followUser "ann" "clinic" individual institution)
                       (world sample no_faults)))
  = Returned (RBool false).
Proof.
  apply isFollowing_duplicate_rows.
  - intros n. reflexivity.
  - vm_compute. lia.
Defined.

(* ------------------------------------------------------------------ *)
(** ** Likes *)
(* ------------------------------------------------------------------ *)

(** A whole run on a store without faults. *)
Ltac healthy_run H :=
  run_probe; rewrite ?H; simpl;
  repeat (progress (answered H; unfold answer; simpl)).

(** X9.  Neither [likePost] nor [unlikePost] looks at the likes that are
    stored.  On a store that answers, [unlikePost] requests the decrement
    of the counter and returns [true] whether or not the user had liked
    the post, and [likePost] inserts a like and requests the increment
    whether or not the user had liked it already. *)
Theorem likes_adjust_the_counter_unconditionally (postId userId : string)
  (w : World) :
  healthy w ->
  (result (unlikePost postId userId) w = Returned (RBool true)
   /\ log (after (unlikePost postId userId) w)
      = (log w ++ probe :: unlike_requests postId userId)%list)
  /\ (result (likePost postId userId) w = Returned (RBool true)
      /\ log (after (likePost postId userId) w)
         = (log w ++ probe :: like_requests postId userId w)%list).
Proof.
  intros H. split.
  - unfold result, after, unlikePost. healthy_run H.
    rewrite <- !app_assoc. split; reflexivity.
  - unfold result, after, likePost. healthy_run H.
    rewrite <- !app_assoc. split; reflexivity.
Qed.

Lemma likes_adjust_the_counter_unconditionally_witness :
  result (unlikePost "p1" "bob") (world sample no_faults)
  = Returned (RBool true)
  /\ result (likePost "p1" "ann") (world sample no_faults)
     = Returned (RBool true).
Proof.
  assert (H : healthy (world sample no_faults)) by (intros n; reflexivity).
  split.
  - exact (proj1 (proj1 (@likes_adjust_the_counter_unconditionally
                           "p1" "bob" (world sample no_faults) H))).
  - exact (proj1 (proj2 (@likes_adjust_the_counter_unconditionally
                           "p1" "ann" (world sample no_faults) H))).
Defined.

(* ------------------------------------------------------------------ *)
(** ** Connections *)
(* ------------------------------------------------------------------ *)

Lemma getConnectionStatus_healthy (userId targetId : string) (w : World) :
  healthy w ->
  result (getConnectionStatus userId targetId) w
  = Returned match connections_of userId targetId (tables w) with
             | [r] => if truthy (get "status" r)
                      then RCell (get "status" r) else RNull
             | _ => RNull
             end.
Proof.
  intros H. unfold connections_of.
  unfold result, getConnectionStatus. healthy_run H.
  unfold matching. simpl. fold (pair_filter userId targetId).
  rewrite holds_all_one.
  destruct (filter _ (tables w "connections")) as [|r [|r' rs]]; reflexivity.
Qed.

Lemma sendConnectionRequest_healthy (requesterId recipientId : string)
  (w : World) :
  healthy w ->
  exists r,
    result (sendConnectionRequest requesterId recipientId) w
    = Returned (RObj (plain r))
    /\ get "requester_id" r = CStr requesterId
    /\ get "recipient_id" r = CStr recipientId
    /\ get "status" r = CStr "pending"
    /\ tables (after (sendConnectionRequest requesterId recipientId) w)
       = put "connections" (tables w "connections" ++ [r])%list (tables w).
Proof.
  intros H.
  unfold result, after, sendConnectionRequest. healthy_run H.
  eexists. repeat split.
Qed.

Lemma holds_pair (a b : string) (r : Row) :
  get "requester_id" r = CStr a ->
  get "recipient_id" r = CStr b ->
  holds (pair_filter a b) r = true /\ holds (pair_filter b a) r = true.
Proof.
  intros Ha Hb. simpl. rewrite Ha, Hb. simpl. rewrite !String.eqb_refl.
  simpl. split; [reflexivity | apply orb_true_r].
Qed.

(** X10.  A request that was sent is seen as pending from both sides: on a
    store that answers and holds no connection between the two users,
    after [sendConnectionRequest] the status of the pair is ["pending"],
    asked by the requester or by the recipient. *)
Theorem sendConnectionRequest_then_status (requesterId recipientId : string)
  (w : World) :
  healthy w ->
  connections_of requesterId recipientId (tables w) = [] ->
  result (getConnectionStatus requesterId recipientId)
         (after (sendConnectionRequest requesterId recipientId) w)
  = Returned (RCell (CStr "pending"))
  /\ result (getConnectionStatus recipientId requesterId)
            (after (sendConnectionRequest requesterId recipientId) w)
     = Returned (RCell (CStr "pending")).
Proof.
  intros H E.
  pose proof (call_keeps_healthy
                (SendConnectionRequest requesterId recipientId) H) as H1.
  simpl in H1.
  destruct (sendConnectionRequest_healthy requesterId recipientId H)
    as (r & _ & Ha & Hb & Hs & T).
  destruct (@holds_pair _ _ _ Ha Hb) as [P P'].
  rewrite !getConnectionStatus_healthy by exact H1.
  unfold connections_of in *. rewrite T, put_same, !filter_app.
  rewrite <- (filter_ext _ _ (pair_filter_sym requesterId recipientId)).
  rewrite E. cbn [filter app]. rewrite P, P', Hs. split; reflexivity.
Qed.

Lemma sendConnectionRequest_then_status_witness :
  result (getConnectionStatus "bob" "ann")
         (after (sendConnectionRequest "ann" "bob") (world sample no_faults))
  = Returned (RCell (CStr "pending")).
Proof.
  assert (H : healthy (world sample no_faults)) by (intros n; reflexivity).
  exact (proj2 (@sendConnectionRequest_then_status
                  "ann" "bob" (world sample no_faults) H eq_refl)).
Defined.

(** X11.  [getConnectionStatus] asks for a single row: when the store holds
    two or more connections between the two users (one in each direction,
    say), the status is [null], as if there were none. *)
Theorem getConnectionStatus_duplicate_rows (userId targetId : string)
  (w : World) :
  healthy w ->
  (2 <= List.length (connections_of userId targetId (tables w)))%nat ->
  result (getConnectionStatus userId targetId) w = Returned RNull.
Proof.
  intros H D. rewrite getConnectionStatus_healthy by exact H.
  destruct (connections_of userId targetId (tables w)) as [|r [|r' rs]];
    simpl in D; try lia; reflexivity.
Qed.

Lemma getConnectionStatus_duplicate_rows_witness :
  result (getConnectionStatus "ann" "bob")
         (after (sendConnectionRequest "bob" "ann")
                (after (sendConnectionRequest "ann" "bob")
                       (world sample no_faults)))
  = Returned RNull.
Proof.
  apply getConnectionStatus_duplicate_rows.
  - intros n. reflexivity.
  - vm_compute. lia.
Defined.

Lemma decide_healthy (connectionId : string) (w : World) :
  healthy w ->
  (result (acceptConnectionRequest connectionId) w = Returned (RBool true)
   /\ tables (after (acceptConnectionRequest connectionId) w) "connections"
      = map (decided connectionId "accepted" w) (tables w "connections"))
  /\ (result (rejectConnectionRequest connectionId) w = Returned (RBool true)
      /\ tables (after (rejectConnectionRequest connectionId) w) "connections"
         = map (decided connectionId "rejected" w) (tables w "connections")).
Proof.
  intros H.
  assert (M : forall status,
             put "connections"
                 (map (fun p : Row =>
                         if holds_all [Eq "id" connectionId] p
                         then spread p [ ("status", CStr status);
                                         ("updated_at", CNum (clock w (ticks w))) ]
                         else p)
                      (tables w "connections"))
                 (tables w) "connections"
             = map (decided connectionId status w) (tables w "connections")).
  { intros status. rewrite put_same. apply map_ext. intros r.
    unfold decided, holds_all. simpl. now rewrite andb_true_r. }
  split.
  - unfold result, after, acceptConnectionRequest. healthy_run H.
    split; [reflexivity | apply M].
  - unfold result, after, rejectConnectionRequest. healthy_run H.
    split; [reflexivity | apply M].
Qed.

Lemma decided_same_pair (connectionId status : string) (w : World)
  (a b : string) (r : Row) :
  holds (pair_filter a b) (decided connectionId status w r)
  = holds (pair_filter a b) r.
Proof.
  unfold decided. destruct (holds (Eq "id" connectionId) r); [|reflexivity].
  unfold pair_filter. cbn [holds]. now rewrite !get_spread_other.
Qed.

Lemma decided_status (connectionId status : string) (w : World) (r : Row) :
  get "id" r = CStr connectionId ->
  get "status" (decided connectionId status w r) = CStr status.
Proof.
  intros E. unfold decided. simpl. rewrite E. simpl.
  rewrite String.eqb_refl. unfold spread. simpl.
  rewrite !get_set. reflexivity.
Qed.

(** X12.  The decision on a request shows in the status of the pair: on a
    store that answers, when the one connection between two users has the
    given id, after [acceptConnectionRequest] the status of the pair is
    ["accepted"] and after [rejectConnectionRequest] it is ["rejected"],
    whatever the status was before. *)
Theorem decision_then_status (connectionId a b : string) (w : World) (r : Row) :
  healthy w ->
  connections_of a b (tables w) = [r] ->
  get "id" r = CStr connectionId ->
  result (getConnectionStatus a b)
         (after (acceptConnectionRequest connectionId) w)
  = Returned (RCell (CStr "accepted"))
  /\ result (getConnectionStatus a b)
            (after (rejectConnectionRequest connectionId) w)
     = Returned (RCell (CStr "rejected")).
Proof.
  intros H E I.
  destruct (decide_healthy connectionId H) as [[_ Ta] [_ Tr]].
  split.
  - rewrite getConnectionStatus_healthy
      by apply (call_keeps_healthy (AcceptConnectionRequest connectionId)), H.
    unfold connections_of in *. rewrite Ta.
    rewrite filter_map_stable by apply decided_same_pair.
    rewrite E. cbn [map]. rewrite decided_status by exact I. reflexivity.
  - rewrite getConnectionStatus_healthy
      by apply (call_keeps_healthy (RejectConnectionRequest connectionId)), H.
    unfold connections_of in *. rewrite Tr.
    rewrite filter_map_stable by apply decided_same_pair.
    rewrite E. cbn [map]. rewrite decided_status by exact I. reflexivity.
Qed.

Lemma decision_then_status_witness :
  result (getConnectionStatus "bob" "ann")
         (after (acceptConnectionRequest "c1")
                (world rejected_connection no_faults))
  = Returned (RCell (CStr "accepted")).
Proof.
  assert (H : healthy (world rejected_connection no_faults))
    by (intros n; reflexivity).
  exact (proj1 (@decision_then_status
                  "c1" "bob" "ann" (world rejected_connection no_faults)
                  [ ("id", CStr "c1"); ("requester_id", CStr "ann");
                    ("recipient_id", CStr "bob"); ("status", CStr "rejected") ]
                  H eq_refl eq_refl)).
Defined.

(** X13.  Deciding on a connection that does not exist reports success:
    on a store that answers and holds no connection with the given id,
    [acceptConnectionRequest] and [rejectConnectionRequest] return [true]
    and the rows of [connections] are as before. *)
Theorem decision_on_unknown_connection (connectionId : string) (w : World) :
  healthy w ->
  filter (holds (Eq "id" connectionId)) (tables w "connections") = [] ->
  (result (acceptConnectionRequest connectionId) w = Returned (RBool true)
   /\ tables (after (acceptConnectionRequest connectionId) w) "connections"
      = tables w "connections")
  /\ (result (rejectConnectionRequest connectionId) w = Returned (RBool true)
      /\ tables (after (rejectConnectionRequest connectionId) w) "connections"
         = tables w "connections").
Proof.
  intros H E.
  destruct (decide_healthy connectionId H) as [[Ra Ta] [Rr Tr]].
  rewrite Ta, Tr. unfold decided.
  rewrite !(map_untouched _ _ _ E). auto.
Qed.

Lemma decision_on_unknown_connection_witness :
  result (acceptConnectionRequest "c9") (world one_connection no_faults)
  = Returned (RBool true)
  /\ tables (after (acceptConnectionRequest "c9")
                   (world one_connection no_faults)) "connections"
     = one_connection "connections".
Proof.
  assert (H : healthy (world one_connection no_faults))
    by (intros n; reflexivity).
  exact (proj1 (@decision_on_unknown_connection
                  "c9" (world one_connection no_faults) H eq_refl)).
Defined.

Lemma lookup_fk_found (tabs : Tables) (e : Embed) (r p : Row) :
  lookup_fk tabs e r = Some p ->
  List.In p (tabs (e_table e)) /\ get "id" p = get (e_fkey e) r.
Proof.
  unfold lookup_fk. intros H. apply find_some in H. destruct H as [I H].
  apply andb_true_iff in H. destruct H as [_ H].
  split; [exact I | now apply cell_eqb_eq].
Qed.

(** X14.  [getConnections] returns profiles of connected users only: in
    every world, each profile of the list is the stored profile of the
    other party of an accepted connection of the user.  Pending and
    rejected connections contribute nothing. *)
Theorem getConnections_other_parties (userId : string) (w : World) :
  exists l,
    result (getConnections userId) w = Returned (RList l)
    /\ forall o, List.In o l ->
         exists c other,
           List.In c (tables w "connections")
           /\ get "status" c = CStr "accepted"
           /\ List.In other (tables w "profiles")
           /\ o = plain other
           /\ other_party userId c other.
Proof.
  unfold result, getConnections. run_probe.
  destruct (faults w (List.length (log w))); simpl.
  { exists []. split; [reflexivity|]. intros o []. }
  issue; try (exists []; split; [reflexivity|]; intros o []).
  unfold answer, matching. simpl.
  eexists. split; [reflexivity|].
  intros o Ho. apply in_flat_map in Ho. destruct Ho as (x & Hx & Ho).
  apply in_map_iff in Hx. destruct Hx as (c & <- & Hc).
  apply filter_In in Hc. destruct Hc as [Hc Hf].
  unfold holds_all in Hf. simpl in Hf. rewrite andb_true_r in Hf.
  apply andb_true_iff in Hf. destruct Hf as [_ Hs].
  apply cell_eqb_eq in Hs.
  simpl in Ho.
  destruct (cell_eqb (get "requester_id" c) (CStr userId)) eqn:Rq.
  - destruct (lookup_fk (tables w) recipient c) as [other|] eqn:L.
    + destruct Ho as [<-|[]]. apply lookup_fk_found in L.
      destruct L as [I E]. exists c, other.
      repeat split; auto. left. split; [now apply cell_eqb_eq | exact E].
    + destruct (cell_eqb (get "recipient_id" c) (CStr userId)) eqn:Rc;
        [|contradiction].
      destruct (lookup_fk (tables w) requester c) as [other|] eqn:L';
        [|contradiction].
      destruct Ho as [<-|[]]. apply lookup_fk_found in L'.
      destruct L' as [I E]. exists c, other.
      repeat split; auto. right. split; [now apply cell_eqb_eq | exact E].
  - destruct (cell_eqb (get "recipient_id" c) (CStr userId)) eqn:Rc;
      [|contradiction].
    destruct (lookup_fk (tables w) requester c) as [other|] eqn:L';
      [|contradiction].
    destruct Ho as [<-|[]]. apply lookup_fk_found in L'.
    destruct L' as [I E]. exists c, other.
    repeat split; auto. right. split; [now apply cell_eqb_eq | exact E].
Qed.

(* ------------------------------------------------------------------ *)
(** ** Lists of one owner *)
(* ------------------------------------------------------------------ *)

Lemma listing_of_select (tabs : Tables) (t col : string) (fs : list Filter)
  (es : list Embed) :
  let l := map (to_obj tabs AllCols es)
               (sort_by (before col false) (filter (holds_all fs) (tabs t))) in
  listing (tabs t) fs col l /\ complete (tabs t) fs l.
Proof.
  intros l. subst l. split; [split|].
  - intros o H. apply in_map_iff in H. destruct H as (r & <- & H).
    apply sort_by_In, filter_In in H. exact H.
  - eapply StronglySorted_map;
      [|apply sort_by_sorted; [apply before_total | apply before_trans]].
    intros a b H. exact H.
  - intros r I F. exists (to_obj tabs AllCols es r). split; [|reflexivity].
    apply in_map. apply sort_by_In, filter_In. auto.
Qed.

Lemma listing_nil (rows : list Row) (fs : list Filter) (col : string) :
  listing rows fs col [].
Proof. split; [intros o [] | constructor]. Qed.

(** X15.  [getExperiences] and [getEducation] return rows of the asked
    profile only, newest start first (ties allowed), in every world; on a
    store that answers they return every row of the profile. *)
Theorem career_lists (profileId : string) (w : World) :
  (exists l,
     result (getExperiences profileId) w = Returned (RList l)
     /\ listing (tables w "experiences") [Eq "profile_id" profileId]
                "start_date" l
     /\ (healthy w ->
         complete (tables w "experiences") [Eq "profile_id" profileId] l))
  /\ (exists l,
        result (getEducation profileId) w = Returned (RList l)
        /\ listing (tables w "education") [Eq "profile_id" profileId]
                   "start_date" l
        /\ (healthy w ->
            complete (tables w "education") [Eq "profile_id" profileId] l)).
Proof.
  split.
  - unfold result, getExperiences. run_probe.
    destruct (faults w (List.length (log w))) eqn:F0; simpl.
    { exists []. split; [reflexivity|]. split; [apply listing_nil|].
      intros H. rewrite H in F0. discriminate. }
    issue;
      try (exists []; split; [reflexivity|]; split; [apply listing_nil|];
           intros H; rewrite H in *; discriminate).
    unfold answer, matching. simpl. eexists. split; [reflexivity|].
    destruct (listing_of_select (tables w) "experiences" "start_date"
                                [Eq "profile_id" profileId] []) as [L C].
    split; [exact L | intros _; exact C].
  - unfold result, getEducation. run_probe.
    destruct (faults w (List.length (log w))) eqn:F0; simpl.
    { exists []. split; [reflexivity|]. split; [apply listing_nil|].
      intros H. rewrite H in F0. discriminate. }
    issue;
      try (exists []; split; [reflexivity|]; split; [apply listing_nil|];
           intros H; rewrite H in *; discriminate).
    unfold answer, matching. simpl. eexists. split; [reflexivity|].
    destruct (listing_of_select (tables w) "education" "start_date"
                                [Eq "profile_id" profileId] []) as [L C].
    split; [exact L | intros _; exact C].
Qed.

Lemma career_lists_witness :
  result (getExperiences "ann") (world career no_faults)
  = Returned (RList
      [ plain [("profile_id", CStr "ann"); ("title", CStr "Surgeon");
               ("start_date", CNum 3)];
        plain [("profile_id", CStr "ann"); ("title", CStr "Intern");
               ("start_date", CNum 1)] ])
  /\ complete (career "experiences") [Eq "profile_id" "ann"]
       [ plain [("profile_id", CStr "ann"); ("title", CStr "Surgeon");
                ("start_date", CNum 3)];
         plain [("profile_id", CStr "ann"); ("title", CStr "Intern");
                ("start_date", CNum 1)] ].
Proof.
  destruct (career_lists "ann" (world career no_faults))
    as [(l & R & _ & C) _].
  assert (H : healthy (world career no_faults)) by (intros n; reflexivity).
  assert (E : Returned (RList l)
              = result (getExperiences "ann") (world career no_faults))
    by (symmetry; exact R).
  vm_compute in E. injection E as ->.
  split; [reflexivity | exact (C H)].
Defined.

(** X16.  [getConnectionRequests] lists what is waiting for the user: in
    every world each element is a stored connection whose recipient is the
    user and whose status is ["pending"], newest first (ties allowed).  On
    a store that answers the list has every such connection. *)
Theorem getConnectionRequests_pending_for_user (userId : string) (w : World) :
  exists l,
    result (getConnectionRequests userId) w = Returned (RList l)
    /\ listing (tables w "connections")
               [Eq "recipient_id" userId; Eq "status" "pending"]
               "created_at" l
    /\ (healthy w ->
        complete (tables w "connections")
                 [Eq "recipient_id" userId; Eq "status" "pending"] l).
Proof.
  unfold result, getConnectionRequests. run_probe.
  destruct (faults w (List.length (log w))) eqn:F0; simpl.
  { exists []. split; [reflexivity|]. split; [apply listing_nil|].
    intros H. rewrite H in F0. discriminate. }
  issue;
    try (exists []; split; [reflexivity|]; split; [apply listing_nil|];
         intros H; rewrite H in *; discriminate).
  unfold answer, matching. simpl. eexists. split; [reflexivity|].
  destruct (listing_of_select (tables w) "connections" "created_at"
                              [Eq "recipient_id" userId; Eq "status" "pending"]
                              [requester; recipient]) as [L C].
  split; [exact L | intros _; exact C].
Qed.

Lemma getConnectionRequests_pending_for_user_witness :
  exists l,
    result (getConnectionRequests "bob")
           (after (sendConnectionRequest "ann" "bob") (world sample no_faults))
    = Returned (RList l)
    /\ List.length l = 1%nat
    /\ complete (tables (after (sendConnectionRequest "ann" "bob")
                               (world sample no_faults)) "connections")
                [Eq "recipient_id" "bob"; Eq "status" "pending"] l.
Proof.
  destruct (getConnectionRequests_pending_for_user
              "bob" (after (sendConnectionRequest "ann" "bob")
                           (world sample no_faults))) as (l & R & _ & C).
  assert (H : healthy (after (sendConnectionRequest "ann" "bob")
                             (world sample no_faults)))
    by (intros n; reflexivity).
  exists l. split; [exact R|]. split; [|exact (C H)].
  assert (E : Returned (RList l)
              = result (getConnectionRequests "bob")
                       (after (sendConnectionRequest "ann" "bob")
                              (world sample no_faults)))
    by (symmetry; exact R).
  vm_compute in E. injection E as ->. reflexivity.
Defined.

(* ------------------------------------------------------------------ *)
(** ** getPosts: the page that is returned *)
(* ------------------------------------------------------------------ *)

Lemma window_in_range (strict : bool) (q : Query) (l : list Row) (lo hi : Z) :
  q_range q = Some (lo, hi) ->
  (0 <= lo <= Z.of_nat (List.length l))%Z ->
  (0 <= hi - lo + 1)%Z ->
  window strict q l
  = inr (firstn (Z.to_nat (hi - lo + 1)) (skipn (Z.to_nat lo) l)).
Proof.
  intros E L N. unfold window. rewrite E.
  destruct (Z.ltb_spec lo 0); [lia|].
  destruct (Z.ltb_spec (hi - lo + 1) 0); [lia|].
  destruct (Z.ltb_spec (Z.of_nat (List.length l)) lo); [lia|].
  now rewrite andb_false_r.
Qed.

Lemma skipn_clamped {A : Type} (n : Z) (l : list A) :
  (0 <= n)%Z ->
  skipn (Z.to_nat (Z.min n (Z.of_nat (List.length l)))) l
  = skipn (Z.to_nat n) l.
Proof.
  intros N. destruct (Z.le_gt_cases n (Z.of_nat (List.length l))).
  - now rewrite Z.min_l.
  - rewrite Z.min_r by lia. rewrite Nat2Z.id, skipn_all.
    symmetry. apply skipn_all2. lia.
Qed.

(** X17.  [getPosts] returns the asked page: on a store that answers, for
    a page and a limit that are not negative, the posts of the result are
    the rows [page * limit], ..., [page * limit + limit - 1] of [posts] in
    descending order of [created_at], fewer at the end and none past it. *)
Theorem getPosts_page (page limit : Z) (w : World) :
  healthy w ->
  (0 <= page)%Z ->
  (0 <= limit)%Z ->
  exists l,
    result (getPosts page limit) w = Returned (RList l)
    /\ map fields l = page_of page limit w.
Proof.
  intros H P L. unfold page_of.
  unfold result, getPosts. run_probe. rewrite !H. simpl.
  answered H. unfold answer. simpl. unfold select_count.
  rewrite matching_all. simpl.
  destruct (Z.eqb_spec (Z.of_nat (List.length (tables w "posts"))) 0)
    as [E|E]; simpl.
  - exists []. split; [reflexivity|].
    assert (E' : tables w "posts" = [])
      by (apply length_zero_iff_nil; lia).
    rewrite E'. simpl. now rewrite skipn_nil, firstn_nil.
  - answered H. unfold answer. simpl.
    match goal with
    | |- context [matching ?q (tables w)] =>
        rewrite (@matching_unfiltered q (tables w) eq_refl)
    end. simpl.
    set (rows := sort_by (before "created_at" false) (tables w "posts")).
    assert (R : List.length rows = List.length (tables w "posts"))
      by apply sort_by_length.
    rewrite <- R in *.
    assert (P' : (0 <= page * limit)%Z) by lia.
    match goal with
    | |- context [window ?s ?q rows] =>
        rewrite (@window_in_range s q rows _ _ eq_refl) by lia
    end.
    replace (Z.min (page * limit) (Z.of_nat (List.length rows)) + limit - 1
             - Z.min (page * limit) (Z.of_nat (List.length rows)) + 1)%Z
      with limit by lia.
    rewrite skipn_clamped by exact P'.
    destruct (firstn (Z.to_nat limit) (skipn (Z.to_nat (page * limit)) rows))
      as [|r rs] eqn:W; simpl.
    + exists []. split; reflexivity.
    + answered H. unfold answer. simpl.
      eexists. split; [reflexivity|]. simpl. f_equal.
      rewrite !map_map. simpl. apply map_id.
Qed.

Lemma getPosts_page_witness :
  exists l,
    result (getPosts 1 2) (world sample no_faults) = Returned (RList l)
    /\ map fields l
       = [ [("id", CStr "p1"); ("author_id", CStr "ann"); ("created_at", CNum 5)] ].
Proof.
  assert (H : healthy (world sample no_faults)) by (intros n; reflexivity).
  destruct (@getPosts_page 1 2 (world sample no_faults) H) as (l & R & M);
    [lia | lia |].
  exists l. split; [exact R | exact M].
Defined.

(* ------------------------------------------------------------------ *)
(** ** createPost *)
(* ------------------------------------------------------------------ *)

Lemma get_app_present (k : string) (r r' : Row) :
  get k r <> CNull -> get k (r ++ r')%list = get k r.
Proof.
  induction r as [|[k0 v] r IH]; simpl; [congruence|].
  destruct (String.eqb k k0); auto.
Qed.

Lemma createPost_healthy (post : Row) (w : World) :
  healthy w ->
  result (createPost post) w
  = Returned (RObj (plain (fill (post_data post w) (defaults w "posts"))))
  /\ tables (after (createPost post) w)
     = put "posts"
           (tables w "posts" ++ [fill (post_data post w) (defaults w "posts")])%list
           (tables w).
Proof.
  intros H. unfold result, after, createPost. healthy_run H.
  split; reflexivity.
Qed.

Lemma getPostsByAuthor_healthy (authorId : string) (w : World) :
  healthy w ->
  exists author,
    result (getPostsByAuthor authorId) w
    = Returned (RList (map (fun post => attach "author" (author post) post)
                           (posts_by authorId w))).
Proof.
  intros H. unfold posts_by.
  unfold result, getPostsByAuthor. run_probe. rewrite !H. simpl.
  answered H. unfold answer, matching. simpl. rewrite holds_all_one.
  change (map (to_obj (tables w) AllCols [])) with (map plain).
  destruct (sort_by _ _) as [|r rows]; simpl.
  { exists unknownUser. reflexivity. }
  answered H. unfold answer, matching. simpl.
  destruct (filter _ (tables w "profiles")) as [|p [|p' ps]]; simpl.
  - exists unknownUser. reflexivity.
  - exists (fun _ => project author_columns p). reflexivity.
  - exists unknownUser. reflexivity.
Qed.

(** X18.  A post that was created starts with its counters at zero and is
    found among the posts of its author: on a store that answers,
    [createPost] returns the stored post, whose [likes_count],
    [comments_count] and [shares_count] are [0] whatever the caller passed
    for them, and a [getPostsByAuthor] for the [author_id] of the post
    that follows has the stored post in its list. *)
Theorem createPost_then_getPostsByAuthor (post : Row) (authorId : string)
  (w : World) :
  healthy w ->
  get "author_id" post = CStr authorId ->
  exists stored,
    result (createPost post) w = Returned (RObj (plain stored))
    /\ get "likes_count" stored = CNum 0
    /\ get "comments_count" stored = CNum 0
    /\ get "shares_count" stored = CNum 0
    /\ exists l,
         result (getPostsByAuthor authorId) (after (createPost post) w)
         = Returned (RList l)
         /\ exists o, List.In o l /\ fields o = stored.
Proof.
  intros H A.
  destruct (createPost_healthy post H) as [R T].
  pose proof (call_keeps_healthy (CreatePost post) H) as H1. simpl in H1.
  assert (G : forall k v,
             get k (post_data post w) = v -> v <> CNull ->
             get k (fill (post_data post w) (defaults w "posts")) = v).
  { intros k v E N. unfold fill. rewrite get_app_present; congruence. }
  eexists. split; [exact R|].
  split; [apply G; [unfold post_data, spread; simpl; now rewrite !get_set
                   | discriminate]|].
  split; [apply G; [unfold post_data, spread; simpl; now rewrite !get_set
                   | discriminate]|].
  split; [apply G; [unfold post_data, spread; simpl; now rewrite !get_set
                   | discriminate]|].
  destruct (getPostsByAuthor_healthy authorId H1) as (author & L).
  eexists. split; [exact L|].
  eexists. split.
  - apply in_map. unfold posts_by. apply in_map.
    apply sort_by_In, filter_In. split.
    + rewrite T, put_same. apply in_or_app. right. now left.
    + simpl. rewrite (G "author_id" (CStr authorId)).
      * simpl. apply String.eqb_refl.
      * unfold post_data. now rewrite get_spread_other.
      * discriminate.
  - reflexivity.
Qed.

Lemma createPost_then_getPostsByAuthor_witness :
  exists l,
    result (getPostsByAuthor "ann")
           (after (createPost [ ("content", CStr "Hello");
                                ("author_id", CStr "ann");
                                ("visibility", CStr "public");
                                ("likes_count", CNum 99) ])
                  (world sample no_faults))
    = Returned (RList l)
    /\ exists o, List.In o l
                 /\ get "content" (fields o) = CStr "Hello"
                 /\ get "likes_count" (fields o) = CNum 0.
Proof.
  assert (H : healthy (world sample no_faults)) by (intros n; reflexivity).
  destruct (@createPost_then_getPostsByAuthor
              [ ("content", CStr "Hello"); ("author_id", CStr "ann");
                ("visibility", CStr "public"); ("likes_count", CNum 99) ]
              "ann" (world sample no_faults) H eq_refl)
    as (stored & R & Lk & _ & _ & l & G & o & I & F).
  exists l. split; [exact G|]. exists o. split; [exact I|].
  rewrite F. split; [|exact Lk].
  assert (E : Returned (RObj (plain stored))
              = result (createPost [ ("content", CStr "Hello");
                                     ("author_id", CStr "ann");
                                     ("visibility", CStr "public");
                                     ("likes_count", CNum 99) ])
                       (world sample no_faults)) by (symmetry; exact R).
  vm_compute in E. injection E as ->. reflexivity.
Defined.

(* ------------------------------------------------------------------ *)
(** ** Suggestions *)
(* ------------------------------------------------------------------ *)

(** X19.  [getSuggestedConnections] for a limit that is not negative:
    whatever the store does, it returns a list of at most [limit]
    profiles, none of them the requester's; on a store that answers, the
    list is the first [limit] rows of [profiles] that carry an [id] other
    than the requester's. *)
Theorem getSuggestedConnections_others (userId : string) (limit : Z)
  (w : World) :
  (0 <= limit)%Z ->
  exists l,
    result (getSuggestedConnections userId limit) w = Returned (RList l)
    /\ (Z.of_nat (List.length l) <= limit)%Z
    /\ (forall o, List.In o l -> get "id" (fields o) <> CStr userId)
    /\ (healthy w -> l = other_profiles userId limit (tables w)).
Proof.
  intros L.
  destruct (getSuggestedConnections_spec userId limit w) as (l & R & B & X).
  exists l. split; [exact R|]. split; [exact (B L)|]. split; [exact X|].
  intros H. revert R.
  unfold result, getSuggestedConnections. healthy_run H.
  unfold window. simpl.
  destruct (limit <? 0)%Z eqn:E; [apply Z.ltb_lt in E; lia|]. simpl.
  unfold matching. simpl. rewrite holds_all_one.
  intros R. injection R as <-. reflexivity.
Qed.

Lemma getSuggestedConnections_others_witness :
  exists l,
    result (getSuggestedConnections "ann" 1)
           (world following_clinic no_faults) = Returned (RList l)
    /\ (Z.of_nat (List.length l) <= 1)%Z.
Proof.
  assert (L : (0 <= 1)%Z) by lia.
  destruct (@getSuggestedConnections_others
              "ann" 1%Z (world following_clinic no_faults) L)
    as (l & R & B & _).
  exists l. split; [exact R | exact B].
Defined.

(** X20.  [getSuggestedInstitutions] for a limit that is not negative:
    whatever the store does, it returns a list of at most [limit]
    profiles; on a store that answers, the list is the first [limit]
    institutions of [profiles] that the requester does not follow (when
    the requester follows somebody, a profile without [id] is left out
    too).  The requester's own profile is not left out. *)
Theorem getSuggestedInstitutions_unfollowed (userId : string) (limit : Z)
  (w : World) :
  (0 <= limit)%Z ->
  exists l,
    result (getSuggestedInstitutions userId limit) w = Returned (RList l)
    /\ (Z.of_nat (List.length l) <= limit)%Z
    /\ (healthy w -> l = unfollowed_institutions userId limit w).
Proof.
  intros L.
  destruct (getSuggestedInstitutions_spec userId limit w) as (l & R & B & _).
  exists l. split; [exact R|]. split; [exact (B L)|].
  intros H. revert R.
  unfold result, getSuggestedInstitutions. healthy_run H.
  rewrite followed_ids.
  unfold unfollowed_institutions.
  destruct (followed_by userId w) as [|x xs] eqn:F.
  all: simpl; repeat (progress (answered H; unfold answer; simpl)).
  all: unfold window; simpl.
  all: destruct (limit <? 0)%Z eqn:E; [apply Z.ltb_lt in E; lia|]; simpl.
  all: unfold matching; simpl.
  all: intros R; injection R as <-; do 2 f_equal.
  all: apply filter_ext; intros r; unfold holds_all; simpl.
  all: now rewrite ?andb_true_r.
Qed.

Lemma getSuggestedInstitutions_unfollowed_witness :
  result (getSuggestedInstitutions "ann" 10)
         (world following_clinic no_faults)
  = Returned (RList [ plain [ ("id", CStr "school");
                              ("profile_type", CStr "institution") ] ]).
Proof.
  assert (L : (0 <= 10)%Z) by lia.
  assert (H : healthy (world following_clinic no_faults))
    by (intros n; reflexivity).
  destruct (@getSuggestedInstitutions_unfollowed
              "ann" 10%Z (world following_clinic no_faults) L)
    as (l & R & _ & E).
  rewrite R, (E H). reflexivity.
Defined.

(* ------------------------------------------------------------------ *)
(** ** Followers and comments *)
(* ------------------------------------------------------------------ *)

(** X21.  [getFollowers] and [getFollowing] list the follows of the user
    and no other: in every world each element of [getFollowers] is a
    stored follow whose [following_id] is the user, each element of
    [getFollowing] one whose [follower_id] is the user, newest first
    (ties allowed); on a store that answers every such follow is
    listed. *)
Theorem follow_lists (userId : string) (w : World) :
  (exists l,
     result (getFollowers userId) w = Returned (RList l)
     /\ listing (tables w "follows") [Eq "following_id" userId]
                "created_at" l
     /\ (healthy w ->
         complete (tables w "follows") [Eq "following_id" userId] l))
  /\ (exists l,
        result (getFollowing userId) w = Returned (RList l)
        /\ listing (tables w "follows") [Eq "follower_id" userId]
                   "created_at" l
        /\ (healthy w ->
            complete (tables w "follows") [Eq "follower_id" userId] l)).
Proof.
  split.
  - unfold result, getFollowers. run_probe.
    destruct (faults w (List.length (log w))) eqn:F0; simpl.
    { exists []. split; [reflexivity|]. split; [apply listing_nil|].
      intros H. rewrite H in F0. discriminate. }
    issue;
      try (exists []; split; [reflexivity|]; split; [apply listing_nil|];
           intros H; rewrite H in *; discriminate).
    unfold answer, matching. simpl. eexists. split; [reflexivity|].
    destruct (listing_of_select (tables w) "follows" "created_at"
                [Eq "following_id" userId]
                [mkEmbed "follower" "profiles" "follower_id"]) as [L C].
    split; [exact L | intros _; exact C].
  - unfold result, getFollowing. run_probe.
    destruct (faults w (List.length (log w))) eqn:F0; simpl.
    { exists []. split; [reflexivity|]. split; [apply listing_nil|].
      intros H. rewrite H in F0. discriminate. }
    issue;
      try (exists []; split; [reflexivity|]; split; [apply listing_nil|];
           intros H; rewrite H in *; discriminate).
    unfold answer, matching. simpl. eexists. split; [reflexivity|].
    destruct (listing_of_select (tables w) "follows" "created_at"
                [Eq "follower_id" userId]
                [mkEmbed "following" "profiles" "following_id"]) as [L C].
    split; [exact L | intros _; exact C].
Qed.

Lemma follow_lists_witness :
  exists l,
    result (getFollowers "clinic") (world followers no_faults)
    = Returned (RList l)
    /\ map (fun o => get "follower_id" (fields o)) l = [CStr "bob"; CStr "ann"]
    /\ complete (followers "follows") [Eq "following_id" "clinic"] l.
Proof.
  destruct (follow_lists "clinic" (world followers no_faults))
    as [(l & R & _ & C) _].
  assert (H : healthy (world followers no_faults)) by (intros n; reflexivity).
  exists l. split; [exact R|]. split; [|exact (C H)].
  assert (E : Returned (RList l)
              = result (getFollowers "clinic") (world followers no_faults))
    by (symmetry; exact R).
  vm_compute in E. injection E as ->. reflexivity.
Defined.

Lemma createComment_healthy (comment : Row) (w : World) :
  healthy w ->
  result (createComment comment) w
  = Returned (RObj (plain (fill (comment_data comment w)
                                (defaults w "post_comments"))))
  /\ tables (after (createComment comment) w)
     = put "post_comments"
           (tables w "post_comments"
            ++ [fill (comment_data comment w) (defaults w "post_comments")])%list
           (tables w).
Proof.
  intros H. unfold result, after, createComment. healthy_run H.
  split; reflexivity.
Qed.

Lemma getPostComments_healthy (postId : string) (w : World) :
  healthy w ->
  result (getPostComments postId) w
  = Returned (RList
      (map (to_obj (tables w) AllCols [mkEmbed "author" "profiles" "author_id"])
           (sort_by (before "created_at" true)
              (filter (holds (Eq "post_id" postId))
                      (tables w "post_comments"))))).
Proof.
  intros H. unfold result, getPostComments. healthy_run H.
  unfold matching. simpl. rewrite holds_all_one. reflexivity.
Qed.

(** X22.  A comment that was created is found among the comments of its
    post, and the post is not told: on a store that answers,
    [createComment] returns the stored comment, adds it to
    [post_comments] and changes no other table (the [comments_count] of
    the post stays as it was), and a [getPostComments] for the [post_id]
    of the comment that follows has the stored comment in its list. *)
Theorem createComment_then_getPostComments (comment : Row) (postId : string)
  (w : World) :
  healthy w ->
  get "post_id" comment = CStr postId ->
  exists stored,
    result (createComment comment) w = Returned (RObj (plain stored))
    /\ tables (after (createComment comment) w)
       = put "post_comments" (tables w "post_comments" ++ [stored])%list
             (tables w)
    /\ tables (after (createComment comment) w) "posts" = tables w "posts"
    /\ exists l,
         result (getPostComments postId) (after (createComment comment) w)
         = Returned (RList l)
         /\ exists o, List.In o l /\ fields o = stored.
Proof.
  intros H P.
  destruct (createComment_healthy comment H) as [R T].
  pose proof (call_keeps_healthy (CreateComment comment) H) as H1.
  simpl in H1.
  eexists. split; [exact R|]. split; [exact T|].
  split; [rewrite T; reflexivity|].
  eexists. split; [apply (getPostComments_healthy postId H1)|].
  eexists. split.
  - apply in_map. apply sort_by_In, filter_In. split.
    + rewrite T, put_same. apply in_or_app. right. now left.
    + unfold fill. simpl. rewrite get_app_present.
      * unfold comment_data. rewrite get_spread_other by reflexivity.
        rewrite P. simpl. apply String.eqb_refl.
      * unfold comment_data. rewrite get_spread_other by reflexivity.
        rewrite P. discriminate.
  - reflexivity.
Qed.

Lemma createComment_then_getPostComments_witness :
  exists l,
    result (getPostComments "p1")
           (after (createComment [ ("content", CStr "Well said");
                                   ("post_id", CStr "p1");
                                   ("author_id", CStr "ann") ])
                  (world sample no_faults))
    = Returned (RList l)
    /\ exists o, List.In o l /\ get "content" (fields o) = CStr "Well said".
Proof.
  assert (H : healthy (world sample no_faults)) by (intros n; reflexivity).
  destruct (@createComment_then_getPostComments
              [ ("content", CStr "Well said"); ("post_id", CStr "p1");
                ("author_id", CStr "ann") ]
              "p1" (world sample no_faults) H eq_refl)
    as (stored & R & _ & _ & l & G & o & I & F).
  exists l. split; [exact G|]. exists o. split; [exact I|].
  rewrite F.
  assert (E : Returned (RObj (plain stored))
              = result (createComment [ ("content", CStr "Well said");
                                        ("post_id", CStr "p1");
                                        ("author_id", CStr "ann") ])
                       (world sample no_faults)) by (symmetry; exact R).
  vm_compute in E. injection E as ->. reflexivity.
Defined.

(* ------------------------------------------------------------------ *)
(** ** The connection button *)
(* ------------------------------------------------------------------ *)

Import Ui ConnectionButton.



Ltac ui_run :=
  unfold Ui.try_catch, Ui.finally, Ui.bind, Ui.lift, Ui.modify, Ui.ret,
         Ui.throw; simpl.






(** X25.  A request that fails leaves the button as it was.  When the
    request of [handleConnect] or of [handleRemoveConnection] is answered
    with an error or throws, the status is unchanged, the button is not
    busy any more and no table has changed; when the request of
    [fetchConnectionStatus] fails otherwise than with the not-found code,
    the button is unchanged. *)
Theorem button_survives_failure (user : option string) (u profileId : string)
  (b : Button) (w : World) (f : Fault) :
  fault_at 0 w = Some f ->
  user_id user = Some u ->
  (loading b = false ->
   (state_after (handleConnect user profileId None) b w
    = mkButton (status b) false
    /\ tables (world_after (handleConnect user profileId None) b w) = tables w)
   /\ (state_after (handleRemoveConnection user profileId None) b w
       = mkButton (status b) false
       /\ tables (world_after (handleRemoveConnection user profileId None) b w)
          = tables w))
  /\ (f <> ErrorReply PGRST116 ->
      state_after (fetchConnectionStatus user profileId) b w = b).
Proof.
  intros F U. unfold fault_at in F. rewrite Nat.add_0_r in F.
  split.
  - intros L. split.
    + unfold state_after, world_after, handleConnect. rewrite U, L. ui_run.
      unfold await. simpl. rewrite F. destruct f; simpl; split; reflexivity.
    + unfold state_after, world_after, handleRemoveConnection.
      rewrite U, L. ui_run.
      unfold await. simpl. rewrite F. destruct f; simpl; split; reflexivity.
  - intros N. unfold state_after, fetchConnectionStatus. rewrite U. ui_run.
    unfold single, await. simpl. rewrite F. destruct f as [c|]; simpl.
    + destruct (String.eqb c PGRST116) eqn:E.
      * apply String.eqb_eq in E. subst. contradiction.
      * reflexivity.
    + reflexivity.
Qed.

Lemma button_survives_failure_witness :
  state_after (handleConnect (Some "bob") "ann" None)
              (mkButton none false)
              (world sample (fault_on 0 (ErrorReply "42501")))
  = mkButton none false
  /\ state_after (fetchConnectionStatus (Some "bob") "ann")
                 (mkButton connected false)
                 (world sample (fault_on 0 NetworkThrow))
     = mkButton connected false.
Proof.
  destruct (@button_survives_failure
              (Some "bob") "bob" "ann" (mkButton none false)
              (world sample (fault_on 0 (ErrorReply "42501")))
              (ErrorReply "42501") eq_refl eq_refl) as [C _].
  destruct (C eq_refl) as [[S _] _].
  destruct (@button_survives_failure
              (Some "bob") "bob" "ann" (mkButton connected false)
              (world sample (fault_on 0 NetworkThrow))
              NetworkThrow eq_refl eq_refl) as [_ G].
  split; [exact S | apply G; discriminate].
Defined.

(** X26.  One request at a time, and only for a signed-in user: without a
    user, or while the button is busy, [handleConnect] and
    [handleRemoveConnection] do nothing at all, in every world: no
    request, no change of the button, no call of [onStatusChange].
    Otherwise, on a store that answers, [handleConnect] adds one pending
    row from the user to the profile to [connections] and leaves the
    button at [pending] and not busy. *)
Theorem button_connects (user : option string) (profileId : string)
  (onStatusChange : option (Js unit)) (b : Button) (w : World) :
  (user_id user = None \/ loading b = true ->
   handleConnect user profileId onStatusChange b w = (Returned tt, b, w)
   /\ handleRemoveConnection user profileId onStatusChange b w
      = (Returned tt, b, w))
  /\ (forall u,
        user_id user = Some u -> loading b = false -> healthy w ->
        state_after (handleConnect user profileId None) b w
        = mkButton pending false
        /\ tables (world_after (handleConnect user profileId None) b w)
           = put "connections"
                 (tables w "connections"
                  ++ [fill [ ("requester_id", CStr u);
                             ("recipient_id", CStr profileId);
                             ("status", CStr "pending") ]
                           (defaults w "connections")])%list
                 (tables w)).
Proof.
  split.
  - intros G. unfold handleConnect, handleRemoveConnection.
    destruct G as [-> | ->]; [|destruct (user_id user)]; split; reflexivity.
  - intros u U L H.
    unfold state_after, world_after, handleConnect. rewrite U, L. ui_run.
    answered H. unfold answer. simpl. split; reflexivity.
Qed.

Lemma button_connects_witness :
  state_after (handleConnect (Some "bob") "ann" None) (mkButton none false)
              (world sample no_faults)
  = mkButton pending false
  /\ state_after (handleConnect (Some "bob") "ann" None) (mkButton none true)
                 (world sample no_faults)
     = mkButton none true.
Proof.
  assert (H : healthy (world sample no_faults)) by (intros n; reflexivity).
  destruct (button_connects (Some "bob") "ann" None (mkButton none false)
                            (world sample no_faults)) as [_ C].
  destruct (button_connects (Some "bob") "ann" None (mkButton none true)
                            (world sample no_faults)) as [G _].
  split.
  - exact (proj1 (C "bob" eq_refl eq_refl H)).
  - unfold state_after. rewrite (proj1 (G (or_intror eq_refl))). reflexivity.
Defined.

(* ------------------------------------------------------------------ *)
(** ** The profile page *)
(* ------------------------------------------------------------------ *)

Import Ui ProfilePage.

(** A lookup on a store that answers: it returns, the store still
    answers and holds the same tables. *)
Lemma lookup_step (op : Op) (w : World) :
  reads_only op = true ->
  healthy w ->
  exists v w',
    call op w = (Returned v, w')
    /\ result (call op) w = Returned v
    /\ healthy w'
    /\ tables w' = tables w.
Proof.
  intros R H.
  destruct (call_cases op w) as (v & w' & E & _).
  destruct (call_frame op w) as (F & _ & T & _).
  unfold after in *. rewrite E in *. simpl in *.
  exists v, w'. split; [reflexivity|]. split; [unfold result; now rewrite E|].
  split; [intros n; rewrite F; apply H | auto].
Qed.

(** The four lookups the page starts with. *)
Lemma page_lookups (profileId : string) (w : World) :
  healthy w ->
  exists v1 v2 v3 v4 w1 w2 w3 w4,
    getProfile profileId w = (Returned v1, w1)
    /\ getExperiences profileId w1 = (Returned v2, w2)
    /\ getEducation profileId w2 = (Returned v3, w3)
    /\ getPostsByAuthor profileId w3 = (Returned v4, w4)
    /\ result (getProfile profileId) w = Returned v1
    /\ healthy w4
    /\ tables w4 = tables w.
Proof.
  intros H.
  destruct (lookup_step (GetProfile profileId) eq_refl H)
    as (v1 & w1 & E1 & R1 & H1 & T1).
  destruct (lookup_step (GetExperiences profileId) eq_refl H1)
    as (v2 & w2 & E2 & _ & H2 & T2).
  destruct (lookup_step (GetEducation profileId) eq_refl H2)
    as (v3 & w3 & E3 & _ & H3 & T3).
  destruct (lookup_step (GetPostsByAuthor profileId) eq_refl H3)
    as (v4 & w4 & E4 & _ & H4 & T4).
  exists v1, v2, v3, v4, w1, w2, w3, w4.
  repeat split; auto. congruence.
Qed.

Lemma logged (message : string) (w : World) :
  healthy w -> healthy (snd (console_log message w))
               /\ tables (snd (console_log message w)) = tables w.
Proof. intros H. split; [exact H | reflexivity]. Qed.

(** X27.  A profile that is not there sends the visitor away: on a store
    that answers and holds no row for the profile, [fetchProfileData]
    leaves the page without a profile, tells "Profile not found", sends
    the router to the feed and ends the loading; no view is recorded and
    no table changes. *)
Theorem page_of_missing_profile (user : option string) (profileId : string)
  (w : World) :
  healthy w ->
  profileId <> "" ->
  profiles_of profileId (tables w) = [] ->
  let page := state_after (fetchProfileData user profileId) initial w in
  profile page = None
  /\ toasts page = ["Profile not found"]
  /\ route page = Some "/feed"
  /\ loading page = false
  /\ tables (world_after (fetchProfileData user profileId) initial w)
     = tables w.
Proof.
  intros H N E.
  apply String.eqb_neq in N.
  unfold state_after, world_after, fetchProfileData. rewrite N. ui_run.
  match goal with
  | |- context [getProfile profileId ?w0] =>
      destruct (@page_lookups profileId w0 H)
        as (v1 & v2 & v3 & v4 & w1 & w2 & w3 & w4
            & E1 & E2 & E3 & E4 & R1 & H4 & T4);
      rewrite (@getProfile_no_row profileId w0) in R1
  end.
  - injection R1 as <-. rewrite E1, E2, E3, E4. simpl.
    repeat split; auto.
  - unfold reachable. simpl. now rewrite H.
  - unfold fault_at. simpl. apply H.
  - exact E.
Qed.

Lemma page_of_missing_profile_witness :
  route (state_after (fetchProfileData (Some "ann") "bob") initial
                     (world sample no_faults))
  = Some "/feed".
Proof.
  assert (H : healthy (world sample no_faults)) by (intros n; reflexivity).
  assert (N : "bob" <> "") by discriminate.
  exact (proj1 (proj2 (proj2 (@page_of_missing_profile
                                (Some "ann") "bob" (world sample no_faults)
                                H N eq_refl)))).
Defined.

Lemma visitor_is_not_owner (user : option string) (u profileId : string) :
  user_id user = Some u -> u <> profileId ->
  user = Some u /\ isOwnProfile user profileId = false.
Proof.
  intros U N. destruct user as [id|]; simpl in U; [|discriminate].
  destruct (String.eqb id ""); [discriminate|]. injection U as ->.
  split; [reflexivity|]. simpl. now apply String.eqb_neq.
Qed.

(** The page of a visitor who is not the owner, on a store that answers
    and holds one row for the profile. *)
Lemma page_of_visitor (user : option string) (u profileId : string)
  (p : Row) (w : World) :
  healthy w ->
  profileId <> "" ->
  profiles_of profileId (tables w) = [p] ->
  user_id user = Some u ->
  u <> profileId ->
  exists v2 v3 v4 w4,
    state_after (fetchProfileData user profileId) initial w
    = mkPage (Some (plain p)) (rows v2) (rows v3) (rows v4) false
             (kept (connections_of u profileId (tables w))) [] None
    /\ tables (world_after (fetchProfileData user profileId) initial w)
       = put "profile_views" (recorded profileId u w4) (tables w)
    /\ tables w4 = tables w.
Proof.
  intros H N E U D.
  destruct (visitor_is_not_owner user U D) as (-> & O).
  apply String.eqb_neq in N.
  unfold state_after, world_after, fetchProfileData. rewrite N. ui_run.
  match goal with
  | |- context [getProfile profileId ?w0] =>
      destruct (@page_lookups profileId w0 H)
        as (v1 & v2 & v3 & v4 & w1 & w2 & w3 & w4
            & E1 & E2 & E3 & E4 & R1 & H4 & T4);
      rewrite (@getProfile_found profileId w0 p H E) in R1
  end.
  injection R1 as <-. rewrite E1, E2, E3, E4. simpl.
  simpl in O. rewrite O. simpl in U. rewrite U.
  exists v2, v3, v4, w4.
  assert (D' : profileId <> u) by congruence.
  destruct (@recordProfileView_healthy profileId u w4 D' H4) as (R5 & T5).
  pose proof (call_keeps_healthy (RecordProfileView profileId u) H4) as H5.
  simpl in H5. unfold result, after in *.
  destruct (recordProfileView profileId u w4) as [o5 w5]. simpl in *.
  subst o5.
  pose proof (@getConnectionStatus_healthy u profileId w5 H5) as R6.
  destruct (call_frame (GetConnectionStatus u profileId) w5) as (_ & _ & T6 & _).
  specialize (T6 eq_refl). simpl in T6.
  unfold result, after in *.
  destruct (getConnectionStatus u profileId w5) as [o6 w6]. simpl in *.
  subst o6. unfold setConnectionStatus, Ui.modify. simpl.
  rewrite T6, T5, T4.
  assert (C : connections_of u profileId
                (put "profile_views" (recorded profileId u w4) (tables w))
              = connections_of u profileId (tables w)) by reflexivity.
  rewrite C.
  split; [|split; reflexivity].
  unfold kept.
  destruct (connections_of u profileId (tables w)) as [|r [|r' rs]];
    try reflexivity.
  destruct (truthy (get "status" r)) eqn:Y; simpl; now rewrite ?Y.
Qed.

(** X28.  The page records the visit with the two roles exchanged:
    [fetchProfileData] passes the visited profile where
    [recordProfileView] takes the viewer.  On a store that answers and
    holds one row for the profile, for a visitor who is not the owner,
    after the visit [profile_views] holds a view whose [viewer_id] is the
    visited profile and whose [profile_id] is the visitor, whether it was
    added or laid over a stored one; the views of the profile by the
    visitor are as they were before, and no other table changes. *)
Theorem page_records_view_with_roles_exchanged (user : option string)
  (u profileId : string) (p : Row) (w : World) :
  healthy w ->
  profileId <> "" ->
  profiles_of profileId (tables w) = [p] ->
  user_id user = Some u ->
  u <> profileId ->
  let w' := world_after (fetchProfileData user profileId) initial w in
  (exists view,
     List.In view (tables w' "profile_views")
     /\ get "viewer_id" view = CStr profileId
     /\ get "profile_id" view = CStr u)
  /\ views_of u profileId (tables w') = views_of u profileId (tables w)
  /\ forall t, t <> "profile_views" -> tables w' t = tables w t.
Proof.
  intros H N E U D w'.
  destruct (page_of_visitor user H N E U D)
    as (v2 & v3 & v4 & w4 & _ & T & T4).
  subst w'. rewrite T. unfold views_of. rewrite put_same.
  destruct (recorded_views profileId u w4) as (_ & _ & S & _).
  split; [|split].
  - destruct (filter (is_view profileId u) (recorded profileId u w4))
      as [|view l] eqn:F; [congruence|].
    assert (I : List.In view (filter (is_view profileId u)
                                     (recorded profileId u w4)))
      by (rewrite F; now left).
    apply filter_In in I. destruct I as [I Y].
    unfold is_view in Y. cbn [holds] in Y.
    apply andb_true_iff in Y. destruct Y as [Y1 Y2].
    exists view. split; [exact I|].
    split; now apply cell_eqb_eq.
  - rewrite recorded_other_views, T4; [reflexivity|].
    apply andb_false_iff. left. apply String.eqb_neq. congruence.
  - intros t Nt. unfold put. apply String.eqb_neq in Nt. now rewrite Nt.
Qed.

Lemma page_records_view_with_roles_exchanged_witness :
  exists view,
    List.In view
      (tables (world_after (fetchProfileData (Some "bob") "ann") initial
                           (world connected_profile no_faults))
              "profile_views")
    /\ get "viewer_id" view = CStr "ann"
    /\ get "profile_id" view = CStr "bob".
Proof.
  assert (H : healthy (world connected_profile no_faults))
    by (intros n; reflexivity).
  assert (N : "ann" <> "") by discriminate.
  assert (D : "bob" <> "ann") by discriminate.
  exact (proj1 (@page_records_view_with_roles_exchanged
                  (Some "bob") "bob" "ann"
                  [("id", CStr "ann"); ("full_name", CStr "Ann")]
                  (world connected_profile no_faults) H N eq_refl eq_refl D)).
Defined.

(** X29.  The page keeps the stored status, and the header does not know
    it: on a store that answers and holds one row for the profile, for a
    visitor who is not the owner, [connectionStatus] is the status column
    of the one connection between the two (["none"] when there is none,
    more than one, or an empty status).  The header tests for
    ["connected"] and ["pending"], so for an accepted connection, stored
    as ["accepted"], the button reads "Connect" and is enabled. *)
Theorem page_keeps_stored_status (user : option string)
  (u profileId : string) (p : Row) (w : World) :
  healthy w ->
  profileId <> "" ->
  profiles_of profileId (tables w) = [p] ->
  user_id user = Some u ->
  u <> profileId ->
  let page := state_after (fetchProfileData user profileId) initial w in
  connectionStatus page = kept (connections_of u profileId (tables w))
  /\ profile page = Some (plain p)
  /\ loading page = false
  /\ toasts page = []
  /\ (forall c,
        connections_of u profileId (tables w) = [c] ->
        get "status" c = CStr "accepted" ->
        connect_label (connectionStatus page) = "Connect"
        /\ connect_disabled (connectionStatus page) = false).
Proof.
  intros H N E U D page.
  destruct (page_of_visitor user H N E U D) as (v2 & v3 & v4 & w4 & S & _).
  subst page. rewrite S. simpl.
  do 4 (split; [reflexivity|]).
  intros c C A. rewrite C. simpl. rewrite A. split; reflexivity.
Qed.

Lemma page_keeps_stored_status_witness :
  connect_label
    (connectionStatus
       (state_after (fetchProfileData (Some "bob") "ann") initial
                    (world connected_profile no_faults)))
  = "Connect".
Proof.
  assert (H : healthy (world connected_profile no_faults))
    by (intros n; reflexivity).
  assert (N : "ann" <> "") by discriminate.
  assert (D : "bob" <> "ann") by discriminate.
  destruct (@page_keeps_stored_status
              (Some "bob") "bob" "ann"
              [("id", CStr "ann"); ("full_name", CStr "Ann")]
              (world connected_profile no_faults) H N eq_refl eq_refl D)
    as (_ & _ & _ & _ & L).
  exact (proj1 (L _ eq_refl eq_refl)).
Defined.

(** X30.  Connecting from the page: on a store that answers, for a signed-in
    visitor and a profile, [handleConnect] adds one pending row from the
    visitor to the profile to [connections], whatever the table already
    holds for the two, sets the status of the page to ["pending"] and
    tells "Connection request sent!".  On a store that cannot be reached
    it changes neither the tables nor the status and tells "Failed to
    send connection request". *)
Theorem page_connect (user : option string) (u profileId : string)
  (page : Page) (w : World) :
  user_id user = Some u ->
  profileId <> "" ->
  let page' := state_after (handleConnect user profileId) page w in
  let w' := world_after (handleConnect user profileId) page w in
  (healthy w ->
   exists c,
     tables w' = put "connections" (tables w "connections" ++ [c])%list
                     (tables w)
     /\ get "requester_id" c = CStr u
     /\ get "recipient_id" c = CStr profileId
     /\ get "status" c = CStr "pending"
     /\ connectionStatus page' = CStr "pending"
     /\ toasts page' = (toasts page ++ ["Connection request sent!"])%list)
  /\ (reachable w = false ->
      tables w' = tables w
      /\ connectionStatus page' = connectionStatus page
      /\ toasts page'
         = (toasts page ++ ["Failed to send connection request"])%list).
Proof.
  intros U N page' w'. subst page' w'.
  apply String.eqb_neq in N.
  unfold state_after, world_after, handleConnect. rewrite U, N. ui_run.
  split.
  - intros H.
    match goal with
    | |- context [sendConnectionRequest u profileId ?w0] =>
        destruct (@sendConnectionRequest_healthy u profileId w0 H)
          as (c & R & C1 & C2 & C3 & T);
        unfold result, after in R, T;
        destruct (sendConnectionRequest u profileId w0) as [o w1]
    end.
    simpl in R, T. subst o. simpl. exists c. repeat split; auto.
  - intros R.
    unfold reachable in R. unfold sendConnectionRequest. run_probe.
    rewrite R. simpl. repeat split.
Qed.

Lemma page_connect_witness :
  connectionStatus
    (state_after (handleConnect (Some "bob") "ann") initial
                 (world connected_profile no_faults))
  = CStr "pending"
  /\ connectionStatus
       (state_after (handleConnect (Some "bob") "ann") initial
                    (world connected_profile (fault_on 0 NetworkThrow)))
     = CStr "none".
Proof.
  assert (H : healthy (world connected_profile no_faults))
    by (intros n; reflexivity).
  assert (N : "ann" <> "") by discriminate.
  split.
  - destruct (proj1 (@page_connect (Some "bob") "bob" "ann" initial
                       (world connected_profile no_faults) eq_refl N) H)
      as (c & _ & _ & _ & _ & S & _).
    exact S.
  - destruct (proj2 (@page_connect (Some "bob") "bob" "ann" initial
                       (world connected_profile (fault_on 0 NetworkThrow))
                       eq_refl N) eq_refl)
      as (_ & S & _).
    exact S.
Defined.
